(** * A rotating textured sphere drawn with PyQt5 and OpenGL

    Shallow embedding of [PyQt5_Draw_a_Sphere_With_Background_Using_OpenGL.py].

    The program is a [QOpenGLWidget] subclass, [OpenGLWindow], whose methods
    mutate a handful of instance attributes and issue fixed-function OpenGL
    calls.  The embedding keeps every method as a computation in a
    state-and-exception monad over a [World] made of
    - the instance attributes of the widget ([OpenGLWindow]),
    - the toolkit side of the widget ([QWidget]: size, pending repaint),
    - the OpenGL context ([GLState]) together with the list of calls issued
      and the list of drawing operations that reached the framebuffer,
    - the files the image loader can see.

    Python [float] is IEEE-754 binary64; it is modelled by [spec_float] with
    53 bits of precision, so that [self.angle += 0.5] rounds as the
    interpreter does. *)

From Stdlib Require Import ZArith NArith QArith Qabs Lia.
From Stdlib Require Import Floats.SpecFloat.
From Stdlib Require Import Strings.Byte.
From stdpp Require Import gmap strings list fin_maps.

Local Open Scope Z_scope.

(** ** Python numbers *)

(** Precision and exponent bound of binary64. *)
Definition prec : Z := 53.
Definition emax : Z := 1024.

(** The exceptions the program can meet. *)
Inductive exn :=
| FileNotFoundError (path : string)
| PermissionError (path : string)
| UnidentifiedImageError (path : string)
| ZeroDivisionError
| OverflowError
| ArgumentError.

(** [float.__add__] and [float.__lt__]. *)
Definition float_add (x y : spec_float) : spec_float := SFadd prec emax x y.
Definition float_lt (x y : spec_float) : bool := SFltb x y.

(** Zeros and finite numbers, as opposed to infinities and NaN. *)
Definition float_finite (f : spec_float) : bool :=
  match f with
  | S754_zero _ | S754_finite _ _ _ => true
  | _ => false
  end.

(** The sign and magnitude of a non-zero integer, as an unnormalised
    binary float with exponent 0. *)
Definition int_parts (a : Z) : option (bool * positive) :=
  match a with
  | Z0 => None
  | Zpos p => Some (false, p)
  | Zneg p => Some (true, p)
  end.

(** [a / b] on Python [int]s: the quotient rounded once, to nearest even;
    [ZeroDivisionError] for [b = 0], [OverflowError] when the rounded
    quotient is outside the range of a [float]. *)
Definition int_truediv (a b : Z) : exn + spec_float :=
  match int_parts b with
  | None => inl ZeroDivisionError
  | Some (sb, mb) =>
      match int_parts a with
      | None => inr (S754_zero sb)
      | Some (sa, ma) =>
          match SFdiv prec emax (S754_finite sa ma 0) (S754_finite sb mb 0) with
          | S754_infinity _ | S754_nan => inl OverflowError
          | q => inr q
          end
      end
  end.

(** A decimal literal [digits * 10 ^ (- scale)], rounded as the parser
    rounds it.  [lit 5 1] is [0.5], [lit (-45) 1] is [-4.5]. *)
Definition lit (digits scale : Z) : spec_float :=
  match int_truediv digits (10 ^ scale) with
  | inr f => f
  | inl _ => S754_nan
  end.

(** The value of a finite float as a rational. *)
Definition SF2Q (f : spec_float) : option Q :=
  match f with
  | S754_zero _ => Some (0 # 1)%Q
  | S754_finite s m e =>
      Some match e with
           | Zneg p => Qmake (cond_Zopp s (Zpos m)) (2 ^ p)%positive
           | _ => inject_Z (cond_Zopp s (Zpos m) * 2 ^ e)
           end
  | _ => None
  end.

(** The float [k / 2] for [0 <= k <= 2 ^ 53]: mantissa shifted to 53 bits. *)
Definition halves (k : Z) : spec_float :=
  match k with
  | Z0 => S754_zero false
  | _ => S754_finite false (Z.to_pos (Z.shiftl k (52 - Z.log2 k))) (Z.log2 k - 53)
  end.

(** A Python value passed where a number is expected. *)
Inductive pynum :=
| PyInt (z : Z)
| PyFloat (f : spec_float).

(** ** Images (Pillow) *)

(** A decoded picture: rows of RGBA pixels, top row first. *)
Record rgba := { red : byte; green : byte; blue : byte; alpha : byte }.

(** What a path leads to. *)
Inductive file (image : Type) :=
| Unreadable
| NotAnImage
| Picture (im : image).
Arguments Unreadable {image}.
Arguments NotAnImage {image}.
Arguments Picture {image} im.

Module Image.

Record t := {
  width : Z;
  height : Z;
  rows : list (list rgba)
}.

(** [Image.open]: a missing file, one that cannot be read and one that is
    not a picture each raise. *)
Definition open (fs : gmap string (file t)) (path : string) : exn + t :=
  match fs !! path with
  | None => inl (FileNotFoundError path)
  | Some Unreadable => inl (PermissionError path)
  | Some NotAnImage => inl (UnidentifiedImageError path)
  | Some (Picture im) => inr im
  end.

(** [image.transpose(Image.FLIP_TOP_BOTTOM)]. *)
Definition transpose_FLIP_TOP_BOTTOM (im : t) : t :=
  {| width := width im; height := height im; rows := rev (rows im) |}.

(** [image.convert("RGBA").tobytes()]. *)
Definition tobytes (im : t) : list byte :=
  concat (map (fun row => concat (map (fun p => [red p; green p; blue p; alpha p]) row))
              (rows im)).

End Image.

(** The spec's [ImageLoadError]: the loader could not produce a picture. *)
Definition ImageLoadError (e : exn) : bool :=
  match e with
  | FileNotFoundError _ | PermissionError _ | UnidentifiedImageError _ => true
  | _ => false
  end.

(** ** The OpenGL context *)

(** The symbolic constants the program passes. *)
Inductive GLenum :=
| GL_DEPTH_TEST
| GL_TEXTURE_2D
| GL_PROJECTION
| GL_MODELVIEW
| GL_QUADS
| GL_RGBA
| GL_UNSIGNED_BYTE
| GL_TEXTURE_MIN_FILTER
| GL_TEXTURE_MAG_FILTER
| GL_LINEAR
| GL_TRUE.

Definition GL_COLOR_BUFFER_BIT : Z := 0x4000.
Definition GL_DEPTH_BUFFER_BIT : Z := 0x100.

(** One entry per call made into the graphics library, with the Python
    arguments as passed.  The two calls that return a fresh name carry it. *)
Inductive gl_call :=
| glClearColor (r g b a : pynum)
| glEnable (cap : GLenum)
| glDisable (cap : GLenum)
| glViewport (x y w h : pynum)
| glMatrixMode (mode : GLenum)
| glLoadIdentity
| glPushMatrix
| glPopMatrix
| gluPerspective (fovy aspect zNear zFar : pynum)
| gluOrtho2D (left right bottom top_ : pynum)
| glTranslatef (x y z : pynum)
| glRotatef (angle x y z : pynum)
| glScalef (x y z : pynum)
| glClear (mask : Z)
| glGenTextures (n : Z) (name : N)
| glBindTexture (target : GLenum) (texture : N)
| glTexImage2D (target : GLenum) (level : Z) (internalformat : GLenum)
               (w h border : Z) (format type : GLenum) (pixels : list byte)
| glTexParameterf (target pname param : GLenum)
| glBegin (mode : GLenum)
| glTexCoord2f (s t : pynum)
| glVertex2f (x y : pynum)
| glEnd
| gluNewQuadric (quad : N)
| gluQuadricTexture (quad : N) (texture : GLenum)
| gluSphere (quad : N) (radius : pynum) (slices stacks : Z)
| gluDeleteQuadric (quad : N).

(** A matrix is kept as the list of transformations multiplied onto the
    identity, oldest first; [glLoadIdentity] empties it. *)
Inductive transform :=
| Perspective (fovy aspect zNear zFar : pynum)
| Ortho2D (left right bottom top_ : pynum)
| Translate (x y z : pynum)
| Rotate (angle x y z : pynum)
| Scale (x y z : pynum).

Definition matrix := list transform.

(** A matrix stack: the current matrix and the pushed copies below it. *)
Record mstack := { current : matrix; saved : list matrix }.

Record tex_object := {
  tex_image : option (Z * Z * list byte);
  tex_min_filter : option GLenum;
  tex_mag_filter : option GLenum
}.

(** The state a drawing operation is issued under. *)
Record pipeline := {
  p_viewport : pynum * pynum * pynum * pynum;
  p_projection : matrix;
  p_modelview : matrix;
  p_depth_test : bool;
  p_texturing : bool;
  p_texture : N
}.

(** A vertex of a primitive: its texture coordinate and its position. *)
Definition vertex : Type := (pynum * pynum) * (pynum * pynum).

(** What reaches the framebuffer. *)
Inductive draw :=
| Cleared (mask : Z)
| Primitive (mode : GLenum) (vertices : list vertex) (p : pipeline)
| Sphere (radius : pynum) (slices stacks : Z) (textured : bool) (p : pipeline).

Record GLState := {
  clear_color : pynum * pynum * pynum * pynum;
  depth_test : bool;
  texture_2d : bool;
  viewport : pynum * pynum * pynum * pynum;
  matrix_mode : GLenum;
  projection : mstack;
  modelview : mstack;
  texcoord : pynum * pynum;
  primitive : option (GLenum * list vertex);
  bound_texture : N;
  textures : gmap N tex_object;
  quadrics : gmap N bool;
  framebuffer : list draw;
  calls : list gl_call
}.

Definition zero : pynum := PyFloat (S754_zero false).

(** A context as the library hands it out. *)
Definition gl_init : GLState := {|
  clear_color := (zero, zero, zero, zero);
  depth_test := false;
  texture_2d := false;
  viewport := (PyInt 0, PyInt 0, PyInt 0, PyInt 0);
  matrix_mode := GL_MODELVIEW;
  projection := {| current := []; saved := [] |};
  modelview := {| current := []; saved := [] |};
  texcoord := (zero, zero);
  primitive := None;
  bound_texture := 0%N;
  textures := ∅;
  quadrics := ∅;
  framebuffer := [];
  calls := []
|}.

Definition pipeline_of (g : GLState) : pipeline := {|
  p_viewport := viewport g;
  p_projection := current (projection g);
  p_modelview := current (modelview g);
  p_depth_test := depth_test g;
  p_texturing := texture_2d g;
  p_texture := bound_texture g
|}.

(** Field updates. *)
Definition set_clear_color c (g : GLState) : GLState :=
  {| clear_color := c; depth_test := depth_test g; texture_2d := texture_2d g;
     viewport := viewport g; matrix_mode := matrix_mode g;
     projection := projection g; modelview := modelview g;
     texcoord := texcoord g; primitive := primitive g;
     bound_texture := bound_texture g; textures := textures g;
     quadrics := quadrics g; framebuffer := framebuffer g; calls := calls g |}.

Definition set_depth_test b (g : GLState) : GLState :=
  {| clear_color := clear_color g; depth_test := b; texture_2d := texture_2d g;
     viewport := viewport g; matrix_mode := matrix_mode g;
     projection := projection g; modelview := modelview g;
     texcoord := texcoord g; primitive := primitive g;
     bound_texture := bound_texture g; textures := textures g;
     quadrics := quadrics g; framebuffer := framebuffer g; calls := calls g |}.

Definition set_texture_2d b (g : GLState) : GLState :=
  {| clear_color := clear_color g; depth_test := depth_test g; texture_2d := b;
     viewport := viewport g; matrix_mode := matrix_mode g;
     projection := projection g; modelview := modelview g;
     texcoord := texcoord g; primitive := primitive g;
     bound_texture := bound_texture g; textures := textures g;
     quadrics := quadrics g; framebuffer := framebuffer g; calls := calls g |}.

Definition set_viewport v (g : GLState) : GLState :=
  {| clear_color := clear_color g; depth_test := depth_test g; texture_2d := texture_2d g;
     viewport := v; matrix_mode := matrix_mode g;
     projection := projection g; modelview := modelview g;
     texcoord := texcoord g; primitive := primitive g;
     bound_texture := bound_texture g; textures := textures g;
     quadrics := quadrics g; framebuffer := framebuffer g; calls := calls g |}.

Definition set_matrix_mode m (g : GLState) : GLState :=
  {| clear_color := clear_color g; depth_test := depth_test g; texture_2d := texture_2d g;
     viewport := viewport g; matrix_mode := m;
     projection := projection g; modelview := modelview g;
     texcoord := texcoord g; primitive := primitive g;
     bound_texture := bound_texture g; textures := textures g;
     quadrics := quadrics g; framebuffer := framebuffer g; calls := calls g |}.

Definition set_projection s (g : GLState) : GLState :=
  {| clear_color := clear_color g; depth_test := depth_test g; texture_2d := texture_2d g;
     viewport := viewport g; matrix_mode := matrix_mode g;
     projection := s; modelview := modelview g;
     texcoord := texcoord g; primitive := primitive g;
     bound_texture := bound_texture g; textures := textures g;
     quadrics := quadrics g; framebuffer := framebuffer g; calls := calls g |}.

Definition set_modelview s (g : GLState) : GLState :=
  {| clear_color := clear_color g; depth_test := depth_test g; texture_2d := texture_2d g;
     viewport := viewport g; matrix_mode := matrix_mode g;
     projection := projection g; modelview := s;
     texcoord := texcoord g; primitive := primitive g;
     bound_texture := bound_texture g; textures := textures g;
     quadrics := quadrics g; framebuffer := framebuffer g; calls := calls g |}.

Definition set_texcoord c (g : GLState) : GLState :=
  {| clear_color := clear_color g; depth_test := depth_test g; texture_2d := texture_2d g;
     viewport := viewport g; matrix_mode := matrix_mode g;
     projection := projection g; modelview := modelview g;
     texcoord := c; primitive := primitive g;
     bound_texture := bound_texture g; textures := textures g;
     quadrics := quadrics g; framebuffer := framebuffer g; calls := calls g |}.

Definition set_primitive p (g : GLState) : GLState :=
  {| clear_color := clear_color g; depth_test := depth_test g; texture_2d := texture_2d g;
     viewport := viewport g; matrix_mode := matrix_mode g;
     projection := projection g; modelview := modelview g;
     texcoord := texcoord g; primitive := p;
     bound_texture := bound_texture g; textures := textures g;
     quadrics := quadrics g; framebuffer := framebuffer g; calls := calls g |}.

Definition set_bound_texture n (g : GLState) : GLState :=
  {| clear_color := clear_color g; depth_test := depth_test g; texture_2d := texture_2d g;
     viewport := viewport g; matrix_mode := matrix_mode g;
     projection := projection g; modelview := modelview g;
     texcoord := texcoord g; primitive := primitive g;
     bound_texture := n; textures := textures g;
     quadrics := quadrics g; framebuffer := framebuffer g; calls := calls g |}.

Definition set_textures t (g : GLState) : GLState :=
  {| clear_color := clear_color g; depth_test := depth_test g; texture_2d := texture_2d g;
     viewport := viewport g; matrix_mode := matrix_mode g;
     projection := projection g; modelview := modelview g;
     texcoord := texcoord g; primitive := primitive g;
     bound_texture := bound_texture g; textures := t;
     quadrics := quadrics g; framebuffer := framebuffer g; calls := calls g |}.

Definition set_quadrics q (g : GLState) : GLState :=
  {| clear_color := clear_color g; depth_test := depth_test g; texture_2d := texture_2d g;
     viewport := viewport g; matrix_mode := matrix_mode g;
     projection := projection g; modelview := modelview g;
     texcoord := texcoord g; primitive := primitive g;
     bound_texture := bound_texture g; textures := textures g;
     quadrics := q; framebuffer := framebuffer g; calls := calls g |}.

Definition set_framebuffer f (g : GLState) : GLState :=
  {| clear_color := clear_color g; depth_test := depth_test g; texture_2d := texture_2d g;
     viewport := viewport g; matrix_mode := matrix_mode g;
     projection := projection g; modelview := modelview g;
     texcoord := texcoord g; primitive := primitive g;
     bound_texture := bound_texture g; textures := textures g;
     quadrics := quadrics g; framebuffer := f; calls := calls g |}.

Definition set_calls c (g : GLState) : GLState :=
  {| clear_color := clear_color g; depth_test := depth_test g; texture_2d := texture_2d g;
     viewport := viewport g; matrix_mode := matrix_mode g;
     projection := projection g; modelview := modelview g;
     texcoord := texcoord g; primitive := primitive g;
     bound_texture := bound_texture g; textures := textures g;
     quadrics := quadrics g; framebuffer := framebuffer g; calls := c |}.

(** The stack [glMatrixMode] selected, and its replacement. *)
Definition selected (g : GLState) : mstack :=
  match matrix_mode g with
  | GL_PROJECTION => projection g
  | _ => modelview g
  end.

Definition set_selected (s : mstack) (g : GLState) : GLState :=
  set_projection (match matrix_mode g with GL_PROJECTION => s | _ => projection g end)
    (set_modelview (match matrix_mode g with GL_PROJECTION => modelview g | _ => s end) g).

(** Multiply the current matrix by a transformation. *)
Definition mult (t : transform) (g : GLState) : GLState :=
  let s := selected g in
  set_selected {| current := current s ++ [t]; saved := saved s |} g.

Definition emit (d : draw) (g : GLState) : GLState :=
  set_framebuffer (framebuffer g ++ [d]) g.

(** The effect of one call on the context.  A call the library would
    reject (an enum out of place, a pop from an empty stack, a vertex
    outside [glBegin]/[glEnd], a quadric that is not live) changes nothing.
    [glBegin] starts a new list of vertices, and [glEnd] hands the list to
    the framebuffer under the state in force at that point. *)
Definition gl_step (c : gl_call) (g : GLState) : GLState :=
  match c with
  | glClearColor r gr b a => set_clear_color (r, gr, b, a) g
  | glEnable GL_DEPTH_TEST => set_depth_test true g
  | glEnable GL_TEXTURE_2D => set_texture_2d true g
  | glEnable _ => g
  | glDisable GL_DEPTH_TEST => set_depth_test false g
  | glDisable GL_TEXTURE_2D => set_texture_2d false g
  | glDisable _ => g
  | glViewport x y w h => set_viewport (x, y, w, h) g
  | glMatrixMode GL_PROJECTION => set_matrix_mode GL_PROJECTION g
  | glMatrixMode GL_MODELVIEW => set_matrix_mode GL_MODELVIEW g
  | glMatrixMode _ => g
  | glLoadIdentity =>
      set_selected {| current := []; saved := saved (selected g) |} g
  | glPushMatrix =>
      let s := selected g in
      set_selected {| current := current s; saved := current s :: saved s |} g
  | glPopMatrix =>
      match saved (selected g) with
      | [] => g
      | m :: below => set_selected {| current := m; saved := below |} g
      end
  | gluPerspective fovy aspect zNear zFar => mult (Perspective fovy aspect zNear zFar) g
  | gluOrtho2D l r b t => mult (Ortho2D l r b t) g
  | glTranslatef x y z => mult (Translate x y z) g
  | glRotatef a x y z => mult (Rotate a x y z) g
  | glScalef x y z => mult (Scale x y z) g
  | glClear mask => emit (Cleared mask) g
  | glGenTextures _ name =>
      set_textures (<[name := {| tex_image := None; tex_min_filter := None;
                                 tex_mag_filter := None |}]> (textures g)) g
  | glBindTexture GL_TEXTURE_2D name => set_bound_texture name g
  | glBindTexture _ _ => g
  | glTexImage2D GL_TEXTURE_2D _ _ w h _ _ _ pixels =>
      set_textures (alter (fun o => {| tex_image := Some (w, h, pixels);
                                      tex_min_filter := tex_min_filter o;
                                      tex_mag_filter := tex_mag_filter o |})
                          (bound_texture g) (textures g)) g
  | glTexImage2D _ _ _ _ _ _ _ _ _ => g
  | glTexParameterf GL_TEXTURE_2D GL_TEXTURE_MIN_FILTER param =>
      set_textures (alter (fun o => {| tex_image := tex_image o;
                                      tex_min_filter := Some param;
                                      tex_mag_filter := tex_mag_filter o |})
                          (bound_texture g) (textures g)) g
  | glTexParameterf GL_TEXTURE_2D GL_TEXTURE_MAG_FILTER param =>
      set_textures (alter (fun o => {| tex_image := tex_image o;
                                      tex_min_filter := tex_min_filter o;
                                      tex_mag_filter := Some param |})
                          (bound_texture g) (textures g)) g
  | glTexParameterf _ _ _ => g
  | glBegin mode => set_primitive (Some (mode, [])) g
  | glTexCoord2f s t => set_texcoord (s, t) g
  | glVertex2f x y =>
      match primitive g with
      | Some (mode, vs) => set_primitive (Some (mode, vs ++ [(texcoord g, (x, y))])) g
      | None => g
      end
  | glEnd =>
      match primitive g with
      | Some (mode, vs) => set_primitive None (emit (Primitive mode vs (pipeline_of g)) g)
      | None => g
      end
  | gluNewQuadric quad => set_quadrics (<[quad := false]> (quadrics g)) g
  | gluQuadricTexture quad flag =>
      set_quadrics (alter (fun _ => match flag with GL_TRUE => true | _ => false end)
                          quad (quadrics g)) g
  | gluSphere quad radius slices stacks =>
      match quadrics g !! quad with
      | Some textured => emit (Sphere radius slices stacks textured (pipeline_of g)) g
      | None => g
      end
  | gluDeleteQuadric quad => set_quadrics (delete quad (quadrics g)) g
  end.

(** A call is carried out and recorded. *)
Definition gl_exec (c : gl_call) (g : GLState) : GLState :=
  let g' := gl_step c g in set_calls (calls g' ++ [c]) g'.

(** ** The widget *)

(** The methods a signal can be connected to. *)
Inductive slot := update_frame_slot.

Module QTimer.
Record t := {
  interval : Z;            (* milliseconds *)
  active : bool;
  timeout : list slot      (* what [timeout.connect] registered *)
}.

(** [QTimer(parent)], [timeout.connect(f)], [start(msec)]. *)
Definition new : t := {| interval := 0; active := false; timeout := [] |}.
Definition connect (f : slot) (tm : t) : t :=
  {| interval := interval tm; active := active tm; timeout := timeout tm ++ [f] |}.
Definition start (msec : Z) (tm : t) : t :=
  {| interval := msec; active := true; timeout := timeout tm |}.
End QTimer.

(** The part of the widget the toolkit keeps: what [self.width()] and
    [self.height()] answer, and whether [self.update()] asked for a repaint. *)
Module QWidget.
Record t := { width : Z; height : Z; update_pending : bool }.
End QWidget.

(** The instance attributes assigned in [__init__]. *)
Record OpenGLWindow := {
  angle : spec_float;
  texture : option N;
  texture_image : string;
  bg_texture : option N;
  background_image : string;
  timer : QTimer.t
}.

Record World := {
  self : OpenGLWindow;
  qt : QWidget.t;
  gl : GLState;
  fs : gmap string (file Image.t)
}.

Definition set_self (o : OpenGLWindow) (w : World) : World :=
  {| self := o; qt := qt w; gl := gl w; fs := fs w |}.
Definition set_qt (q : QWidget.t) (w : World) : World :=
  {| self := self w; qt := q; gl := gl w; fs := fs w |}.
Definition set_gl (g : GLState) (w : World) : World :=
  {| self := self w; qt := qt w; gl := g; fs := fs w |}.

Definition set_angle (a : spec_float) (o : OpenGLWindow) : OpenGLWindow :=
  {| angle := a; texture := texture o; texture_image := texture_image o;
     bg_texture := bg_texture o; background_image := background_image o;
     timer := timer o |}.
Definition set_texture (t : option N) (o : OpenGLWindow) : OpenGLWindow :=
  {| angle := angle o; texture := t; texture_image := texture_image o;
     bg_texture := bg_texture o; background_image := background_image o;
     timer := timer o |}.
Definition set_bg_texture (t : option N) (o : OpenGLWindow) : OpenGLWindow :=
  {| angle := angle o; texture := texture o; texture_image := texture_image o;
     bg_texture := t; background_image := background_image o;
     timer := timer o |}.

(** ** Computations: state and exceptions *)

Inductive outcome (A : Type) :=
| Ok (a : A) (w : World)
| Raise (e : exn) (w : World).
Arguments Ok {A} a w.
Arguments Raise {A} e w.

Definition M (A : Type) : Type := World -> outcome A.

#[global] Instance M_ret : MRet M := fun A a w => Ok a w.
#[global] Instance M_bind : MBind M := fun A B f m w =>
  match m w with
  | Ok a w' => f a w'
  | Raise e w' => Raise e w'
  end.

Definition raise {A} (e : exn) : M A := fun w => Raise e w.
Definition gets {A} (f : World -> A) : M A := fun w => Ok (f w) w.
Definition modify (f : World -> World) : M unit := fun w => Ok tt (f w).
Definition lift {A} (r : exn + A) : M A :=
  match r with
  | inl e => raise e
  | inr a => mret a
  end.

(** A call into the graphics library. *)
Definition call (c : gl_call) : M unit := modify (fun w => set_gl (gl_exec c (gl w)) w).

(** [glGenTextures(1)] and [gluNewQuadric()] answer a name not in use. *)
Definition gen_texture : M N :=
  name ← gets (fun w => fresh (dom (textures (gl w))));
  call (glGenTextures 1 name);;
  mret name.

Definition new_quadric : M N :=
  quad ← gets (fun w => fresh (dom (quadrics (gl w))));
  call (gluNewQuadric quad);;
  mret quad.

(** A texture attribute passed where the binding expects an unsigned
    integer: [None] is refused. *)
Definition as_name (t : option N) : M N :=
  match t with
  | Some name => mret name
  | None => raise ArgumentError
  end.

(** [m] run [n] times in a row. *)
Definition times (n : N) (m : M unit) : M unit :=
  N.iter n (fun k => k;; m) (mret tt).

(** ** The methods of [OpenGLWindow] *)

(** What the third argument of [__init__] stands for here: the files in
    reach and the size the toolkit gave the new widget. *)
Record Parent := {
  parent_fs : gmap string (file Image.t);
  parent_width : Z;
  parent_height : Z
}.

Definition __init__ (texture_image background_image : string) (parent : Parent) : World :=
  {| self := {| angle := S754_zero false;
                texture := None;
                texture_image := texture_image;
                bg_texture := None;
                background_image := background_image;
                timer := QTimer.start 16
                           (QTimer.connect update_frame_slot QTimer.new) |};
     qt := {| QWidget.width := parent_width parent;
              QWidget.height := parent_height parent;
              QWidget.update_pending := false |};
     gl := gl_init;
     fs := parent_fs parent |}.

Definition load_texture (image_file : string) : M N :=
  texture_id ← gen_texture;
  call (glBindTexture GL_TEXTURE_2D texture_id);;
  image ← (files ← gets fs; lift (Image.open files image_file));
  let image := Image.transpose_FLIP_TOP_BOTTOM image in
  let img_data := Image.tobytes image in
  call (glTexImage2D GL_TEXTURE_2D 0 GL_RGBA (Image.width image) (Image.height image) 0
                     GL_RGBA GL_UNSIGNED_BYTE img_data);;
  call (glTexParameterf GL_TEXTURE_2D GL_TEXTURE_MIN_FILTER GL_LINEAR);;
  call (glTexParameterf GL_TEXTURE_2D GL_TEXTURE_MAG_FILTER GL_LINEAR);;
  mret texture_id.

Definition initializeGL : M unit :=
  call (glClearColor (PyFloat (lit 0 1)) (PyFloat (lit 0 1)) (PyFloat (lit 0 1))
                     (PyFloat (lit 10 1)));;
  call (glEnable GL_DEPTH_TEST);;
  call (glEnable GL_TEXTURE_2D);;
  path ← gets (fun w => texture_image (self w));
  t ← load_texture path;
  modify (fun w => set_self (set_texture (Some t) (self w)) w);;
  background ← gets (fun w => background_image (self w));
  if (0 <? String.length background)%nat then
    t ← load_texture background;
    modify (fun w => set_self (set_bg_texture (Some t) (self w)) w)
  else mret tt.

Definition resizeGL (w h : Z) : M unit :=
  call (glViewport (PyInt 0) (PyInt 0) (PyInt w) (PyInt h));;
  call (glMatrixMode GL_PROJECTION);;
  call glLoadIdentity;;
  aspect ← (if negb (h =? 0) then lift (int_truediv w h) else mret (lit 10 1));
  call (gluPerspective (PyFloat (lit 450 1)) (PyFloat aspect)
                       (PyFloat (lit 1 1)) (PyFloat (lit 1000 1)));;
  call (glMatrixMode GL_MODELVIEW).

Definition render_background : M unit :=
  call (glDisable GL_DEPTH_TEST);;
  call (glMatrixMode GL_PROJECTION);;
  call glPushMatrix;;
  call glLoadIdentity;;
  width ← gets (fun w => QWidget.width (qt w));
  height ← gets (fun w => QWidget.height (qt w));
  call (gluOrtho2D (PyInt 0) (PyInt width) (PyInt 0) (PyInt height));;
  call (glMatrixMode GL_MODELVIEW);;
  call glPushMatrix;;
  call glLoadIdentity;;
  bg ← (t ← gets (fun w => bg_texture (self w)); as_name t);
  call (glBindTexture GL_TEXTURE_2D bg);;
  call (glBegin GL_QUADS);;
  call (glTexCoord2f (PyFloat (lit 0 1)) (PyFloat (lit 0 1)));;
  call (glVertex2f (PyFloat (lit 0 1)) (PyFloat (lit 0 1)));;
  call (glTexCoord2f (PyFloat (lit 10 1)) (PyFloat (lit 0 1)));;
  width ← gets (fun w => QWidget.width (qt w));
  call (glVertex2f (PyInt width) (PyFloat (lit 0 1)));;
  call (glTexCoord2f (PyFloat (lit 10 1)) (PyFloat (lit 10 1)));;
  width ← gets (fun w => QWidget.width (qt w));
  height ← gets (fun w => QWidget.height (qt w));
  call (glVertex2f (PyInt width) (PyInt height));;
  call (glTexCoord2f (PyFloat (lit 0 1)) (PyFloat (lit 10 1)));;
  height ← gets (fun w => QWidget.height (qt w));
  call (glVertex2f (PyFloat (lit 0 1)) (PyInt height));;
  call glEnd;;
  call (glMatrixMode GL_PROJECTION);;
  call glPopMatrix;;
  call (glMatrixMode GL_MODELVIEW);;
  call glPopMatrix;;
  call (glEnable GL_DEPTH_TEST).

Definition draw_textured_sphere (radius : spec_float) (slices stacks : Z) : M unit :=
  tex ← (t ← gets (fun w => texture (self w)); as_name t);
  call (glBindTexture GL_TEXTURE_2D tex);;
  quadric ← new_quadric;
  call (gluQuadricTexture quadric GL_TRUE);;
  call (gluSphere quadric (PyFloat radius) slices stacks);;
  call (gluDeleteQuadric quadric).

Definition paintGL : M unit :=
  call (glClear (Z.lor GL_COLOR_BUFFER_BIT GL_DEPTH_BUFFER_BIT));;
  call glLoadIdentity;;
  bg ← gets (fun w => bg_texture (self w));
  (if bg is Some _ then render_background else mret tt);;
  call (glTranslatef (PyFloat (lit 0 1)) (PyFloat (lit 0 1)) (PyFloat (lit (-45) 1)));;
  a ← gets (fun w => angle (self w));
  call (glRotatef (PyFloat a) (PyFloat (lit 20 1)) (PyFloat (lit (-10) 1))
                  (PyFloat (lit (-10) 1)));;
  call (glScalef (PyFloat (lit 10 1)) (PyFloat (lit 10 1)) (PyFloat (lit 10 1)));;
  draw_textured_sphere (lit 15 1) 32 32.

(** [self.update()]: ask the toolkit for a repaint. *)
Definition update : M unit :=
  modify (fun w => set_qt {| QWidget.width := QWidget.width (qt w);
                             QWidget.height := QWidget.height (qt w);
                             QWidget.update_pending := true |} w).

Definition update_frame : M unit :=
  modify (fun w => set_self (set_angle (float_add (angle (self w)) (lit 5 1)) (self w)) w);;
  update.

(** ** The toolkit's events *)

(** The widget is driven by the toolkit: the surface becomes ready, the
    widget is resized, the timer fires, a repaint is due. *)
Inductive event :=
| SurfaceReady
| Resized (w h : Z)
| Timeout
| PaintDue.

Definition run_slot (s : slot) : M unit :=
  match s with
  | update_frame_slot => update_frame
  end.

Fixpoint run_slots (ss : list slot) : M unit :=
  match ss with
  | [] => mret tt
  | s :: ss => run_slot s;; run_slots ss
  end.

(** A resize: the toolkit records the new size, then calls [resizeGL]. *)
Definition resize (w h : Z) : M unit :=
  modify (fun v => set_qt {| QWidget.width := w; QWidget.height := h;
                             QWidget.update_pending := QWidget.update_pending (qt v) |} v);;
  resizeGL w h.

(** A repaint: the pending request is consumed, then [paintGL] runs. *)
Definition repaint : M unit :=
  modify (fun v => set_qt {| QWidget.width := QWidget.width (qt v);
                             QWidget.height := QWidget.height (qt v);
                             QWidget.update_pending := false |} v);;
  paintGL.

Definition dispatch (e : event) : M unit :=
  match e with
  | SurfaceReady => initializeGL
  | Resized w h => resize w h
  | Timeout =>
      tm ← gets (fun v => timer (self v));
      if QTimer.active tm then run_slots (QTimer.timeout tm) else mret tt
  | PaintDue => repaint
  end.

Fixpoint run (es : list event) : M unit :=
  match es with
  | [] => mret tt
  | e :: es => dispatch e;; run es
  end.

(** ** Reading the context *)

(** A list of calls carried out in order. *)
Definition run_calls (cs : list gl_call) (g : GLState) : GLState :=
  fold_left (fun g c => gl_exec c g) cs g.

(** The calls of [load_texture] for a picture found at the path, and
    the ones made before a failing [Image.open]. *)
Definition load_calls (name : N) (im : Image.t) : list gl_call :=
  [ glGenTextures 1 name;
    glBindTexture GL_TEXTURE_2D name;
    glTexImage2D GL_TEXTURE_2D 0 GL_RGBA
                 (Image.width (Image.transpose_FLIP_TOP_BOTTOM im))
                 (Image.height (Image.transpose_FLIP_TOP_BOTTOM im)) 0
                 GL_RGBA GL_UNSIGNED_BYTE
                 (Image.tobytes (Image.transpose_FLIP_TOP_BOTTOM im));
    glTexParameterf GL_TEXTURE_2D GL_TEXTURE_MIN_FILTER GL_LINEAR;
    glTexParameterf GL_TEXTURE_2D GL_TEXTURE_MAG_FILTER GL_LINEAR ].

Definition load_calls_failed (name : N) : list gl_call :=
  [ glGenTextures 1 name; glBindTexture GL_TEXTURE_2D name ].

(** The calls of [initializeGL] before the textures are loaded. *)
Definition init_calls : list gl_call :=
  [ glClearColor (PyFloat (lit 0 1)) (PyFloat (lit 0 1)) (PyFloat (lit 0 1))
                 (PyFloat (lit 10 1));
    glEnable GL_DEPTH_TEST;
    glEnable GL_TEXTURE_2D ].

(** The calls of [resizeGL]. *)
Definition resize_calls (w h : Z) (aspect : spec_float) : list gl_call :=
  [ glViewport (PyInt 0) (PyInt 0) (PyInt w) (PyInt h);
    glMatrixMode GL_PROJECTION;
    glLoadIdentity;
    gluPerspective (PyFloat (lit 450 1)) (PyFloat aspect) (PyFloat (lit 1 1))
                   (PyFloat (lit 1000 1));
    glMatrixMode GL_MODELVIEW ].

(** The calls of [render_background] for a widget of the given size. *)
Definition background_calls (width height : Z) (bg : N) : list gl_call :=
  [ glDisable GL_DEPTH_TEST;
    glMatrixMode GL_PROJECTION;
    glPushMatrix;
    glLoadIdentity;
    gluOrtho2D (PyInt 0) (PyInt width) (PyInt 0) (PyInt height);
    glMatrixMode GL_MODELVIEW;
    glPushMatrix;
    glLoadIdentity;
    glBindTexture GL_TEXTURE_2D bg;
    glBegin GL_QUADS;
    glTexCoord2f (PyFloat (lit 0 1)) (PyFloat (lit 0 1));
    glVertex2f (PyFloat (lit 0 1)) (PyFloat (lit 0 1));
    glTexCoord2f (PyFloat (lit 10 1)) (PyFloat (lit 0 1));
    glVertex2f (PyInt width) (PyFloat (lit 0 1));
    glTexCoord2f (PyFloat (lit 10 1)) (PyFloat (lit 10 1));
    glVertex2f (PyInt width) (PyInt height);
    glTexCoord2f (PyFloat (lit 0 1)) (PyFloat (lit 10 1));
    glVertex2f (PyFloat (lit 0 1)) (PyInt height);
    glEnd;
    glMatrixMode GL_PROJECTION;
    glPopMatrix;
    glMatrixMode GL_MODELVIEW;
    glPopMatrix;
    glEnable GL_DEPTH_TEST ].

(** The calls of [draw_textured_sphere]. *)
Definition sphere_calls (tex quadric : N) (radius : spec_float) (slices stacks : Z)
  : list gl_call :=
  [ glBindTexture GL_TEXTURE_2D tex;
    gluNewQuadric quadric;
    gluQuadricTexture quadric GL_TRUE;
    gluSphere quadric (PyFloat radius) slices stacks;
    gluDeleteQuadric quadric ].

(** The calls of [paintGL]. *)
Definition paint_calls (a : spec_float) (width height : Z) (bg : option N)
  (tex quadric : N) : list gl_call :=
  [ glClear (Z.lor GL_COLOR_BUFFER_BIT GL_DEPTH_BUFFER_BIT); glLoadIdentity ]
  ++ (if bg is Some b then background_calls width height b else [])
  ++ [ glTranslatef (PyFloat (lit 0 1)) (PyFloat (lit 0 1)) (PyFloat (lit (-45) 1));
       glRotatef (PyFloat a) (PyFloat (lit 20 1)) (PyFloat (lit (-10) 1))
                 (PyFloat (lit (-10) 1));
       glScalef (PyFloat (lit 10 1)) (PyFloat (lit 10 1)) (PyFloat (lit 10 1)) ]
  ++ sphere_calls tex quadric (lit 15 1) 32 32.

(** Drawing operations that are a textured quad, a sphere. *)
Definition is_quad (d : draw) : bool :=
  match d with
  | Primitive GL_QUADS _ _ => true
  | _ => false
  end.

Definition is_sphere (d : draw) : bool :=
  match d with
  | Sphere _ _ _ _ _ => true
  | _ => false
  end.

Definition is_new_quadric (c : gl_call) : bool :=
  match c with
  | gluNewQuadric _ => true
  | _ => false
  end.

(** The world after [update_frame] has run [n] times. *)
Definition ticked (n : N) (w : World) : World :=
  {| self := set_angle (N.iter n (fun a => float_add a (lit 5 1)) (angle (self w))) (self w);
     qt := {| QWidget.width := QWidget.width (qt w);
              QWidget.height := QWidget.height (qt w);
              QWidget.update_pending :=
                if (n =? 0)%N then QWidget.update_pending (qt w) else true |};
     gl := gl w;
     fs := fs w |}.

Definition is_glBegin (c : gl_call) : bool :=
  match c with
  | glBegin _ => true
  | _ => false
  end.

Definition is_glEnd (c : gl_call) : bool :=
  match c with
  | glEnd => true
  | _ => false
  end.

(** Widths and heights arrive from the toolkit as C [int]s. *)
Definition c_int (z : Z) : Prop := - 2 ^ 31 <= z < 2 ^ 31.

(** The events the toolkit can deliver. *)
Definition toolkit_event (e : event) : Prop :=
  match e with
  | Resized w h => c_int w /\ c_int h
  | _ => True
  end.

(** The component is [Ready] once [initializeGL] has stored the sphere
    texture, [Uninitialized] before. *)
Definition Ready (w : World) : Prop := texture (self w) <> None.
Definition Uninitialized (w : World) : Prop := texture (self w) = None.

(** Calls that create, change or release a quadric. *)
Definition quadric_call (c : gl_call) : bool :=
  match c with
  | gluNewQuadric _ | gluQuadricTexture _ _ | gluDeleteQuadric _ => true
  | _ => false
  end.

(** The model-view matrix [paintGL] builds for the sphere. *)
Definition sphere_modelview (a : spec_float) : matrix :=
  [ Translate (PyFloat (lit 0 1)) (PyFloat (lit 0 1)) (PyFloat (lit (-45) 1));
    Rotate (PyFloat a) (PyFloat (lit 20 1)) (PyFloat (lit (-10) 1)) (PyFloat (lit (-10) 1));
    Scale (PyFloat (lit 10 1)) (PyFloat (lit 10 1)) (PyFloat (lit 10 1)) ].

(** The quad [render_background] draws, under the state it draws it in. *)
Definition background_quad (width height : Z) (bg : N)
  (vp : pynum * pynum * pynum * pynum) (texturing : bool) : draw :=
  Primitive GL_QUADS
    [ ((PyFloat (lit 0 1), PyFloat (lit 0 1)), (PyFloat (lit 0 1), PyFloat (lit 0 1)));
      ((PyFloat (lit 10 1), PyFloat (lit 0 1)), (PyInt width, PyFloat (lit 0 1)));
      ((PyFloat (lit 10 1), PyFloat (lit 10 1)), (PyInt width, PyInt height));
      ((PyFloat (lit 0 1), PyFloat (lit 10 1)), (PyFloat (lit 0 1), PyInt height)) ]
    {| p_viewport := vp;
       p_projection := [ Ortho2D (PyInt 0) (PyInt width) (PyInt 0) (PyInt height) ];
       p_modelview := [];
       p_depth_test := false;
       p_texturing := texturing;
       p_texture := bg |}.


(** What holds of a widget initialised without a background image: the
    sphere texture is there, the background texture is not, and neither a
    quad nor a [glBegin] has been seen. *)
Definition no_background (im : Image.t) (w : World) : Prop :=
  (exists t, texture (self w) = Some t) /\
  bg_texture (self w) = None /\
  background_image (self w) = EmptyString /\
  fs w !! texture_image (self w) = Some (Picture im) /\
  Forall (fun d => is_quad d = false) (framebuffer (gl w)) /\
  Forall (fun c => is_glBegin c = false) (calls (gl w)).

(** A parent for the examples: two pictures on disk, an 800 x 600 widget. *)
Definition pixel (r g b : byte) : rgba :=
  {| red := r; green := g; blue := b; alpha := xff |}.

Definition earth_jpg : Image.t :=
  {| Image.width := 2; Image.height := 2;
     Image.rows := [ [ pixel x00 x00 xff; pixel x00 x80 x00 ];
                     [ pixel xff xff xff; pixel x00 x00 x80 ] ] |}.

Definition stars_png : Image.t :=
  {| Image.width := 1; Image.height := 1; Image.rows := [ [ pixel x00 x00 x00 ] ] |}.

Definition desktop : Parent :=
  {| parent_fs := {[ "earth.jpg" := Picture earth_jpg; "stars.png" := Picture stars_png;
                     "notes.txt" := NotAnImage ]};
     parent_width := 800;
     parent_height := 600 |}.

(** The world an outcome leaves behind, and the widget of the examples
    once [initializeGL] has run. *)
Definition world_of {A} (o : outcome A) : World :=
  match o with
  | Ok _ w => w
  | Raise _ w => w
  end.

Definition started (texture_image background_image : string) : World :=
  world_of (initializeGL (__init__ texture_image background_image desktop)).

(** ** Vocabulary for the further properties *)

(** A texture name that was generated and never given an image. *)
Definition empty_texture : tex_object :=
  {| tex_image := None; tex_min_filter := None; tex_mag_filter := None |}.

(** What [load_texture] leaves under the name it returns: the picture
    bottom row first, with linear filtering both ways. *)
Definition uploaded (im : Image.t) : tex_object :=
  {| tex_image := Some (Image.width im, Image.height im,
                        Image.tobytes (Image.transpose_FLIP_TOP_BOTTOM im));
     tex_min_filter := Some GL_LINEAR;
     tex_mag_filter := Some GL_LINEAR |}.

(** Calls that only concern texture objects. *)
Definition texture_call (c : gl_call) : bool :=
  match c with
  | glGenTextures _ _ | glBindTexture _ _ | glTexImage2D _ _ _ _ _ _ _ _ _
  | glTexParameterf _ _ _ => true
  | _ => false
  end.

(** The events of a widget in use: [initializeGL] is behind it. *)
Definition steady_event (e : event) : Prop :=
  match e with
  | SurfaceReady => False
  | Resized w h => c_int w /\ c_int h
  | Timeout | PaintDue => True
  end.

Definition is_paint (e : event) : bool :=
  match e with
  | PaintDue => true
  | _ => false
  end.

Definition is_timeout (e : event) : bool :=
  match e with
  | Timeout => true
  | _ => false
  end.

Definition is_clear (d : draw) : bool :=
  match d with
  | Cleared _ => true
  | _ => false
  end.

(** How many elements of a list pass a test. *)
Definition count {A} (f : A -> bool) (l : list A) : nat := length (filter (fun x => f x = true) l).

(** What no method undoes, whether it returns or raises: the paths, the
    timer and the files stay, texture names are only ever added, and the
    live quadrics are the same. *)
Definition evolves (w w' : World) : Prop :=
  texture_image (self w') = texture_image (self w) /\
  background_image (self w') = background_image (self w) /\
  timer (self w') = timer (self w) /\
  fs w' = fs w /\
  dom (textures (gl w)) ⊆ dom (textures (gl w')) /\
  quadrics (gl w') = quadrics (gl w).

(** How a widget in use stands after events that held [paints] repaints
    and [timeouts] timeouts: the handles, paths, timer and files are those
    it started with, no texture or quadric was added or released, each
    repaint has put one clear and one sphere into the framebuffer, and one
    quad if there is a background texture, and each timeout has added 0.5
    to the angle. *)
Definition steady_after (t : N) (w w' : World) (paints timeouts : nat) : Prop :=
  texture (self w') = Some t /\
  bg_texture (self w') = bg_texture (self w) /\
  texture_image (self w') = texture_image (self w) /\
  background_image (self w') = background_image (self w) /\
  timer (self w') = timer (self w) /\
  fs w' = fs w /\
  matrix_mode (gl w') = GL_MODELVIEW /\
  textures (gl w') = textures (gl w) /\
  quadrics (gl w') = quadrics (gl w) /\
  count is_clear (framebuffer (gl w')) = (count is_clear (framebuffer (gl w)) + paints)%nat /\
  count is_sphere (framebuffer (gl w')) = (count is_sphere (framebuffer (gl w)) + paints)%nat /\
  count is_quad (framebuffer (gl w'))
  = (count is_quad (framebuffer (gl w)) + if bg_texture (self w) is Some _ then paints else 0)%nat /\
  angle (self w')
  = N.iter (N.of_nat timeouts) (fun a => float_add a (lit 5 1)) (angle (self w)).

(** A computation that, however it ends, leaves a world that [evolves]
    from the one it started in. *)
Definition keeps {A} (m : M A) : Prop := forall w, evolves w (world_of (m w)).

(** ** The main window *)

Module MainWindow.

Record t := {
  windowTitle : string;
  geometry : Z * Z * Z * Z;
  opengl_widget : World;
  centralWidget : option World
}.

(** [MainWindow.__init__]: the title, the geometry, and the one widget,
    made with the day map as texture and no background, set as the central
    widget.  [host] stands for what surrounds the window: the files and
    the size the new widget starts with. *)
Definition __init__ (host : Parent) : t :=
  let opengl_widget := __init__ "8k_earth_daymap.jpg" EmptyString host in
  {| windowTitle := "OpenGL with PyQt5: Textured Sphere";
     geometry := (100, 100, 800, 600);
     opengl_widget := opengl_widget;
     centralWidget := Some opengl_widget |}.

End MainWindow.

(** * Properties *)

(** ** Binary64 addition on half-integers *)

Lemma digits2_pos_log2 (p : positive) :
  Z.pos (digits2_pos p) = Z.log2 (Z.pos p) + 1.
Proof.
  induction p as [p IH | p IH |]; simpl; try reflexivity.
  - rewrite Pos2Z.inj_succ. destruct p; simpl in *; lia.
  - rewrite Pos2Z.inj_succ. destruct p; simpl in *; lia.
Qed.

Lemma iter_pos_nat {A} (f : A -> A) (p : positive) (x : A) :
  SpecFloat.iter_pos f p x = Nat.iter (Pos.to_nat p) f x.
Proof.
  revert x. induction p as [p IH | p IH |]; intros x; cbn [SpecFloat.iter_pos].
  - rewrite !IH, Pos2Nat.inj_xI.
    replace (S (2 * Pos.to_nat p))%nat with (Pos.to_nat p + S (Pos.to_nat p))%nat by lia.
    rewrite Nat.iter_add, Nat.iter_succ_r. reflexivity.
  - rewrite !IH, Pos2Nat.inj_xO.
    replace (2 * Pos.to_nat p)%nat with (Pos.to_nat p + Pos.to_nat p)%nat by lia.
    rewrite Nat.iter_add. reflexivity.
  - reflexivity.
Qed.

Lemma shr_1_even (a : Z) :
  0 < a ->
  shr_1 {| shr_m := 2 * a; shr_r := false; shr_s := false |}
  = {| shr_m := a; shr_r := false; shr_s := false |}.
Proof. destruct a; try lia. intros _. reflexivity. Qed.

Lemma iter_shr_1_exact (n : nat) (a : Z) :
  0 < a ->
  Nat.iter n shr_1 {| shr_m := a * 2 ^ Z.of_nat n; shr_r := false; shr_s := false |}
  = {| shr_m := a; shr_r := false; shr_s := false |}.
Proof.
  intros Ha. revert a Ha. induction n as [| n IH]; intros a Ha.
  - simpl. f_equal. lia.
  - rewrite Nat.iter_succ_r.
    replace (a * 2 ^ Z.of_nat (S n)) with (2 * (a * 2 ^ Z.of_nat n)).
    + rewrite shr_1_even by lia. apply IH; lia.
    + rewrite Nat2Z.inj_succ, Z.pow_succ_r by lia. ring.
Qed.

Lemma Zdigits2_log2 (n : Z) : 0 < n -> Zdigits2 n = Z.log2 n + 1.
Proof. destruct n; try lia. intros _. apply digits2_pos_log2. Qed.

Lemma shr_exact (a e s : Z) :
  0 < a -> 0 <= s ->
  shr {| shr_m := a * 2 ^ s; shr_r := false; shr_s := false |} e s
  = ({| shr_m := a; shr_r := false; shr_s := false |}, e + s).
Proof.
  intros Ha Hs. destruct s as [| p | p]; try lia.
  - simpl. rewrite Z.mul_1_r, Z.add_0_r. reflexivity.
  - unfold shr. rewrite iter_pos_nat.
    rewrite <- (positive_nat_Z p) at 1.
    rewrite iter_shr_1_exact by assumption. reflexivity.
Qed.

Lemma fexp64 (e : Z) : fexp prec emax e = Z.max (e - 53) (-1074).
Proof. reflexivity. Qed.

Lemma binary_round_aux_exact (sx : bool) (a s ex : Z) :
  2 ^ 52 <= a < 2 ^ 53 -> 0 <= s -> -1074 <= ex + s <= 971 ->
  binary_round_aux prec emax sx (a * 2 ^ s) ex loc_Exact
  = S754_finite sx (Z.to_pos a) (ex + s).
Proof.
  intros Ha Hs He.
  assert (Hl : Z.log2 a = 52) by (apply Z.log2_unique; [lia | exact Ha]).
  assert (Ha0 : 0 < a) by lia.
  unfold binary_round_aux, shr_fexp.
  rewrite Zdigits2_log2 by (apply Z.mul_pos_pos; lia).
  rewrite Z.log2_mul_pow2, Hl, fexp64 by lia.
  replace (Z.max (s + 52 + 1 + ex - 53) (-1074) - ex) with s by lia.
  cbn [shr_record_of_loc]. rewrite shr_exact by lia.
  cbn [loc_of_shr_record shr_m round_nearest_even].
  rewrite Zdigits2_log2, Hl, fexp64 by lia.
  replace (Z.max (52 + 1 + (ex + s) - 53) (-1074) - (ex + s)) with 0 by lia.
  cbn [shr_record_of_loc shr shr_m].
  destruct a as [| pa | pa]; try lia. cbn [Z.to_pos].
  replace (ex + s <=? emax - prec) with true; [reflexivity |].
  symmetry. apply Z.leb_le. unfold emax, prec. lia.
Qed.

Lemma normal_mantissa (n : Z) :
  0 < n <= 2 ^ 53 ->
  2 ^ 52 <= Z.shiftl n (52 - Z.log2 n) < 2 ^ 53 /\
  n * 2 ^ 52 = Z.shiftl n (52 - Z.log2 n) * 2 ^ Z.log2 n.
Proof.
  intros Hn. destruct (Z.eq_dec n (2 ^ 53)) as [-> | Hne].
  - vm_compute. repeat split; congruence.
  - assert (Hl : 0 <= Z.log2 n < 53).
    { split; [apply Z.log2_nonneg | apply Z.log2_lt_pow2; lia]. }
    pose proof (Z.log2_spec n ltac:(lia)) as [Hlo Hhi].
    rewrite Z.shiftl_mul_pow2 by lia.
    assert (Hp : 2 ^ Z.log2 n * 2 ^ (52 - Z.log2 n) = 2 ^ 52).
    { rewrite <- Z.pow_add_r by lia. f_equal. lia. }
    assert (Hq : 2 ^ Z.succ (Z.log2 n) * 2 ^ (52 - Z.log2 n) = 2 ^ 53).
    { rewrite <- Z.pow_add_r by lia. f_equal. lia. }
    assert (Hpos : 0 < 2 ^ (52 - Z.log2 n)) by (apply Z.pow_pos_nonneg; lia).
    repeat split.
    + rewrite <- Hp. apply Z.mul_le_mono_nonneg_r; lia.
    + rewrite <- Hq. apply Z.mul_lt_mono_pos_r; lia.
    + rewrite <- Hp. ring.
Qed.

Lemma shl_align_fst (mx : positive) (ex ex' : Z) :
  ex' <= ex -> Z.pos (fst (shl_align mx ex ex')) = Z.pos mx * 2 ^ (ex - ex').
Proof.
  intros H. unfold shl_align.
  destruct (ex' - ex) as [| d | d] eqn:E; try lia.
  - replace (ex - ex') with 0 by lia. simpl. lia.
  - replace (ex - ex') with (Z.pos d) by lia. cbn [fst].
    change (Pos.iter xO mx d) with (shift_pos d mx).
    rewrite shift_pos_correct. change (Z.pow_pos 2 d) with (2 ^ Z.pos d). ring.
Qed.

Lemma binary_round_exact (p : positive) (n : Z) :
  0 < n <= 2 ^ 53 -> Z.pos p = n * 2 ^ 52 ->
  binary_round prec emax false p (-53) = halves n.
Proof.
  intros Hn Hp.
  destruct (normal_mantissa n Hn) as [Ha Hm].
  assert (Hl : 0 <= Z.log2 n <= 53).
  { split; [apply Z.log2_nonneg |].
    change 53 with (Z.log2 (2 ^ 53)). apply Z.log2_le_mono; lia. }
  unfold binary_round.
  rewrite digits2_pos_log2, Hp, Z.log2_mul_pow2, fexp64 by lia.
  replace (Z.max (52 + Z.log2 n + 1 + -53 - 53) (-1074)) with (Z.log2 n - 53) by lia.
  unfold shl_align.
  destruct (Z.log2 n - 53 - -53) eqn:E; try lia;
    rewrite Hp, Hm, binary_round_aux_exact by lia;
    (destruct n; try lia; unfold halves; f_equal; lia).
Qed.

Lemma SFadd_halves (k : Z) :
  0 <= k < 2 ^ 53 -> float_add (halves k) (lit 5 1) = halves (k + 1).
Proof.
  intros Hk. destruct (Z.eq_dec k 0) as [-> | Hk0]; [reflexivity |].
  destruct (normal_mantissa k ltac:(lia)) as [Ha Hm].
  assert (Hl : 0 <= Z.log2 k < 53).
  { split; [apply Z.log2_nonneg | apply Z.log2_lt_pow2; lia]. }
  destruct k as [| pk | pk]; try lia.
  change (lit 5 1) with (S754_finite false (2 ^ 52) (-53)).
  unfold float_add, halves, SFadd, cond_Zopp.
  rewrite Z.min_r by lia.
  rewrite !shl_align_fst by lia.
  rewrite Z2Pos.id by lia.
  replace (Z.log2 (Z.pos pk) - 53 - -53) with (Z.log2 (Z.pos pk)) by lia.
  rewrite <- Hm.
  replace (Z.pos pk * 2 ^ 52 + Z.pos (2 ^ 52) * 2 ^ (-53 - -53))
    with ((Z.pos pk + 1) * 2 ^ 52) by (change (Z.pos (2 ^ 52)) with (2 ^ 52); change (-53 - -53) with 0; lia).
  destruct ((Z.pos pk + 1) * 2 ^ 52) as [| q | q] eqn:Eq; try lia.
  unfold binary_normalize. apply binary_round_exact; lia.
Qed.

Lemma SFadd_saturated :
  float_add (halves (2 ^ 53)) (lit 5 1) = halves (2 ^ 53).
Proof. vm_compute. reflexivity. Qed.

Lemma SF2Q_halves (k : Z) :
  0 <= k <= 2 ^ 53 ->
  exists q, SF2Q (halves k) = Some q /\ (q == k # 2)%Q.
Proof.
  intros Hk. destruct (Z.eq_dec k 0) as [-> | Hk0].
  { exists (0 # 1)%Q. split; reflexivity. }
  destruct (Z.eq_dec k (2 ^ 53)) as [-> | Hk1].
  { eexists. split; [vm_compute; reflexivity | reflexivity]. }
  assert (Hl : 0 <= Z.log2 k < 53).
  { split; [apply Z.log2_nonneg | apply Z.log2_lt_pow2; lia]. }
  destruct k as [| pk | pk]; try lia.
  unfold halves, SF2Q, cond_Zopp.
  destruct (Z.log2 (Z.pos pk) - 53) as [| e | e] eqn:E; try lia.
  eexists. split; [reflexivity |].
  unfold Qeq. cbn [Qnum Qden].
  rewrite Z2Pos.id by (rewrite Z.shiftl_mul_pow2 by lia; apply Z.mul_pos_pos; [lia | apply Z.pow_pos_nonneg; lia]).
  rewrite Z.shiftl_mul_pow2, Pos2Z.inj_pow by lia.
  replace (Z.pos e) with (Z.succ (52 - Z.log2 (Z.pos pk))) by lia.
  rewrite Z.pow_succ_r by lia. change (Z.pos 2) with 2. ring.
Qed.

Lemma halves_le (j k : Z) :
  0 <= j <= k -> k <= 2 ^ 53 ->
  forall qj qk, SF2Q (halves j) = Some qj -> SF2Q (halves k) = Some qk -> (qj <= qk)%Q.
Proof.
  intros Hj Hk qj qk Ej Ek.
  destruct (SF2Q_halves j ltac:(lia)) as (q1 & E1 & V1).
  destruct (SF2Q_halves k ltac:(lia)) as (q2 & E2 & V2).
  rewrite Ej in E1. rewrite Ek in E2. inversion E1; inversion E2; subst.
  rewrite V1, V2. unfold Qle. cbn [Qnum Qden]. lia.
Qed.

(** ** The animation step *)

Lemma update_frame_run (w : World) :
  update_frame w
  = Ok tt {| self := set_angle (float_add (angle (self w)) (lit 5 1)) (self w);
             qt := {| QWidget.width := QWidget.width (qt w);
                      QWidget.height := QWidget.height (qt w);
                      QWidget.update_pending := true |};
             gl := gl w;
             fs := fs w |}.
Proof. reflexivity. Qed.

Lemma times_succ (n : N) (m : M unit) : times (N.succ n) m = (times n m;; m).
Proof. unfold times. rewrite N.iter_succ. reflexivity. Qed.

Lemma times_update_frame (n : N) (w : World) :
  times n update_frame w = Ok tt (ticked n w).
Proof.
  induction n as [| n IH] using N.peano_ind.
  - destruct w as [[] [] ? ?]. reflexivity.
  - rewrite times_succ. unfold mbind, M_bind. rewrite IH, update_frame_run.
    unfold ticked. rewrite N.iter_succ.
    replace (N.succ n =? 0)%N with false by (symmetry; apply N.eqb_neq; lia).
    destruct w as [[] [] ? ?]. reflexivity.
Qed.

Lemma iter_add_half (n : N) :
  N.iter n (fun a => float_add a (lit 5 1)) (S754_zero false)
  = halves (Z.min (Z.of_N n) (2 ^ 53)).
Proof.
  induction n as [| n IH] using N.peano_ind; [reflexivity |].
  rewrite N.iter_succ, IH.
  destruct (Z_lt_le_dec (Z.of_N n) (2 ^ 53)) as [Hlt | Hge].
  - rewrite !Z.min_l by lia. rewrite SFadd_halves by lia. f_equal. lia.
  - rewrite !Z.min_r by lia. apply SFadd_saturated.
Qed.

(** ** Calls and their effect on the context *)

Lemma quadrics_gl_exec (c : gl_call) (g : GLState) :
  quadric_call c = false -> quadrics (gl_exec c g) = quadrics g.
Proof.
  intros H. unfold gl_exec, gl_step.
  destruct c; try discriminate H; repeat case_match; reflexivity.
Qed.

Ltac step_monad :=
  cbv [paintGL render_background draw_textured_sphere new_quadric gen_texture as_name
       mbind M_bind mret M_ret call modify gets raise lift set_gl set_self set_qt
       gl self qt fs texture bg_texture angle QWidget.width QWidget.height
       run_calls fold_left paint_calls background_calls sphere_calls app].

Lemma paintGL_run (w : World) (t : N) :
  texture (self w) = Some t ->
  paintGL w
  = Ok tt (set_gl (run_calls (paint_calls (angle (self w)) (QWidget.width (qt w))
                                          (QWidget.height (qt w)) (bg_texture (self w)) t
                                          (fresh (dom (quadrics (gl w)))))
                             (gl w)) w).
Proof.
  destruct w as [[a tx ti bg bi tm] [qw qh qu] g f]; cbn [self texture]; intros ->.
  destruct bg; step_monad; rewrite !quadrics_gl_exec by reflexivity; reflexivity.
Qed.

Ltac step_gl :=
  cbv [run_calls fold_left paint_calls background_calls sphere_calls
       gl_exec gl_step mult emit pipeline_of selected set_selected
       set_clear_color set_depth_test set_texture_2d set_viewport set_matrix_mode
       set_projection set_modelview set_texcoord set_primitive set_bound_texture
       set_textures set_quadrics set_framebuffer set_calls
       clear_color depth_test texture_2d viewport matrix_mode projection modelview
       texcoord primitive bound_texture textures quadrics framebuffer calls
       current saved].

Lemma calls_gl_step (c : gl_call) (g : GLState) : calls (gl_step c g) = calls g.
Proof. unfold gl_step. destruct c; repeat case_match; reflexivity. Qed.

Lemma calls_run_calls (cs : list gl_call) (g : GLState) :
  calls (run_calls cs g) = calls g ++ cs.
Proof.
  revert g. induction cs as [| c cs IH]; intros g.
  - symmetry. apply app_nil_r.
  - change (run_calls (c :: cs) g) with (run_calls cs (gl_exec c g)).
    rewrite IH. unfold gl_exec. cbn [calls set_calls].
    rewrite calls_gl_step, <- app_assoc. reflexivity.
Qed.

Lemma run_calls_app (cs ds : list gl_call) (g : GLState) :
  run_calls (cs ++ ds) g = run_calls ds (run_calls cs g).
Proof. apply fold_left_app. Qed.

(** The drawn quad of [render_background]. *)
Lemma background_effect (width height : Z) (bg : N) (g : GLState) :
  run_calls (background_calls width height bg) g
  = {| clear_color := clear_color g;
       depth_test := true;
       texture_2d := texture_2d g;
       viewport := viewport g;
       matrix_mode := GL_MODELVIEW;
       projection := projection g;
       modelview := modelview g;
       texcoord := (PyFloat (lit 0 1), PyFloat (lit 10 1));
       primitive := None;
       bound_texture := bg;
       textures := textures g;
       quadrics := quadrics g;
       framebuffer :=
         framebuffer g ++
         [ Primitive GL_QUADS
             [ ((PyFloat (lit 0 1), PyFloat (lit 0 1)), (PyFloat (lit 0 1), PyFloat (lit 0 1)));
               ((PyFloat (lit 10 1), PyFloat (lit 0 1)), (PyInt width, PyFloat (lit 0 1)));
               ((PyFloat (lit 10 1), PyFloat (lit 10 1)), (PyInt width, PyInt height));
               ((PyFloat (lit 0 1), PyFloat (lit 10 1)), (PyFloat (lit 0 1), PyInt height)) ]
             {| p_viewport := viewport g;
                p_projection := [ Ortho2D (PyInt 0) (PyInt width) (PyInt 0) (PyInt height) ];
                p_modelview := [];
                p_depth_test := false;
                p_texturing := texture_2d g;
                p_texture := bg |} ];
       calls := calls g ++ background_calls width height bg |}.
Proof.
  destruct g as [cc dt t2 vp mm [pc ps] [mc ms] tc pr bt tx qd fb cl].
  step_gl. rewrite <- !app_assoc. reflexivity.
Qed.

(** The quadric of [draw_textured_sphere] is created, used once and released. *)
Lemma sphere_effect (tex quadric : N) (radius : spec_float) (slices stacks : Z)
  (g : GLState) :
  quadrics g !! quadric = None ->
  run_calls (sphere_calls tex quadric radius slices stacks) g
  = {| clear_color := clear_color g;
       depth_test := depth_test g;
       texture_2d := texture_2d g;
       viewport := viewport g;
       matrix_mode := matrix_mode g;
       projection := projection g;
       modelview := modelview g;
       texcoord := texcoord g;
       primitive := primitive g;
       bound_texture := tex;
       textures := textures g;
       quadrics := quadrics g;
       framebuffer :=
         framebuffer g ++
         [ Sphere (PyFloat radius) slices stacks true
             {| p_viewport := viewport g;
                p_projection := current (projection g);
                p_modelview := current (modelview g);
                p_depth_test := depth_test g;
                p_texturing := texture_2d g;
                p_texture := tex |} ];
       calls := calls g ++ sphere_calls tex quadric radius slices stacks |}.
Proof.
  intros Hq. destruct g as [cc dt t2 vp mm pj mv tc pr bt tx qd fb cl].
  cbn [quadrics] in Hq. step_gl.
  rewrite lookup_alter_eq, lookup_insert_eq. cbn [fmap option_fmap option_map].
  rewrite alter_insert_eq, delete_insert_eq, (delete_id _ _ Hq), <- !app_assoc.
  reflexivity.
Qed.

Lemma paint_calls_plain (a : spec_float) (width height : Z) (tex quadric : N) :
  paint_calls a width height None tex quadric
  = [ glClear (Z.lor GL_COLOR_BUFFER_BIT GL_DEPTH_BUFFER_BIT); glLoadIdentity;
      glTranslatef (PyFloat (lit 0 1)) (PyFloat (lit 0 1)) (PyFloat (lit (-45) 1));
      glRotatef (PyFloat a) (PyFloat (lit 20 1)) (PyFloat (lit (-10) 1))
                (PyFloat (lit (-10) 1));
      glScalef (PyFloat (lit 10 1)) (PyFloat (lit 10 1)) (PyFloat (lit 10 1)) ]
    ++ sphere_calls tex quadric (lit 15 1) 32 32.
Proof. reflexivity. Qed.

Lemma paint_calls_background (a : spec_float) (width height : Z) (bg tex quadric : N) :
  paint_calls a width height (Some bg) tex quadric
  = [ glClear (Z.lor GL_COLOR_BUFFER_BIT GL_DEPTH_BUFFER_BIT); glLoadIdentity ]
    ++ background_calls width height bg
    ++ [ glTranslatef (PyFloat (lit 0 1)) (PyFloat (lit 0 1)) (PyFloat (lit (-45) 1));
         glRotatef (PyFloat a) (PyFloat (lit 20 1)) (PyFloat (lit (-10) 1))
                   (PyFloat (lit (-10) 1));
         glScalef (PyFloat (lit 10 1)) (PyFloat (lit 10 1)) (PyFloat (lit 10 1)) ]
    ++ sphere_calls tex quadric (lit 15 1) 32 32.
Proof. reflexivity. Qed.

(** A frame without background: one clear, one sphere. *)
Lemma paint_effect_plain (a : spec_float) (width height : Z) (tex quadric : N)
  (g : GLState) :
  matrix_mode g = GL_MODELVIEW ->
  quadrics g !! quadric = None ->
  run_calls (paint_calls a width height None tex quadric) g
  = {| clear_color := clear_color g;
       depth_test := depth_test g;
       texture_2d := texture_2d g;
       viewport := viewport g;
       matrix_mode := GL_MODELVIEW;
       projection := projection g;
       modelview := {| current := sphere_modelview a; saved := saved (modelview g) |};
       texcoord := texcoord g;
       primitive := primitive g;
       bound_texture := tex;
       textures := textures g;
       quadrics := quadrics g;
       framebuffer :=
         framebuffer g ++
         [ Cleared (Z.lor GL_COLOR_BUFFER_BIT GL_DEPTH_BUFFER_BIT);
           Sphere (PyFloat (lit 15 1)) 32 32 true
             {| p_viewport := viewport g;
                p_projection := current (projection g);
                p_modelview := sphere_modelview a;
                p_depth_test := depth_test g;
                p_texturing := texture_2d g;
                p_texture := tex |} ];
       calls := calls g ++ paint_calls a width height None tex quadric |}.
Proof.
  intros Hm Hq.
  rewrite paint_calls_plain, run_calls_app, sphere_effect.
  - destruct g as [cc dt t2 vp mm [pc ps] [mc ms] tc pr bt tx qd fb cl].
    cbn [matrix_mode] in Hm. subst mm. step_gl. rewrite <- !app_assoc. reflexivity.
  - destruct g as [cc dt t2 vp mm [pc ps] [mc ms] tc pr bt tx qd fb cl]. exact Hq.
Qed.

(** A frame with background: one clear, one quad, one sphere. *)
Lemma paint_effect_background (a : spec_float) (width height : Z) (bg tex quadric : N)
  (g : GLState) :
  matrix_mode g = GL_MODELVIEW ->
  quadrics g !! quadric = None ->
  run_calls (paint_calls a width height (Some bg) tex quadric) g
  = {| clear_color := clear_color g;
       depth_test := true;
       texture_2d := texture_2d g;
       viewport := viewport g;
       matrix_mode := GL_MODELVIEW;
       projection := projection g;
       modelview := {| current := sphere_modelview a; saved := saved (modelview g) |};
       texcoord := (PyFloat (lit 0 1), PyFloat (lit 10 1));
       primitive := None;
       bound_texture := tex;
       textures := textures g;
       quadrics := quadrics g;
       framebuffer :=
         framebuffer g ++
         [ Cleared (Z.lor GL_COLOR_BUFFER_BIT GL_DEPTH_BUFFER_BIT);
           background_quad width height bg (viewport g) (texture_2d g);
           Sphere (PyFloat (lit 15 1)) 32 32 true
             {| p_viewport := viewport g;
                p_projection := current (projection g);
                p_modelview := sphere_modelview a;
                p_depth_test := true;
                p_texturing := texture_2d g;
                p_texture := tex |} ];
       calls := calls g ++ paint_calls a width height (Some bg) tex quadric |}.
Proof.
  intros Hm Hq.
  rewrite paint_calls_background, !run_calls_app, sphere_effect, background_effect.
  - destruct g as [cc dt t2 vp mm [pc ps] [mc ms] tc pr bt tx qd fb cl].
    cbn [matrix_mode] in Hm. subst mm. step_gl. rewrite <- !app_assoc. reflexivity.
  - rewrite background_effect.
    destruct g as [cc dt t2 vp mm [pc ps] [mc ms] tc pr bt tx qd fb cl]. exact Hq.
Qed.

(** ** Division of machine integers never overflows *)

Lemma Zdigits2_le (m k : Z) : 0 <= m < 2 ^ k -> 0 <= k -> Zdigits2 m <= k.
Proof.
  intros Hm Hk. destruct (Z.eq_dec m 0) as [-> | Hne]; [exact Hk |].
  rewrite Zdigits2_log2 by lia.
  assert (Z.log2 m < k) by (apply Z.log2_lt_pow2; lia). lia.
Qed.

Lemma shr_1_m (mrs : shr_record) :
  0 <= shr_m mrs -> shr_m (shr_1 mrs) = shr_m mrs / 2.
Proof.
  destruct mrs as [m r s]. cbn [shr_m]. intros Hm.
  rewrite <- Z.div2_div.
  destruct m as [| [p | p |] | p]; try lia; reflexivity.
Qed.

Lemma iter_shr_1_m (n : nat) (mrs : shr_record) :
  0 <= shr_m mrs ->
  shr_m (Nat.iter n shr_1 mrs) = shr_m mrs / 2 ^ Z.of_nat n.
Proof.
  intros Hm. induction n as [| n IH].
  - simpl. rewrite Z.div_1_r. reflexivity.
  - rewrite Nat.iter_succ, shr_1_m.
    + rewrite IH, Nat2Z.inj_succ, Z.pow_succ_r, Z.mul_comm by lia.
      rewrite Z.div_div by (try apply Z.pow_pos_nonneg; lia). reflexivity.
    + rewrite IH. apply Z.div_pos; [lia | apply Z.pow_pos_nonneg; lia].
Qed.

(** A shift keeps the mantissa non-negative and below the bound scaled
    by the shift. *)
Lemma shr_bound (mrs : shr_record) (e n k : Z) :
  0 <= shr_m mrs < 2 ^ (k - e) -> e <= k -> e + n <= k ->
  0 <= shr_m (fst (shr mrs e n)) < 2 ^ (k - snd (shr mrs e n)).
Proof.
  intros Hm He Hn. destruct n as [| p | p]; cbn [shr fst snd]; try exact Hm.
  rewrite iter_pos_nat, iter_shr_1_m, positive_nat_Z by lia.
  assert (Hp : 0 < 2 ^ Z.pos p) by (apply Z.pow_pos_nonneg; lia).
  split; [apply Z.div_pos; lia |].
  apply Z.div_lt_upper_bound; [exact Hp |].
  rewrite <- Z.pow_add_r by lia.
  replace (Z.pos p + (k - (e + Z.pos p))) with (k - e) by lia. lia.
Qed.

Lemma shr_snd (mrs : shr_record) (e n : Z) :
  snd (shr mrs e n) = e + Z.max n 0.
Proof. destruct n; cbn [shr snd]; lia. Qed.

Lemma shr_record_of_loc_m (m : Z) (l : location) : shr_m (shr_record_of_loc m l) = m.
Proof. destruct l as [| []]; reflexivity. Qed.

Lemma round_nearest_even_bound (m : Z) (l : location) :
  m <= round_nearest_even m l <= m + 1.
Proof. destruct l as [| []]; cbn [round_nearest_even]; try destruct (Z.even m); lia. Qed.

Lemma binary_round_aux_finite (sx : bool) (m e : Z) (l : location) :
  0 <= m < 2 ^ (1023 - e) -> e <= 971 ->
  float_finite (binary_round_aux prec emax sx m e l) = true.
Proof.
  intros Hm He.
  assert (Hd : Zdigits2 m <= 1023 - e) by (apply Zdigits2_le; lia).
  unfold binary_round_aux, shr_fexp.
  set (n := fexp prec emax (Zdigits2 m + e) - e).
  assert (Hn : e + Z.max n 0 <= 971) by (subst n; rewrite fexp64; lia).
  pose proof (shr_bound (shr_record_of_loc m l) e n 1023) as H1.
  rewrite shr_record_of_loc_m in H1. specialize (H1 Hm ltac:(lia) ltac:(lia)).
  pose proof (shr_snd (shr_record_of_loc m l) e n) as H2.
  destruct (shr (shr_record_of_loc m l) e n) as [mrs' e']. cbn [fst snd] in H1, H2.
  set (m2 := round_nearest_even (shr_m mrs') (loc_of_shr_record mrs')).
  pose proof (round_nearest_even_bound (shr_m mrs') (loc_of_shr_record mrs')) as H3.
  fold m2 in H3.
  assert (Hd2 : Zdigits2 m2 <= 1024 - e').
  { apply Zdigits2_le; [| lia].
    replace (1024 - e') with (Z.succ (1023 - e')) by lia.
    rewrite Z.pow_succ_r by lia.
    assert (0 < 2 ^ (1023 - e')) by (apply Z.pow_pos_nonneg; lia). lia. }
  set (n2 := fexp prec emax (Zdigits2 m2 + e') - e').
  assert (Hn2 : e' + Z.max n2 0 <= 971) by (subst n2; rewrite fexp64; lia).
  pose proof (shr_snd (shr_record_of_loc m2 loc_Exact) e' n2) as H4.
  assert (H5 : 0 <= shr_m (fst (shr (shr_record_of_loc m2 loc_Exact) e' n2))).
  { destruct n2 as [| p | p]; cbn [shr fst shr_record_of_loc shr_m]; try lia.
    rewrite iter_pos_nat, iter_shr_1_m by (cbn [shr_m]; lia). cbn [shr_m].
    apply Z.div_pos; [lia | apply Z.pow_pos_nonneg; lia]. }
  destruct (shr (shr_record_of_loc m2 loc_Exact) e' n2) as [mrs'' e''].
  cbn [fst snd] in H4, H5.
  destruct (shr_m mrs'') as [| p | p]; try lia; try reflexivity.
  replace (e'' <=? emax - prec) with true; [reflexivity |].
  symmetry. apply Z.leb_le. unfold emax, prec. lia.
Qed.

Lemma SFdiv_core_bound (a b : positive) :
  Z.pos a < 2 ^ 1023 ->
  forall q e' l, SFdiv_core_binary prec emax (Z.pos a) 0 (Z.pos b) 0 = (q, e', l) ->
  0 <= q < 2 ^ (1023 - e') /\ e' <= 971.
Proof.
  intros Ha q e' l. unfold SFdiv_core_binary.
  set (e := Z.min (fexp prec emax (Zdigits2 (Z.pos a) + 0 - (Zdigits2 (Z.pos b) + 0))) (0 - 0)).
  assert (He : e <= 0) by (subst e; lia).
  set (m' := match 0 - 0 - e with
             | 0 => Z.pos a
             | Z.pos _ => Z.shiftl (Z.pos a) (0 - 0 - e)
             | Z.neg _ => 0
             end).
  assert (Hm : m' = Z.pos a * 2 ^ (- e)).
  { subst m'. destruct (0 - 0 - e) as [| s | s] eqn:E; try lia.
    - replace (- e) with 0 by lia. lia.
    - rewrite Z.shiftl_mul_pow2 by lia. f_equal. f_equal. lia. }
  pose proof (Z_div_mod m' (Z.pos b) eq_refl) as Hdiv.
  destruct (Z.div_eucl m' (Z.pos b)) as [q0 r0]. intros [= <- <- _].
  destruct Hdiv as [Hq Hr].
  assert (Hp : 0 < 2 ^ (- e)) by (apply Z.pow_pos_nonneg; lia).
  assert (Hm' : 0 <= m' < 2 ^ (1023 - e)).
  { rewrite Hm. split; [lia |].
    replace (1023 - e) with (1023 + - e) by lia. rewrite Z.pow_add_r by lia.
    apply Z.mul_lt_mono_pos_r; lia. }
  split; [| lia]. split; nia.
Qed.

(** Division of integers below [2 ^ 1023] in magnitude by a non-zero
    integer returns a float. *)
Lemma int_truediv_finite (a b : Z) :
  Z.abs a < 2 ^ 1023 -> b <> 0 ->
  exists q, int_truediv a b = inr q /\ float_finite q = true.
Proof.
  intros Ha Hb. unfold int_truediv.
  destruct b as [| pb | pb]; try congruence; cbn [int_parts];
    (destruct a as [| pa | pa]; cbn [int_parts]; [eexists; split; reflexivity | |]);
    unfold SFdiv;
    (destruct (SFdiv_core_binary prec emax (Z.pos pa) 0 (Z.pos pb) 0) as [[mz ez] lz] eqn:E;
     destruct (SFdiv_core_bound pa pb ltac:(lia) _ _ _ E) as [Hm He];
     match goal with
     | |- context [binary_round_aux prec emax ?s mz ez lz] =>
         pose proof (binary_round_aux_finite s mz ez lz Hm He) as Hf;
         destruct (binary_round_aux prec emax s mz ez lz); try discriminate Hf;
         eexists; split; reflexivity
     end).
Qed.

Lemma c_int_bound (z : Z) : c_int z -> Z.abs z < 2 ^ 1023.
Proof.
  unfold c_int. intros H.
  assert (2 ^ 31 < 2 ^ 1023) by (apply Z.pow_lt_mono_r; lia). lia.
Qed.

(** ** What each method does *)

Ltac run_method :=
  cbv [initializeGL resizeGL load_texture gen_texture
       mbind M_bind mret M_ret call modify gets raise lift set_gl set_self set_qt
       gl self qt fs texture bg_texture angle texture_image background_image
       set_texture set_bg_texture timer
       run_calls fold_left init_calls load_calls load_calls_failed resize_calls app].

Lemma load_texture_ok (w : World) (path : string) (im : Image.t) :
  fs w !! path = Some (Picture im) ->
  load_texture path w
  = Ok (fresh (dom (textures (gl w))))
       (set_gl (run_calls (load_calls (fresh (dom (textures (gl w)))) im) (gl w)) w).
Proof.
  destruct w as [o q g f]. cbn [fs]. intros H.
  run_method. unfold Image.open. rewrite H. reflexivity.
Qed.

Lemma load_texture_raise (w : World) (path : string) (e : exn) :
  Image.open (fs w) path = inl e ->
  load_texture path w
  = Raise e (set_gl (run_calls (load_calls_failed (fresh (dom (textures (gl w))))) (gl w)) w).
Proof.
  destruct w as [o q g f]. cbn [fs]. intros H.
  run_method. rewrite H. reflexivity.
Qed.

Lemma initializeGL_raise (w : World) (e : exn) :
  Image.open (fs w) (texture_image (self w)) = inl e ->
  initializeGL w
  = Raise e (set_gl (run_calls (init_calls
                                ++ load_calls_failed (fresh (dom (textures (gl w)))))
                               (gl w)) w).
Proof.
  destruct w as [[a tx ti bg bi tm] q g f]. cbn [fs self texture_image]. intros H.
  run_method. rewrite H. reflexivity.
Qed.

Lemma initializeGL_plain (w : World) (im : Image.t) :
  fs w !! texture_image (self w) = Some (Picture im) ->
  background_image (self w) = EmptyString ->
  initializeGL w
  = Ok tt (set_self (set_texture (Some (fresh (dom (textures (gl w))))) (self w))
             (set_gl (run_calls (init_calls ++ load_calls (fresh (dom (textures (gl w)))) im)
                                (gl w)) w)).
Proof.
  destruct w as [[a tx ti bg bi tm] q g f]. cbn [fs self texture_image background_image].
  intros H ->. run_method. unfold Image.open. rewrite H. reflexivity.
Qed.

Lemma resizeGL_run (w : World) (width height : Z) (aspect : spec_float) :
  (if negb (height =? 0) then int_truediv width height else inr (lit 10 1)) = inr aspect ->
  resizeGL width height w
  = Ok tt (set_gl (run_calls (resize_calls width height aspect) (gl w)) w).
Proof.
  destruct w as [o q g f]. intros H. run_method.
  destruct (negb (height =? 0)); [rewrite H | injection H as <-]; reflexivity.
Qed.

Lemma initializeGL_background (w : World) (im bg : Image.t) :
  fs w !! texture_image (self w) = Some (Picture im) ->
  fs w !! background_image (self w) = Some (Picture bg) ->
  (0 <? String.length (background_image (self w)))%nat = true ->
  exists t b g,
    initializeGL w
    = Ok tt (set_self (set_bg_texture (Some b) (set_texture (Some t) (self w)))
               (set_gl g w)) /\
    g = run_calls (init_calls ++ load_calls t im ++ load_calls b bg) (gl w).
Proof.
  destruct w as [[a tx ti bt bi tm] q g f]. cbn [fs self texture_image background_image].
  intros H1 H2 H3. do 3 eexists. split.
  - run_method. unfold Image.open. rewrite H1, H3, H2. reflexivity.
  - reflexivity.
Qed.

Lemma render_background_run (w : World) (bg : N) :
  bg_texture (self w) = Some bg ->
  render_background w
  = Ok tt (set_gl (run_calls (background_calls (QWidget.width (qt w))
                                               (QWidget.height (qt w)) bg) (gl w)) w).
Proof.
  destruct w as [[a tx ti bt bi tm] [qw qh qu] g f]; cbn [self bg_texture]; intros ->.
  step_monad. reflexivity.
Qed.

Lemma resize_run (w : World) (width height : Z) (aspect : spec_float) :
  (if negb (height =? 0) then int_truediv width height else inr (lit 10 1)) = inr aspect ->
  resize width height w
  = Ok tt {| self := self w;
             qt := {| QWidget.width := width; QWidget.height := height;
                      QWidget.update_pending := QWidget.update_pending (qt w) |};
             gl := run_calls (resize_calls width height aspect) (gl w);
             fs := fs w |}.
Proof.
  intros H. unfold resize, mbind, M_bind, modify.
  rewrite (resizeGL_run _ _ _ _ H). reflexivity.
Qed.

(** The aspect ratio [resizeGL] computes always exists for C [int]s. *)
Lemma aspect_defined (width height : Z) :
  c_int width ->
  exists aspect,
    (if negb (height =? 0) then int_truediv width height else inr (lit 10 1)) = inr aspect /\
    float_finite aspect = true.
Proof.
  intros Hw. destruct (Z.eqb_spec height 0) as [-> | Hne]; cbn [negb].
  - eexists. split; reflexivity.
  - apply int_truediv_finite; [apply c_int_bound, Hw | exact Hne].
Qed.

Lemma resize_effect (width height : Z) (aspect : spec_float) (g : GLState) :
  run_calls (resize_calls width height aspect) g
  = {| clear_color := clear_color g;
       depth_test := depth_test g;
       texture_2d := texture_2d g;
       viewport := (PyInt 0, PyInt 0, PyInt width, PyInt height);
       matrix_mode := GL_MODELVIEW;
       projection :=
         {| current := [ Perspective (PyFloat (lit 450 1)) (PyFloat aspect)
                                     (PyFloat (lit 1 1)) (PyFloat (lit 1000 1)) ];
            saved := saved (projection g) |};
       modelview := modelview g;
       texcoord := texcoord g;
       primitive := primitive g;
       bound_texture := bound_texture g;
       textures := textures g;
       quadrics := quadrics g;
       framebuffer := framebuffer g;
       calls := calls g ++ resize_calls width height aspect |}.
Proof.
  destruct g as [cc dt t2 vp mm [pc ps] [mc ms] tc pr bt tx qd fb cl].
  step_gl. cbv [resize_calls]. rewrite <- !app_assoc. reflexivity.
Qed.

Lemma quadrics_run_calls (cs : list gl_call) (g : GLState) :
  forallb (fun c => negb (quadric_call c)) cs = true ->
  quadrics (run_calls cs g) = quadrics g.
Proof.
  revert g. induction cs as [| c cs IH]; intros g H; [reflexivity |].
  cbn [forallb] in H. apply andb_true_iff in H as [Hc Hcs].
  change (run_calls (c :: cs) g) with (run_calls cs (gl_exec c g)).
  rewrite IH by exact Hcs. apply quadrics_gl_exec.
  destruct (quadric_call c); [discriminate | reflexivity].
Qed.

Lemma framebuffer_gl_exec (c : gl_call) (g : GLState) :
  is_glEnd c = false ->
  Forall (fun d => is_quad d = false) (framebuffer g) ->
  Forall (fun d => is_quad d = false) (framebuffer (gl_exec c g)).
Proof.
  intros Hc Hg. unfold gl_exec, gl_step.
  destruct c; try discriminate Hc; repeat case_match;
    cbn [framebuffer set_calls emit set_framebuffer set_clear_color set_depth_test
         set_texture_2d set_viewport set_matrix_mode set_projection set_modelview
         set_texcoord set_primitive set_bound_texture set_textures set_quadrics
         set_selected mult];
    try exact Hg; (apply Forall_app; split; [exact Hg | repeat constructor]).
Qed.

Lemma framebuffer_run_calls (cs : list gl_call) (g : GLState) :
  forallb (fun c => negb (is_glEnd c)) cs = true ->
  Forall (fun d => is_quad d = false) (framebuffer g) ->
  Forall (fun d => is_quad d = false) (framebuffer (run_calls cs g)).
Proof.
  revert g. induction cs as [| c cs IH]; intros g H Hg; [exact Hg |].
  cbn [forallb] in H. apply andb_true_iff in H as [Hc Hcs].
  change (run_calls (c :: cs) g) with (run_calls cs (gl_exec c g)).
  apply IH; [exact Hcs |]. apply framebuffer_gl_exec; [| exact Hg].
  destruct (is_glEnd c); [discriminate | reflexivity].
Qed.

(** ** Division of machine integers is accurate *)

Lemma Zdigits2_spec (z : Z) :
  0 < z -> 2 ^ (Zdigits2 z - 1) <= z < 2 ^ Zdigits2 z.
Proof.
  intros Hz. rewrite Zdigits2_log2 by exact Hz.
  replace (Z.log2 z + 1 - 1) with (Z.log2 z) by lia.
  apply Z.log2_spec, Hz.
Qed.

Lemma Zdigits2_unique (z d : Z) : 2 ^ (d - 1) <= z < 2 ^ d -> 0 < d -> Zdigits2 z = d.
Proof.
  intros Hz Hd.
  assert (0 < 2 ^ (d - 1)) by (apply Z.pow_pos_nonneg; lia).
  rewrite Zdigits2_log2 by lia.
  rewrite (Z.log2_unique z (d - 1)); [lia | lia |].
  replace (Z.succ (d - 1)) with d by lia. exact Hz.
Qed.

Lemma shr_m_shr (mrs : shr_record) (e n : Z) :
  0 <= shr_m mrs -> shr_m (fst (shr mrs e n)) = shr_m mrs / 2 ^ Z.max n 0.
Proof.
  intros Hm. destruct n as [| p | p]; cbn [shr fst].
  - rewrite Z.div_1_r. reflexivity.
  - rewrite iter_pos_nat, iter_shr_1_m, positive_nat_Z by exact Hm.
    rewrite Z.max_l by lia. reflexivity.
  - rewrite Z.div_1_r. reflexivity.
Qed.

(** The quotient of the mantissas has 53 or 54 bits. *)
Lemma SFdiv_core_quotient (a b : positive) :
  Z.pos a <= 2 ^ 31 -> Z.pos b <= 2 ^ 31 ->
  exists s,
    22 <= s <= 84 /\
    2 ^ 52 <= Z.pos a * 2 ^ s / Z.pos b < 2 ^ 54 /\
    exists l, SFdiv_core_binary prec emax (Z.pos a) 0 (Z.pos b) 0
              = (Z.pos a * 2 ^ s / Z.pos b, - s, l).
Proof.
  intros Ha Hb.
  pose proof (Zdigits2_spec (Z.pos a) ltac:(lia)) as Hda.
  pose proof (Zdigits2_spec (Z.pos b) ltac:(lia)) as Hdb.
  assert (Ha32 : Z.pos a < 2 ^ 32) by (change (2 ^ 32) with (2 * 2 ^ 31); lia).
  assert (Hb32 : Z.pos b < 2 ^ 32) by (change (2 ^ 32) with (2 * 2 ^ 31); lia).
  assert (Hd1 : 1 <= Zdigits2 (Z.pos a) <= 32).
  { split; [cbn [Zdigits2]; lia | apply Zdigits2_le; lia]. }
  assert (Hd2 : 1 <= Zdigits2 (Z.pos b) <= 32).
  { split; [cbn [Zdigits2]; lia | apply Zdigits2_le; lia]. }
  set (d1 := Zdigits2 (Z.pos a)) in *. set (d2 := Zdigits2 (Z.pos b)) in *.
  exists (53 + d2 - d1). split; [lia |].
  assert (Hs : 0 < 2 ^ (53 + d2 - d1)) by (apply Z.pow_pos_nonneg; lia).
  assert (Hlo : 2 ^ 52 * Z.pos b <= Z.pos a * 2 ^ (53 + d2 - d1)).
  { apply Z.le_trans with (2 ^ 52 * 2 ^ d2); [apply Z.mul_le_mono_nonneg_l; lia |].
    replace (2 ^ 52 * 2 ^ d2) with (2 ^ (d1 - 1) * 2 ^ (53 + d2 - d1))
      by (rewrite <- !Z.pow_add_r by lia; f_equal; lia).
    apply Z.mul_le_mono_nonneg_r; lia. }
  assert (Hhi : Z.pos a * 2 ^ (53 + d2 - d1) < Z.pos b * 2 ^ 54).
  { apply Z.lt_le_trans with (2 ^ d1 * 2 ^ (53 + d2 - d1));
      [apply Z.mul_lt_mono_pos_r; lia |].
    replace (2 ^ d1 * 2 ^ (53 + d2 - d1)) with (2 ^ (d2 - 1) * 2 ^ 54)
      by (rewrite <- !Z.pow_add_r by lia; f_equal; lia).
    apply Z.mul_le_mono_nonneg_r; lia. }
  split.
  { split; [apply Z.div_le_lower_bound; lia | apply Z.div_lt_upper_bound; lia]. }
  unfold SFdiv_core_binary. fold d1 d2. rewrite fexp64.
  replace (Z.min (Z.max (d1 + 0 - (d2 + 0) - 53) (-1074)) (0 - 0)) with (- (53 + d2 - d1))
    by lia.
  replace (0 - 0 - - (53 + d2 - d1)) with (53 + d2 - d1) by lia.
  destruct (53 + d2 - d1) as [| s | s] eqn:E; try lia.
  rewrite Z.shiftl_mul_pow2 by lia.
  unfold Z.div. destruct (Z.div_eucl (Z.pos a * 2 ^ Z.pos s) (Z.pos b)) as [q r].
  eexists. reflexivity.
Qed.

(** Rounding a 53- or 54-bit mantissa: at most one bit is shifted out,
    the result is the truncation or its successor, renormalised when the
    successor is [2 ^ 53]. *)
Lemma binary_round_aux_normal (sx : bool) (q e : Z) (l : location) :
  2 ^ 52 <= q < 2 ^ 54 -> -1000 <= e <= 900 ->
  exists m3 e3 m2 n,
    binary_round_aux prec emax sx q e l = S754_finite sx m3 e3 /\
    (n = 0 \/ n = 1) /\
    2 ^ 52 <= q / 2 ^ n /\
    q / 2 ^ n <= m2 <= q / 2 ^ n + 1 /\
    ((e3 = e + n /\ Z.pos m3 = m2) \/ (e3 = e + n + 1 /\ 2 * Z.pos m3 = m2)).
Proof.
  intros Hq He.
  assert (Hn : exists n, (n = 0 \/ n = 1) /\ Zdigits2 q = 53 + n /\
                         2 ^ 52 <= q / 2 ^ n < 2 ^ 53).
  { destruct (Z_lt_le_dec q (2 ^ 53)) as [Hlt | Hge].
    - exists 0. split; [left; reflexivity |]. split.
      + apply Zdigits2_unique; [change (53 + 0 - 1) with 52; change (53 + 0) with 53 |]; lia.
      + rewrite Z.div_1_r. lia.
    - exists 1. split; [right; reflexivity |]. split.
      + apply Zdigits2_unique; [change (53 + 1 - 1) with 53; change (53 + 1) with 54 |]; lia.
      + change (2 ^ 1) with 2. split.
        * apply Z.div_le_lower_bound; [lia |]. change (2 * 2 ^ 52) with (2 ^ 53). lia.
        * apply Z.div_lt_upper_bound; [lia |]. change (2 * 2 ^ 53) with (2 ^ 54). lia. }
  destruct Hn as (n & Hn01 & Hdq & Hm1).
  unfold binary_round_aux, shr_fexp. rewrite Hdq, fexp64.
  replace (Z.max (53 + n + e - 53) (-1074) - e) with n by lia.
  pose proof (shr_m_shr (shr_record_of_loc q l) e n) as H1.
  rewrite shr_record_of_loc_m in H1. specialize (H1 ltac:(lia)).
  pose proof (shr_snd (shr_record_of_loc q l) e n) as H2.
  destruct (shr (shr_record_of_loc q l) e n) as [mrs' e']. cbn [fst snd] in H1, H2.
  rewrite Z.max_l in H1, H2 by lia. subst e'.
  set (m2 := round_nearest_even (shr_m mrs') (loc_of_shr_record mrs')).
  pose proof (round_nearest_even_bound (shr_m mrs') (loc_of_shr_record mrs')) as H3.
  fold m2 in H3. rewrite H1 in H3.
  destruct (Z_lt_le_dec m2 (2 ^ 53)) as [Hlt | Hge].
  - rewrite (Zdigits2_unique m2 53), fexp64 by lia.
    replace (Z.max (53 + (e + n) - 53) (-1074) - (e + n)) with 0 by lia.
    cbn [shr_record_of_loc shr shr_m].
    destruct m2 as [| p2 | p2] eqn:E2; try lia.
    replace (e + n <=? emax - prec) with true
      by (symmetry; apply Z.leb_le; unfold emax, prec; lia).
    exists p2, (e + n), (Z.pos p2), n.
    repeat split; first [lia | left; split; reflexivity].
  - assert (E2 : m2 = 2 ^ 53) by lia. rewrite E2.
    rewrite (Zdigits2_unique (2 ^ 53) 54), fexp64 by lia.
    replace (Z.max (54 + (e + n) - 53) (-1074) - (e + n)) with 1 by lia.
    cbn [shr_record_of_loc shr shr_m]. cbn.
    replace (e + n + 1 <=? emax - prec) with true
      by (symmetry; apply Z.leb_le; unfold emax, prec; lia).
    exists (2 ^ 52)%positive, (e + n + 1), (2 ^ 53), n.
    repeat split; first [lia | right; split; reflexivity].
Qed.

(** The quotient returned is within a relative distance [2 ^ (-52)] of
    the exact one: with [D] the denominator of the result,
    [m / D] lies between [(a / b) * (1 - 2 ^ (-52))] and
    [(a / b) * (1 + 2 ^ (-52))]. *)
Lemma SFdiv_accurate (sa sb : bool) (a b : positive) :
  Z.pos a <= 2 ^ 31 -> Z.pos b <= 2 ^ 31 ->
  exists m P,
    SFdiv prec emax (S754_finite sa a 0) (S754_finite sb b 0)
    = S754_finite (xorb sa sb) m (Z.neg P) /\
    Z.pos a * 2 ^ Z.pos P * (2 ^ 52 - 1) <= Z.pos m * Z.pos b * 2 ^ 52 /\
    Z.pos m * Z.pos b * 2 ^ 52 <= Z.pos a * 2 ^ Z.pos P * (2 ^ 52 + 1).
Proof.
  intros Ha Hb.
  destruct (SFdiv_core_quotient a b Ha Hb) as (s & Hs & Hq & l & Hcore).
  destruct (binary_round_aux_normal (xorb sa sb) _ (- s) l Hq ltac:(lia))
    as (m3 & e3 & m2 & n & Hr & Hn & Hm1 & Hm2 & He3).
  unfold SFdiv. rewrite Hcore, Hr.
  set (T := 2 ^ (s - n)).
  assert (HT : 0 < T) by (apply Z.pow_pos_nonneg; lia).
  assert (Hn2 : 0 < 2 ^ n) by (apply Z.pow_pos_nonneg; lia).
  assert (Hdiv : Z.pos a * 2 ^ s / Z.pos b / 2 ^ n = Z.pos a * T / Z.pos b).
  { rewrite Z.div_div by lia.
    replace (Z.pos a * 2 ^ s) with (Z.pos a * T * 2 ^ n).
    - apply Z.div_mul_cancel_r; lia.
    - subst T. rewrite <- Z.mul_assoc, <- Z.pow_add_r by lia. do 2 f_equal. lia. }
  rewrite Hdiv in Hm1, Hm2.
  pose proof (Z.mul_div_le (Z.pos a * T) (Z.pos b) ltac:(lia)) as Hlo.
  pose proof (Z.mul_succ_div_gt (Z.pos a * T) (Z.pos b) ltac:(lia)) as Hhi.
  set (m1 := Z.pos a * T / Z.pos b) in *.
  set (K := 2 ^ 52) in *.
  assert (HK : 0 < K) by (subst K; lia).
  assert (Hbound : Z.pos a * T * (K - 1) <= m2 * Z.pos b * K
                   /\ m2 * Z.pos b * K <= Z.pos a * T * (K + 1)).
  { split; nia. }
  destruct He3 as [[-> Hm3] | [-> Hm3]].
  - destruct (- s + n) as [| P | P] eqn:EP; try lia.
    exists m3, P. split; [reflexivity |].
    replace (2 ^ Z.pos P) with T by (subst T; f_equal; lia).
    rewrite Hm3. exact Hbound.
  - destruct (- s + n + 1) as [| P | P] eqn:EP; try lia.
    exists m3, P. split; [reflexivity |].
    assert (HTP : T = 2 * 2 ^ Z.pos P).
    { subst T. rewrite <- Z.pow_succ_r by lia. f_equal. lia. }
    rewrite HTP in Hbound. nia.
Qed.

Lemma int_truediv_accurate (a b : Z) :
  Z.abs a <= 2 ^ 31 -> 0 < b <= 2 ^ 31 ->
  exists f v,
    int_truediv a b = inr f /\
    SF2Q f = Some v /\
    (Qabs (v - (a # Z.to_pos b)) <= Qabs (a # Z.to_pos b) * (1 # 2 ^ 52))%Q.
Proof.
  intros Ha Hb. destruct b as [| pb | pb]; try lia. cbn [Z.to_pos].
  unfold int_truediv. cbn [int_parts].
  destruct a as [| pa | pa]; cbn [int_parts].
  - exists (S754_zero false), (0 # 1)%Q. repeat split. vm_compute. discriminate.
  - destruct (SFdiv_accurate false false pa pb ltac:(lia) ltac:(lia)) as (m & P & -> & Hlo & Hhi).
    cbn [xorb]. eexists. eexists. split; [reflexivity |]. split; [reflexivity |].
    cbn [cond_Zopp]. apply Qabs_Qle_condition.
    unfold Qle, Qminus, Qplus, Qopp, Qmult, Qabs. cbn [Qnum Qden Z.abs].
    rewrite !Pos2Z.inj_mul, !Pos2Z.inj_pow. change (Z.pos 2) with 2.
    change (Z.pos 52) with 52. split; nia.
  - destruct (SFdiv_accurate true false pa pb ltac:(lia) ltac:(lia)) as (m & P & -> & Hlo & Hhi).
    cbn [xorb]. eexists. eexists. split; [reflexivity |]. split; [reflexivity |].
    cbn [cond_Zopp Z.opp]. apply Qabs_Qle_condition.
    unfold Qle, Qminus, Qplus, Qopp, Qmult, Qabs. cbn [Qnum Qden Z.abs Z.opp].
    rewrite !Pos2Z.inj_mul, !Pos2Z.inj_pow. change (Z.pos 2) with 2.
    change (Z.pos 52) with 52.
    rewrite <- !Pos2Z.opp_pos. split; nia.
Qed.

(** ** The model at work *)

(** The literals of the program, as rationals; 0.1 is the one that is not
    exact. *)
Example literals :
  map (fun f => Qred <$> SF2Q f)
      [ lit 0 1; lit 5 1; lit 10 1; lit 15 1; lit 20 1; lit (-10) 1; lit (-45) 1;
        lit 450 1; lit 1000 1 ]
  = [ Some (0 # 1); Some (1 # 2); Some (1 # 1); Some (3 # 2); Some (2 # 1);
      Some (-1 # 1); Some (-9 # 2); Some (45 # 1); Some (100 # 1) ]%Q.
Proof. vm_compute. reflexivity. Qed.

Example literal_tenth : lit 1 1 = S754_finite false 0x1999999999999A (-56).
Proof. vm_compute. reflexivity. Qed.

Example int_truediv_examples :
  int_truediv 800 600 = inr (S754_finite false 0x15555555555555 (-52)) /\
  int_truediv 1 2 = inr (lit 5 1) /\
  int_truediv 0 (-5) = inr (S754_zero true) /\
  int_truediv 1 0 = inl ZeroDivisionError /\
  int_truediv (2 ^ 1024) 1 = inl OverflowError.
Proof. vm_compute. repeat split; reflexivity. Qed.

(** The rows are uploaded bottom row first. *)
Example flipped_bytes :
  Image.tobytes (Image.transpose_FLIP_TOP_BOTTOM earth_jpg)
  = [ xff; xff; xff; xff;  x00; x00; x80; xff;
      x00; x00; xff; xff;  x00; x80; x00; xff ].
Proof. reflexivity. Qed.

(** [initializeGL] with both pictures in place stores textures 0 and 1. *)
Example started_with_background :
  initializeGL (__init__ "earth.jpg" "stars.png" desktop)
  = Ok tt (started "earth.jpg" "stars.png") /\
  texture (self (started "earth.jpg" "stars.png")) = Some 0%N /\
  bg_texture (self (started "earth.jpg" "stars.png")) = Some 1%N /\
  depth_test (gl (started "earth.jpg" "stars.png")) = true /\
  length (calls (gl (started "earth.jpg" "stars.png"))) = 13%nat.
Proof. vm_compute. repeat split; reflexivity. Qed.

(** A path that leads to no picture, after a texture that loaded. *)
Example background_not_an_image :
  exists w,
    initializeGL (__init__ "earth.jpg" "notes.txt" desktop)
    = Raise (UnidentifiedImageError "notes.txt") w /\
    texture (self w) = Some 0%N /\
    bg_texture (self w) = None.
Proof. eexists. vm_compute. repeat split; reflexivity. Qed.

(** An uninitialised widget cannot paint: the sphere texture is [None]. *)
Example paint_uninitialized :
  exists w, paintGL (__init__ "earth.jpg" EmptyString desktop) = Raise ArgumentError w.
Proof. eexists. vm_compute. reflexivity. Qed.

(** * The claims *)

(** C9.  Every call of [update_frame] changes only the rotation angle,
    which it increments by 0.5, and asks for a repaint; the two texture
    handles, the two image paths and the timer are as before, and so are
    the graphics context, the files and the size of the widget. *)
Theorem update_frame_changes_angle_only (w : World) :
  exists w',
    update_frame w = Ok tt w' /\
    angle (self w') = float_add (angle (self w)) (lit 5 1) /\
    texture (self w') = texture (self w) /\
    bg_texture (self w') = bg_texture (self w) /\
    texture_image (self w') = texture_image (self w) /\
    background_image (self w') = background_image (self w) /\
    timer (self w') = timer (self w) /\
    QWidget.update_pending (qt w') = true /\
    QWidget.width (qt w') = QWidget.width (qt w) /\
    QWidget.height (qt w') = QWidget.height (qt w) /\
    gl w' = gl w /\
    fs w' = fs w.
Proof.
  eexists. split; [apply update_frame_run |]. repeat split; reflexivity.
Qed.

(** C3, as the code has it.  Starting from angle 0, [update_frame] called
    [n] times always returns, and the angle never decreases from one call
    to the next.  For [n <= 2 ^ 53] the angle is exactly [0.5 * n]; from
    [2 ^ 53] calls on it stays at [2 ^ 52], where adding 0.5 rounds back. *)
Theorem update_frame_angle (w : World) (n : N) :
  angle (self w) = S754_zero false ->
  exists w1 w2 q1 q2,
    times n update_frame w = Ok tt w1 /\
    update_frame w1 = Ok tt w2 /\
    SF2Q (angle (self w1)) = Some q1 /\
    SF2Q (angle (self w2)) = Some q2 /\
    (q1 <= q2)%Q /\
    ((n <= 2 ^ 53)%N -> (q1 == Z.of_N n # 2)%Q) /\
    ((2 ^ 53 <= n)%N -> (q1 == 2 ^ 52 # 1)%Q).
Proof.
  intros H0.
  assert (Ha : forall k, angle (self (ticked k w)) = halves (Z.min (Z.of_N k) (2 ^ 53))).
  { intros k. unfold ticked. cbn [self angle set_angle]. rewrite H0. apply iter_add_half. }
  destruct (SF2Q_halves (Z.min (Z.of_N n) (2 ^ 53)) ltac:(lia)) as (q1 & E1 & V1).
  destruct (SF2Q_halves (Z.min (Z.of_N (N.succ n)) (2 ^ 53)) ltac:(lia)) as (q2 & E2 & V2).
  exists (ticked n w), (ticked (N.succ n) w), q1, q2.
  split; [apply times_update_frame |].
  split.
  { rewrite <- (times_update_frame (N.succ n)), times_succ.
    unfold mbind, M_bind. rewrite times_update_frame. reflexivity. }
  rewrite !Ha. split; [exact E1 |]. split; [exact E2 |]. split.
  - apply (halves_le (Z.min (Z.of_N n) (2 ^ 53)) (Z.min (Z.of_N (N.succ n)) (2 ^ 53)));
      try assumption; lia.
  - split; intros Hn; rewrite V1.
    + rewrite Z.min_l by lia. reflexivity.
    + rewrite Z.min_r by lia. reflexivity.
Qed.

Lemma update_frame_angle_witness :
  exists w1 w2 q1 q2,
    times 10 update_frame (__init__ "earth.jpg" EmptyString desktop) = Ok tt w1 /\
    update_frame w1 = Ok tt w2 /\
    SF2Q (angle (self w1)) = Some q1 /\
    SF2Q (angle (self w2)) = Some q2 /\
    (q1 <= q2)%Q /\
    ((10 <= 2 ^ 53)%N -> (q1 == Z.of_N 10 # 2)%Q) /\
    ((2 ^ 53 <= 10)%N -> (q1 == 2 ^ 52 # 1)%Q).
Proof. apply (update_frame_angle (__init__ "earth.jpg" EmptyString desktop) 10). reflexivity. Defined.

(** C3, as stated, fails: after [2 ^ 53 + 2] calls the angle is
    4503599627370496.0, not [0.5 * (2 ^ 53 + 2)] = 4503599627370497. *)
Lemma update_frame_angle_stalls :
  exists w',
    times (2 ^ 53 + 2) update_frame (__init__ "earth.jpg" EmptyString desktop) = Ok tt w' /\
    angle (self w') = S754_finite false 4503599627370496 0 /\
    SF2Q (angle (self w')) = Some (4503599627370496 # 1)%Q /\
    ~ (4503599627370496 # 1 == Z.of_N (2 ^ 53 + 2) # 2)%Q.
Proof.
  exists (ticked (2 ^ 53 + 2) (__init__ "earth.jpg" EmptyString desktop)).
  split; [apply times_update_frame |].
  assert (E : angle (self (ticked (2 ^ 53 + 2) (__init__ "earth.jpg" EmptyString desktop)))
              = S754_finite false 4503599627370496 0).
  { unfold ticked. cbn [self angle set_angle __init__]. rewrite iter_add_half. reflexivity. }
  rewrite E. split; [reflexivity |]. split; [reflexivity |].
  unfold Qeq. cbn [Qnum Qden]. discriminate.
Qed.

(** C2.  For the widths and heights the toolkit can pass, [resizeGL]
    returns, and the perspective projection it sets up has field of view
    45.0, near plane 0.1 and far plane 100.0.  Its aspect ratio is the
    float quotient [width / height] whenever [height] is not 0; for a
    positive [height] that float is within a relative distance of
    [2 ^ (-52)] of the exact ratio.  When [height] is 0 the aspect ratio is
    exactly 1.0. *)
Theorem resizeGL_aspect (w : World) (width height : Z) :
  c_int width -> c_int height ->
  exists aspect w',
    resizeGL width height w = Ok tt w' /\
    calls (gl w') = calls (gl w) ++
      [ glViewport (PyInt 0) (PyInt 0) (PyInt width) (PyInt height);
        glMatrixMode GL_PROJECTION;
        glLoadIdentity;
        gluPerspective (PyFloat (lit 450 1)) (PyFloat aspect) (PyFloat (lit 1 1))
                       (PyFloat (lit 1000 1));
        glMatrixMode GL_MODELVIEW ] /\
    current (projection (gl w'))
    = [ Perspective (PyFloat (lit 450 1)) (PyFloat aspect) (PyFloat (lit 1 1))
                    (PyFloat (lit 1000 1)) ] /\
    float_finite aspect = true /\
    (height <> 0 -> int_truediv width height = inr aspect) /\
    (0 < height ->
       exists v, SF2Q aspect = Some v /\
         (Qabs (v - (width # Z.to_pos height))
          <= Qabs (width # Z.to_pos height) * (1 # 2 ^ 52))%Q) /\
    (height = 0 -> aspect = lit 10 1).
Proof.
  intros Hw Hh. destruct (aspect_defined width height Hw) as (aspect & Ha & Hf).
  exists aspect. eexists. split; [apply (resizeGL_run _ _ _ _ Ha) |].
  cbn [gl set_gl]. rewrite resize_effect. cbn [calls projection current].
  repeat split; try assumption.
  - intros Hne. destruct (Z.eqb_spec height 0); [contradiction | exact Ha].
  - intros Hpos. unfold c_int in Hw, Hh.
    destruct (int_truediv_accurate width height ltac:(lia) ltac:(lia)) as (f & v & Ef & Ev & Hv).
    destruct (Z.eqb_spec height 0); [lia |]. cbn [negb] in Ha.
    rewrite Ef in Ha. injection Ha as <-. exists v. split; assumption.
  - intros ->. injection Ha as <-. reflexivity.
Qed.

Lemma resizeGL_aspect_witness :
  exists aspect w',
    resizeGL 800 600 (__init__ "earth.jpg" EmptyString desktop) = Ok tt w' /\
    calls (gl w') = calls (gl (__init__ "earth.jpg" EmptyString desktop)) ++
      [ glViewport (PyInt 0) (PyInt 0) (PyInt 800) (PyInt 600);
        glMatrixMode GL_PROJECTION;
        glLoadIdentity;
        gluPerspective (PyFloat (lit 450 1)) (PyFloat aspect) (PyFloat (lit 1 1))
                       (PyFloat (lit 1000 1));
        glMatrixMode GL_MODELVIEW ] /\
    current (projection (gl w'))
    = [ Perspective (PyFloat (lit 450 1)) (PyFloat aspect) (PyFloat (lit 1 1))
                    (PyFloat (lit 1000 1)) ] /\
    float_finite aspect = true /\
    (600 <> 0 -> int_truediv 800 600 = inr aspect) /\
    (0 < 600 ->
       exists v, SF2Q aspect = Some v /\
         (Qabs (v - (800 # Z.to_pos 600)) <= Qabs (800 # Z.to_pos 600) * (1 # 2 ^ 52))%Q) /\
    (600 = 0 -> aspect = lit 10 1).
Proof.
  apply (resizeGL_aspect (__init__ "earth.jpg" EmptyString desktop) 800 600);
    unfold c_int; lia.
Defined.

(** C4.  When the texture path does not lead to a picture (no such file,
    a file that cannot be read, or one that is not an image),
    [initializeGL] raises the loader's error, and the widget is left
    without a sphere texture handle, and without a background one. *)
Theorem initializeGL_missing_texture (texture_image background_image : string)
  (parent : Parent) :
  (forall im, parent_fs parent !! texture_image <> Some (Picture im)) ->
  exists e w',
    initializeGL (__init__ texture_image background_image parent) = Raise e w' /\
    ImageLoadError e = true /\
    Uninitialized w' /\
    bg_texture (self w') = None.
Proof.
  intros H.
  assert (He : exists e, Image.open (parent_fs parent) texture_image = inl e
                         /\ ImageLoadError e = true).
  { unfold Image.open. destruct (parent_fs parent !! texture_image) as [[| | im] |] eqn:E;
      try (eexists; split; reflexivity).
    exfalso. exact (H im eq_refl). }
  destruct He as (e & He & Hl). exists e. eexists.
  split; [apply initializeGL_raise; exact He |].
  split; [exact Hl |]. split; reflexivity.
Qed.

Lemma initializeGL_missing_texture_witness :
  exists e w',
    initializeGL (__init__ "moon.jpg" EmptyString desktop) = Raise e w' /\
    ImageLoadError e = true /\
    Uninitialized w' /\
    bg_texture (self w') = None.
Proof.
  apply (initializeGL_missing_texture "moon.jpg" EmptyString desktop).
  intros im. vm_compute. discriminate.
Defined.

(** C8.  A call of [paintGL] on an initialised widget creates exactly one
    quadric, under a name not in use; the last call of the frame releases
    it, and the live quadrics after the frame are those before it: none
    outlives the call. *)
Theorem paintGL_quadric_scoped (w : World) (t : N) :
  texture (self w) = Some t ->
  exists w' frame quadric,
    paintGL w = Ok tt w' /\
    calls (gl w') = calls (gl w) ++ frame /\
    filter (fun c => is_new_quadric c = true) frame = [ gluNewQuadric quadric ] /\
    last frame = Some (gluDeleteQuadric quadric) /\
    quadrics (gl w) !! quadric = None /\
    quadrics (gl w') !! quadric = None /\
    quadrics (gl w') = quadrics (gl w).
Proof.
  intros Ht.
  set (q := fresh (dom (quadrics (gl w)))).
  assert (Hq : quadrics (gl w) !! q = None).
  { apply not_elem_of_dom. apply is_fresh. }
  assert (Hs : quadrics (gl (set_gl (run_calls
                  (paint_calls (angle (self w)) (QWidget.width (qt w))
                               (QWidget.height (qt w)) (bg_texture (self w)) t q)
                  (gl w)) w)) = quadrics (gl w)).
  { cbn [gl set_gl]. unfold paint_calls. rewrite !app_assoc, run_calls_app.
    rewrite sphere_effect; cbn [quadrics];
      rewrite quadrics_run_calls; try exact Hq; try reflexivity;
      destruct (bg_texture (self w)); reflexivity. }
  eexists. exists (paint_calls (angle (self w)) (QWidget.width (qt w))
                               (QWidget.height (qt w)) (bg_texture (self w)) t q), q.
  split; [apply (paintGL_run w t Ht) |].
  split; [apply calls_run_calls |].
  split; [destruct (bg_texture (self w)); reflexivity |].
  split; [destruct (bg_texture (self w)); reflexivity |].
  split; [exact Hq |].
  fold q. rewrite Hs. split; [exact Hq | reflexivity].
Qed.

Lemma paintGL_quadric_scoped_witness :
  exists w' frame quadric,
    paintGL (started "earth.jpg" "stars.png") = Ok tt w' /\
    calls (gl w') = calls (gl (started "earth.jpg" "stars.png")) ++ frame /\
    filter (fun c => is_new_quadric c = true) frame = [ gluNewQuadric quadric ] /\
    last frame = Some (gluDeleteQuadric quadric) /\
    quadrics (gl (started "earth.jpg" "stars.png")) !! quadric = None /\
    quadrics (gl w') !! quadric = None /\
    quadrics (gl w') = quadrics (gl (started "earth.jpg" "stars.png")).
Proof.
  apply (paintGL_quadric_scoped (started "earth.jpg" "stars.png") 0%N).
  vm_compute. reflexivity.
Defined.

(** C7.  With a background texture, a frame is one clear, then exactly one
    quad drawn with depth testing off under the orthographic projection of
    the widget, then the sphere drawn with depth testing on under the
    projection in force before the frame.  [render_background] itself
    leaves both matrix stacks as it found them and ends with depth testing
    enabled. *)
Theorem paintGL_background_frame (w : World) (bg t : N) :
  bg_texture (self w) = Some bg ->
  texture (self w) = Some t ->
  matrix_mode (gl w) = GL_MODELVIEW ->
  exists w' quadric vertices,
    paintGL w = Ok tt w' /\
    calls (gl w') = calls (gl w) ++
      [ glClear (Z.lor GL_COLOR_BUFFER_BIT GL_DEPTH_BUFFER_BIT); glLoadIdentity ]
      ++ background_calls (QWidget.width (qt w)) (QWidget.height (qt w)) bg
      ++ [ glTranslatef (PyFloat (lit 0 1)) (PyFloat (lit 0 1)) (PyFloat (lit (-45) 1));
           glRotatef (PyFloat (angle (self w))) (PyFloat (lit 20 1)) (PyFloat (lit (-10) 1))
                     (PyFloat (lit (-10) 1));
           glScalef (PyFloat (lit 10 1)) (PyFloat (lit 10 1)) (PyFloat (lit 10 1)) ]
      ++ sphere_calls t quadric (lit 15 1) 32 32 /\
    framebuffer (gl w') = framebuffer (gl w) ++
      [ Cleared (Z.lor GL_COLOR_BUFFER_BIT GL_DEPTH_BUFFER_BIT);
        Primitive GL_QUADS vertices
          {| p_viewport := viewport (gl w);
             p_projection := [ Ortho2D (PyInt 0) (PyInt (QWidget.width (qt w)))
                                       (PyInt 0) (PyInt (QWidget.height (qt w))) ];
             p_modelview := [];
             p_depth_test := false;
             p_texturing := texture_2d (gl w);
             p_texture := bg |};
        Sphere (PyFloat (lit 15 1)) 32 32 true
          {| p_viewport := viewport (gl w);
             p_projection := current (projection (gl w));
             p_modelview := sphere_modelview (angle (self w));
             p_depth_test := true;
             p_texturing := texture_2d (gl w);
             p_texture := t |} ] /\
    depth_test (gl w') = true /\
    projection (gl w') = projection (gl w) /\
    (forall v, bg_texture (self v) = Some bg ->
       exists v',
         render_background v = Ok tt v' /\
         projection (gl v') = projection (gl v) /\
         modelview (gl v') = modelview (gl v) /\
         depth_test (gl v') = true).
Proof.
  intros Hb Ht Hm.
  set (q := fresh (dom (quadrics (gl w)))).
  assert (Hq : quadrics (gl w) !! q = None).
  { apply not_elem_of_dom. apply is_fresh. }
  eexists. exists q. eexists.
  split; [apply (paintGL_run w t Ht) |].
  fold q. rewrite Hb. cbn [gl set_gl].
  rewrite (paint_effect_background _ _ _ _ _ _ _ Hm Hq).
  cbn [calls framebuffer depth_test projection].
  split; [reflexivity |]. split; [reflexivity |]. split; [reflexivity |].
  split; [reflexivity |].
  intros v Hv. eexists. split; [apply (render_background_run v bg Hv) |].
  cbn [gl set_gl]. rewrite background_effect. repeat split; reflexivity.
Qed.

Lemma paintGL_background_frame_witness :
  exists w' quadric vertices,
    paintGL (started "earth.jpg" "stars.png") = Ok tt w' /\
    calls (gl w') = calls (gl (started "earth.jpg" "stars.png")) ++
      [ glClear (Z.lor GL_COLOR_BUFFER_BIT GL_DEPTH_BUFFER_BIT); glLoadIdentity ]
      ++ background_calls (QWidget.width (qt (started "earth.jpg" "stars.png")))
                          (QWidget.height (qt (started "earth.jpg" "stars.png"))) 1%N
      ++ [ glTranslatef (PyFloat (lit 0 1)) (PyFloat (lit 0 1)) (PyFloat (lit (-45) 1));
           glRotatef (PyFloat (angle (self (started "earth.jpg" "stars.png"))))
                     (PyFloat (lit 20 1)) (PyFloat (lit (-10) 1)) (PyFloat (lit (-10) 1));
           glScalef (PyFloat (lit 10 1)) (PyFloat (lit 10 1)) (PyFloat (lit 10 1)) ]
      ++ sphere_calls 0%N quadric (lit 15 1) 32 32 /\
    framebuffer (gl w') = framebuffer (gl (started "earth.jpg" "stars.png")) ++
      [ Cleared (Z.lor GL_COLOR_BUFFER_BIT GL_DEPTH_BUFFER_BIT);
        Primitive GL_QUADS vertices
          {| p_viewport := viewport (gl (started "earth.jpg" "stars.png"));
             p_projection :=
               [ Ortho2D (PyInt 0)
                         (PyInt (QWidget.width (qt (started "earth.jpg" "stars.png"))))
                         (PyInt 0)
                         (PyInt (QWidget.height (qt (started "earth.jpg" "stars.png")))) ];
             p_modelview := [];
             p_depth_test := false;
             p_texturing := texture_2d (gl (started "earth.jpg" "stars.png"));
             p_texture := 1%N |};
        Sphere (PyFloat (lit 15 1)) 32 32 true
          {| p_viewport := viewport (gl (started "earth.jpg" "stars.png"));
             p_projection := current (projection (gl (started "earth.jpg" "stars.png")));
             p_modelview := sphere_modelview (angle (self (started "earth.jpg" "stars.png")));
             p_depth_test := true;
             p_texturing := texture_2d (gl (started "earth.jpg" "stars.png"));
             p_texture := 0%N |} ] /\
    depth_test (gl w') = true /\
    projection (gl w') = projection (gl (started "earth.jpg" "stars.png")) /\
    (forall v, bg_texture (self v) = Some 1%N ->
       exists v',
         render_background v = Ok tt v' /\
         projection (gl v') = projection (gl v) /\
         modelview (gl v') = modelview (gl v) /\
         depth_test (gl v') = true).
Proof.
  apply (paintGL_background_frame (started "earth.jpg" "stars.png") 1%N 0%N);
    vm_compute; reflexivity.
Defined.

(** C6.  After a resize to any size the toolkit can pass, the frame of a
    widget with a background texture draws one quad whose corners pair
    texture coordinate (0,0) with position (0,0), (1,0) with (width,0),
    (1,1) with (width,height) and (0,1) with (0,height), under the
    orthographic projection [0,width] x [0,height] and the viewport
    (0,0,width,height). *)
Theorem background_quad_covers_viewport (w : World) (width height : Z) (bg t : N) :
  c_int width ->
  bg_texture (self w) = Some bg ->
  texture (self w) = Some t ->
  exists w1 w2 sphere,
    resize width height w = Ok tt w1 /\
    paintGL w1 = Ok tt w2 /\
    is_sphere sphere = true /\
    framebuffer (gl w2) = framebuffer (gl w) ++
      [ Cleared (Z.lor GL_COLOR_BUFFER_BIT GL_DEPTH_BUFFER_BIT);
        Primitive GL_QUADS
          [ ((PyFloat (lit 0 1), PyFloat (lit 0 1)), (PyFloat (lit 0 1), PyFloat (lit 0 1)));
            ((PyFloat (lit 10 1), PyFloat (lit 0 1)), (PyInt width, PyFloat (lit 0 1)));
            ((PyFloat (lit 10 1), PyFloat (lit 10 1)), (PyInt width, PyInt height));
            ((PyFloat (lit 0 1), PyFloat (lit 10 1)), (PyFloat (lit 0 1), PyInt height)) ]
          {| p_viewport := (PyInt 0, PyInt 0, PyInt width, PyInt height);
             p_projection := [ Ortho2D (PyInt 0) (PyInt width) (PyInt 0) (PyInt height) ];
             p_modelview := [];
             p_depth_test := false;
             p_texturing := texture_2d (gl w);
             p_texture := bg |};
        sphere ].
Proof.
  intros Hw Hb Ht.
  destruct (aspect_defined width height Hw) as (aspect & Ha & _).
  rewrite (resize_run _ _ _ _ Ha).
  set (w1 := {| self := self w;
                qt := {| QWidget.width := width; QWidget.height := height;
                         QWidget.update_pending := QWidget.update_pending (qt w) |};
                gl := run_calls (resize_calls width height aspect) (gl w);
                fs := fs w |}).
  assert (Hq : quadrics (gl w1) !! fresh (dom (quadrics (gl w1))) = None).
  { apply not_elem_of_dom. apply is_fresh. }
  assert (Hm : matrix_mode (gl w1) = GL_MODELVIEW).
  { subst w1. cbn [gl]. rewrite resize_effect. reflexivity. }
  exists w1. eexists. eexists.
  split; [reflexivity |]. split; [apply (paintGL_run w1 t Ht) |].
  cbn [gl set_gl].
  replace (bg_texture (self w1)) with (Some bg) by (symmetry; exact Hb).
  rewrite (paint_effect_background _ _ _ _ _ _ _ Hm Hq). cbn [framebuffer].
  subst w1. cbn [gl qt QWidget.width QWidget.height]. rewrite resize_effect.
  cbn [framebuffer viewport texture_2d]. refine (conj _ eq_refl). reflexivity.
Qed.

Lemma background_quad_covers_viewport_witness :
  exists w1 w2 sphere,
    resize 1024 768 (started "earth.jpg" "stars.png") = Ok tt w1 /\
    paintGL w1 = Ok tt w2 /\
    is_sphere sphere = true /\
    framebuffer (gl w2) = framebuffer (gl (started "earth.jpg" "stars.png")) ++
      [ Cleared (Z.lor GL_COLOR_BUFFER_BIT GL_DEPTH_BUFFER_BIT);
        Primitive GL_QUADS
          [ ((PyFloat (lit 0 1), PyFloat (lit 0 1)), (PyFloat (lit 0 1), PyFloat (lit 0 1)));
            ((PyFloat (lit 10 1), PyFloat (lit 0 1)), (PyInt 1024, PyFloat (lit 0 1)));
            ((PyFloat (lit 10 1), PyFloat (lit 10 1)), (PyInt 1024, PyInt 768));
            ((PyFloat (lit 0 1), PyFloat (lit 10 1)), (PyFloat (lit 0 1), PyInt 768)) ]
          {| p_viewport := (PyInt 0, PyInt 0, PyInt 1024, PyInt 768);
             p_projection := [ Ortho2D (PyInt 0) (PyInt 1024) (PyInt 0) (PyInt 768) ];
             p_modelview := [];
             p_depth_test := false;
             p_texturing := texture_2d (gl (started "earth.jpg" "stars.png"));
             p_texture := 1%N |};
        sphere ].
Proof.
  apply (background_quad_covers_viewport (started "earth.jpg" "stars.png") 1024 768 1%N 0%N);
    [unfold c_int; lia | vm_compute; reflexivity | vm_compute; reflexivity].
Defined.

(** ** A widget without background never draws a quad *)

Lemma run_slots_ticked (ss : list slot) (w : World) :
  run_slots ss w = Ok tt (ticked (N.of_nat (length ss)) w).
Proof.
  revert w. induction ss as [| [] ss IH]; intros w.
  - destruct w as [[] [] ? ?]. reflexivity.
  - cbn [run_slots run_slot]. unfold mbind, M_bind. rewrite update_frame_run, IH.
    cbn [length]. rewrite Nat2N.inj_succ. unfold ticked.
    cbn [self qt gl fs set_angle angle texture texture_image bg_texture background_image
         timer QWidget.width QWidget.height QWidget.update_pending].
    rewrite N.iter_succ_r.
    replace (N.succ (N.of_nat (length ss)) =? 0)%N with false
      by (symmetry; apply N.eqb_neq; lia).
    destruct (N.of_nat (length ss) =? 0)%N; reflexivity.
Qed.

Lemma no_background_ticked (im : Image.t) (n : N) (w : World) :
  no_background im w -> no_background im (ticked n w).
Proof. intros H. exact H. Qed.

Ltac solve_no_background H :=
  destruct H as ((t0 & Ht) & Hb & Hi & Hf & Hd & Hc);
  repeat split;
  [ eexists; reflexivity || exact Ht
  | exact Hb | exact Hi | exact Hf
  | cbn [gl set_gl set_self]; apply framebuffer_run_calls; [reflexivity | exact Hd]
  | cbn [gl set_gl set_self]; rewrite calls_run_calls; apply Forall_app; split;
    [exact Hc | repeat constructor] ].

Lemma dispatch_no_background (im : Image.t) (e : event) (w : World) :
  toolkit_event e -> no_background im w ->
  exists w', dispatch e w = Ok tt w' /\ no_background im w'.
Proof.
  intros He H. destruct e as [| width height | |]; cbn [dispatch].
  - pose proof H as (_ & _ & Ebg & Efs & _).
    eexists. split; [apply (initializeGL_plain w im Efs Ebg) |].
    solve_no_background H.
  - destruct He as [Hw Hh].
    destruct (aspect_defined width height Hw) as (aspect & Ha & _).
    eexists. split; [apply (resize_run _ _ _ _ Ha) |].
    solve_no_background H.
  - unfold mbind, M_bind, gets. destruct (QTimer.active (timer (self w))).
    + eexists. split; [apply run_slots_ticked |]. apply no_background_ticked, H.
    + eexists. split; [reflexivity | exact H].
  - pose proof H as ((t & Etex) & Ebg & _).
    unfold repaint, mbind, M_bind, modify.
    eexists. split; [apply (paintGL_run _ t); exact Etex |].
    cbn [self set_qt qt QWidget.width QWidget.height]. rewrite Ebg.
    solve_no_background H.
Qed.

Lemma run_no_background (im : Image.t) (es : list event) (w : World) :
  Forall toolkit_event es -> no_background im w ->
  exists w', run es w = Ok tt w' /\ no_background im w'.
Proof.
  intros Hes. revert w. induction Hes as [| e es He Hes IH]; intros w H.
  - exists w. split; [reflexivity | exact H].
  - destruct (dispatch_no_background im e w He H) as (w1 & E1 & H1).
    destruct (IH w1 H1) as (w2 & E2 & H2).
    exists w2. split; [| exact H2].
    cbn [run]. unfold mbind, M_bind. rewrite E1. exact E2.
Qed.

(** C5.  With an empty background path and a texture path that leads to a
    picture, [initializeGL] succeeds: the widget is [Ready] and has no
    background texture.  From then on, whatever events the toolkit
    delivers, every one of them is handled without error, the background
    texture stays unset, and no quad is ever drawn: not a single [glBegin]
    is issued. *)
Theorem initialize_without_background (texture_image : string) (parent : Parent)
  (im : Image.t) :
  parent_fs parent !! texture_image = Some (Picture im) ->
  exists w0,
    initializeGL (__init__ texture_image EmptyString parent) = Ok tt w0 /\
    Ready w0 /\
    bg_texture (self w0) = None /\
    forall es, Forall toolkit_event es ->
      exists w1,
        run es w0 = Ok tt w1 /\
        bg_texture (self w1) = None /\
        Forall (fun d => is_quad d = false) (framebuffer (gl w1)) /\
        Forall (fun c => is_glBegin c = false) (calls (gl w1)).
Proof.
  intros Hfs.
  eexists. split; [apply (initializeGL_plain _ im); [exact Hfs | reflexivity] |].
  match goal with |- Ready ?w /\ _ => set (w0 := w) end.
  assert (Hinv : no_background im w0).
  { subst w0. repeat split.
    - eexists. reflexivity.
    - exact Hfs.
    - cbn [gl set_gl set_self]. apply framebuffer_run_calls; [reflexivity | constructor].
    - cbn [gl set_gl set_self]. rewrite calls_run_calls. repeat constructor. }
  split; [subst w0; discriminate |]. split; [reflexivity |].
  intros es Hes. destruct (run_no_background im es w0 Hes Hinv) as (w1 & E & H1).
  exists w1. split; [exact E |].
  destruct H1 as (_ & Hb & _ & _ & Hd & Hc). repeat split; assumption.
Qed.

Lemma initialize_without_background_witness :
  exists w0,
    initializeGL (__init__ "earth.jpg" EmptyString desktop) = Ok tt w0 /\
    Ready w0 /\
    bg_texture (self w0) = None /\
    forall es, Forall toolkit_event es ->
      exists w1,
        run es w0 = Ok tt w1 /\
        bg_texture (self w1) = None /\
        Forall (fun d => is_quad d = false) (framebuffer (gl w1)) /\
        Forall (fun c => is_glBegin c = false) (calls (gl w1)).
Proof.
  apply (initialize_without_background "earth.jpg" desktop earth_jpg).
  vm_compute. reflexivity.
Defined.

(** ** The first frames *)

Lemma init_effect (name : N) (im : Image.t) (g : GLState) :
  let g' := run_calls (init_calls ++ load_calls name im) g in
  depth_test g' = true /\
  texture_2d g' = true /\
  viewport g' = viewport g /\
  matrix_mode g' = matrix_mode g /\
  projection g' = projection g /\
  modelview g' = modelview g /\
  quadrics g' = quadrics g /\
  framebuffer g' = framebuffer g.
Proof.
  destruct g as [cc dt t2 vp mm [pc ps] [mc ms] tc pr bt tx qd fb cl].
  cbv [init_calls load_calls app]. step_gl. repeat split; reflexivity.
Qed.

(** C1.  [initialize("earth.jpg", EmptyString)], a resize to 800 x 600 and ten
    calls of [update_frame] all succeed and leave the angle at 5.0.  The
    frame then painted is one clear and one sphere, with no quad and no
    [glBegin]: the sphere has radius 1.5, 32 slices and 32 stacks, and is
    drawn under the model-view matrix made of the translation by
    (0, 0, -4.5), the rotation by 5.0 about (2, -1, -1) and the unit
    scaling, in that order. *)
Theorem scenario_plain_frame (parent : Parent) (im : Image.t) :
  parent_fs parent !! "earth.jpg" = Some (Picture im) ->
  exists w0 w1 t quadric aspect,
    (initializeGL;; resize 800 600;; times 10 update_frame)
      (__init__ "earth.jpg" EmptyString parent) = Ok tt w0 /\
    paintGL w0 = Ok tt w1 /\
    angle (self w0) = lit 50 1 /\
    int_truediv 800 600 = inr aspect /\
    calls (gl w1) = calls (gl w0) ++
      [ glClear (Z.lor GL_COLOR_BUFFER_BIT GL_DEPTH_BUFFER_BIT);
        glLoadIdentity;
        glTranslatef (PyFloat (lit 0 1)) (PyFloat (lit 0 1)) (PyFloat (lit (-45) 1));
        glRotatef (PyFloat (lit 50 1)) (PyFloat (lit 20 1)) (PyFloat (lit (-10) 1))
                  (PyFloat (lit (-10) 1));
        glScalef (PyFloat (lit 10 1)) (PyFloat (lit 10 1)) (PyFloat (lit 10 1));
        glBindTexture GL_TEXTURE_2D t;
        gluNewQuadric quadric;
        gluQuadricTexture quadric GL_TRUE;
        gluSphere quadric (PyFloat (lit 15 1)) 32 32;
        gluDeleteQuadric quadric ] /\
    framebuffer (gl w1) =
      [ Cleared (Z.lor GL_COLOR_BUFFER_BIT GL_DEPTH_BUFFER_BIT);
        Sphere (PyFloat (lit 15 1)) 32 32 true
          {| p_viewport := (PyInt 0, PyInt 0, PyInt 800, PyInt 600);
             p_projection := [ Perspective (PyFloat (lit 450 1)) (PyFloat aspect)
                                           (PyFloat (lit 1 1)) (PyFloat (lit 1000 1)) ];
             p_modelview :=
               [ Translate (PyFloat (lit 0 1)) (PyFloat (lit 0 1)) (PyFloat (lit (-45) 1));
                 Rotate (PyFloat (lit 50 1)) (PyFloat (lit 20 1)) (PyFloat (lit (-10) 1))
                        (PyFloat (lit (-10) 1));
                 Scale (PyFloat (lit 10 1)) (PyFloat (lit 10 1)) (PyFloat (lit 10 1)) ];
             p_depth_test := true;
             p_texturing := true;
             p_texture := t |} ].
Proof.
  intros Hfs.
  set (w := __init__ "earth.jpg" EmptyString parent).
  set (t := fresh (dom (textures (gl w)))).
  set (aspect := S754_finite false 6004799503160661 (-52)).
  assert (Ha : (if negb (600 =? 0) then int_truediv 800 600 else inr (lit 10 1))
               = inr aspect) by (vm_compute; reflexivity).
  set (g1 := run_calls (init_calls ++ load_calls t im) (gl w)).
  set (g2 := run_calls (resize_calls 800 600 aspect) g1).
  set (w2 := {| self := set_texture (Some t) (self w);
                qt := {| QWidget.width := 800; QWidget.height := 600;
                         QWidget.update_pending := false |};
                gl := g2; fs := fs w |}).
  destruct (init_effect t im (gl w)) as (Hd & Ht2 & Hv & Hm & Hp & Hmv & Hq & Hf).
  fold g1 in Hd, Ht2, Hv, Hm, Hp, Hmv, Hq, Hf.
  assert (E2 : g2 = _) by (subst g2; apply resize_effect).
  assert (Hrun : (initializeGL;; resize 800 600;; times 10 update_frame) w
                 = Ok tt (ticked 10 w2)).
  { unfold mbind, M_bind.
    rewrite (initializeGL_plain w im Hfs eq_refl).
    rewrite (resize_run _ 800 600 aspect Ha).
    rewrite times_update_frame. reflexivity. }
  set (q := fresh (dom (quadrics (gl (ticked 10 w2))))).
  assert (Hfresh : quadrics (gl (ticked 10 w2)) !! q = None).
  { apply not_elem_of_dom. apply is_fresh. }
  assert (Hmode : matrix_mode (gl (ticked 10 w2)) = GL_MODELVIEW).
  { cbn [ticked gl w2]. rewrite E2. reflexivity. }
  assert (Hangle : angle (self (ticked 10 w2)) = lit 50 1) by (vm_compute; reflexivity).
  exists (ticked 10 w2). eexists. exists t, q, aspect.
  split; [exact Hrun |].
  split; [apply (paintGL_run _ t); reflexivity |].
  split; [exact Hangle |].
  split; [exact Ha |].
  fold q. rewrite Hangle.
  replace (bg_texture (self (ticked 10 w2))) with (@None N) by reflexivity.
  cbn [gl set_gl].
  rewrite (paint_effect_plain _ _ _ _ _ _ Hmode Hfresh). cbn [calls framebuffer].
  split; [reflexivity |].
  cbn [ticked gl w2]. rewrite E2. cbn [framebuffer viewport projection current depth_test texture_2d].
  rewrite Hf, Hd, Ht2. reflexivity.
Qed.

Lemma scenario_plain_frame_witness :
  exists w0 w1 t quadric aspect,
    (initializeGL;; resize 800 600;; times 10 update_frame)
      (__init__ "earth.jpg" EmptyString desktop) = Ok tt w0 /\
    paintGL w0 = Ok tt w1 /\
    angle (self w0) = lit 50 1 /\
    int_truediv 800 600 = inr aspect /\
    calls (gl w1) = calls (gl w0) ++
      [ glClear (Z.lor GL_COLOR_BUFFER_BIT GL_DEPTH_BUFFER_BIT);
        glLoadIdentity;
        glTranslatef (PyFloat (lit 0 1)) (PyFloat (lit 0 1)) (PyFloat (lit (-45) 1));
        glRotatef (PyFloat (lit 50 1)) (PyFloat (lit 20 1)) (PyFloat (lit (-10) 1))
                  (PyFloat (lit (-10) 1));
        glScalef (PyFloat (lit 10 1)) (PyFloat (lit 10 1)) (PyFloat (lit 10 1));
        glBindTexture GL_TEXTURE_2D t;
        gluNewQuadric quadric;
        gluQuadricTexture quadric GL_TRUE;
        gluSphere quadric (PyFloat (lit 15 1)) 32 32;
        gluDeleteQuadric quadric ] /\
    framebuffer (gl w1) =
      [ Cleared (Z.lor GL_COLOR_BUFFER_BIT GL_DEPTH_BUFFER_BIT);
        Sphere (PyFloat (lit 15 1)) 32 32 true
          {| p_viewport := (PyInt 0, PyInt 0, PyInt 800, PyInt 600);
             p_projection := [ Perspective (PyFloat (lit 450 1)) (PyFloat aspect)
                                           (PyFloat (lit 1 1)) (PyFloat (lit 1000 1)) ];
             p_modelview :=
               [ Translate (PyFloat (lit 0 1)) (PyFloat (lit 0 1)) (PyFloat (lit (-45) 1));
                 Rotate (PyFloat (lit 50 1)) (PyFloat (lit 20 1)) (PyFloat (lit (-10) 1))
                        (PyFloat (lit (-10) 1));
                 Scale (PyFloat (lit 10 1)) (PyFloat (lit 10 1)) (PyFloat (lit 10 1)) ];
             p_depth_test := true;
             p_texturing := true;
             p_texture := t |} ].
Proof.
  apply (scenario_plain_frame desktop earth_jpg). vm_compute. reflexivity.
Defined.

(** C10.  [__init__] starts the timer, with an interval of 16 ms and
    [update_frame] connected, and makes no call into the graphics library:
    the widget is still [Uninitialized].  Nothing in [update_frame] waits
    for [initializeGL]: two timeouts delivered first are both handled and
    raise the angle to 1.0 while the widget is [Uninitialized], and the
    first frame painted after [initializeGL] rotates the sphere by 1.0,
    which is more than 0.5. *)
Theorem timer_started_before_initializeGL (texture_image : string) (parent : Parent)
  (im : Image.t) :
  parent_fs parent !! texture_image = Some (Picture im) ->
  exists w1 w2 w3 p,
    QTimer.active (timer (self (__init__ texture_image EmptyString parent))) = true /\
    QTimer.interval (timer (self (__init__ texture_image EmptyString parent))) = 16 /\
    QTimer.timeout (timer (self (__init__ texture_image EmptyString parent))) = [ update_frame_slot ] /\
    Uninitialized (__init__ texture_image EmptyString parent) /\
    calls (gl (__init__ texture_image EmptyString parent)) = [] /\
    run [ Timeout; Timeout ] (__init__ texture_image EmptyString parent) = Ok tt w1 /\
    Uninitialized w1 /\
    angle (self w1) = lit 10 1 /\
    dispatch SurfaceReady w1 = Ok tt w2 /\
    Ready w2 /\
    framebuffer (gl w2) = [] /\
    dispatch PaintDue w2 = Ok tt w3 /\
    framebuffer (gl w3)
    = [ Cleared (Z.lor GL_COLOR_BUFFER_BIT GL_DEPTH_BUFFER_BIT);
        Sphere (PyFloat (lit 15 1)) 32 32 true p ] /\
    p_modelview p
    = [ Translate (PyFloat (lit 0 1)) (PyFloat (lit 0 1)) (PyFloat (lit (-45) 1));
        Rotate (PyFloat (lit 10 1)) (PyFloat (lit 20 1)) (PyFloat (lit (-10) 1))
               (PyFloat (lit (-10) 1));
        Scale (PyFloat (lit 10 1)) (PyFloat (lit 10 1)) (PyFloat (lit 10 1)) ] /\
    float_lt (lit 5 1) (lit 10 1) = true.
Proof.
  intros Hfs.
  set (w := __init__ texture_image EmptyString parent).
  set (w1 := ticked 2 w).
  assert (E1 : run [ Timeout; Timeout ] w = Ok tt w1).
  { cbn [run dispatch]. unfold mbind, M_bind, gets. cbn [w __init__ self timer QTimer.active QTimer.start QTimer.timeout QTimer.connect QTimer.new app].
    cbn [run_slots run_slot]. unfold mbind, M_bind. rewrite !update_frame_run. reflexivity. }
  set (t := fresh (dom (textures (gl w1)))).
  set (g2 := run_calls (init_calls ++ load_calls t im) (gl w1)).
  set (w2 := set_self (set_texture (Some t) (self w1)) (set_gl g2 w1)).
  assert (E2 : dispatch SurfaceReady w1 = Ok tt w2).
  { apply (initializeGL_plain w1 im); [exact Hfs | reflexivity]. }
  destruct (init_effect t im (gl w1)) as (Hd & Ht2 & Hv & Hm & Hp & Hmv & Hq & Hf).
  fold g2 in Hd, Ht2, Hv, Hm, Hp, Hmv, Hq, Hf.
  set (q := fresh (dom (quadrics g2))).
  assert (Hfresh : quadrics g2 !! q = None) by (apply not_elem_of_dom, is_fresh).
  exists w1, w2. eexists. eexists.
  do 5 (split; [reflexivity |]).
  split; [exact E1 |]. split; [reflexivity |].
  split; [vm_compute; reflexivity |].
  split; [exact E2 |]. split; [discriminate |].
  split; [exact Hf |].
  split.
  { unfold dispatch, repaint, mbind, M_bind, modify. apply (paintGL_run _ t). reflexivity. }
  cbn [gl set_gl set_qt w2 set_self self qt].
  replace (bg_texture (set_texture (Some t) (self w1))) with (@None N) by reflexivity.
  fold q. rewrite (paint_effect_plain _ _ _ _ _ g2 Hm Hfresh). cbn [framebuffer].
  rewrite Hf. cbn [app p_modelview].
  split; [reflexivity |]. split; [| reflexivity].
  unfold sphere_modelview. repeat f_equal; vm_compute; reflexivity.
Qed.

Lemma timer_started_before_initializeGL_witness :
  exists w1 w2 w3 p,
    QTimer.active (timer (self (__init__ "earth.jpg" EmptyString desktop))) = true /\
    QTimer.interval (timer (self (__init__ "earth.jpg" EmptyString desktop))) = 16 /\
    QTimer.timeout (timer (self (__init__ "earth.jpg" EmptyString desktop))) = [ update_frame_slot ] /\
    Uninitialized (__init__ "earth.jpg" EmptyString desktop) /\
    calls (gl (__init__ "earth.jpg" EmptyString desktop)) = [] /\
    run [ Timeout; Timeout ] (__init__ "earth.jpg" EmptyString desktop) = Ok tt w1 /\
    Uninitialized w1 /\
    angle (self w1) = lit 10 1 /\
    dispatch SurfaceReady w1 = Ok tt w2 /\
    Ready w2 /\
    framebuffer (gl w2) = [] /\
    dispatch PaintDue w2 = Ok tt w3 /\
    framebuffer (gl w3)
    = [ Cleared (Z.lor GL_COLOR_BUFFER_BIT GL_DEPTH_BUFFER_BIT);
        Sphere (PyFloat (lit 15 1)) 32 32 true p ] /\
    p_modelview p
    = [ Translate (PyFloat (lit 0 1)) (PyFloat (lit 0 1)) (PyFloat (lit (-45) 1));
        Rotate (PyFloat (lit 10 1)) (PyFloat (lit 20 1)) (PyFloat (lit (-10) 1))
               (PyFloat (lit (-10) 1));
        Scale (PyFloat (lit 10 1)) (PyFloat (lit 10 1)) (PyFloat (lit 10 1)) ] /\
    float_lt (lit 5 1) (lit 10 1) = true.
Proof.
  apply (timer_started_before_initializeGL "earth.jpg" desktop earth_jpg).
  vm_compute. reflexivity.
Defined.

(** * Further properties *)

(** ** Loading textures *)

Lemma load_effect (name : N) (im : Image.t) (g : GLState) :
  run_calls (load_calls name im) g
  = {| clear_color := clear_color g;
       depth_test := depth_test g;
       texture_2d := texture_2d g;
       viewport := viewport g;
       matrix_mode := matrix_mode g;
       projection := projection g;
       modelview := modelview g;
       texcoord := texcoord g;
       primitive := primitive g;
       bound_texture := name;
       textures := <[name := uploaded im]> (textures g);
       quadrics := quadrics g;
       framebuffer := framebuffer g;
       calls := calls g ++ load_calls name im |}.
Proof.
  destruct g as [cc dt t2 vp mm pj mv tc pr bt tx qd fb cl].
  cbv [load_calls]. step_gl.
  rewrite !alter_insert_eq, <- !app_assoc. reflexivity.
Qed.

Lemma load_failed_effect (name : N) (g : GLState) :
  run_calls (load_calls_failed name) g
  = {| clear_color := clear_color g;
       depth_test := depth_test g;
       texture_2d := texture_2d g;
       viewport := viewport g;
       matrix_mode := matrix_mode g;
       projection := projection g;
       modelview := modelview g;
       texcoord := texcoord g;
       primitive := primitive g;
       bound_texture := name;
       textures := <[name := empty_texture]> (textures g);
       quadrics := quadrics g;
       framebuffer := framebuffer g;
       calls := calls g ++ load_calls_failed name |}.
Proof.
  destruct g as [cc dt t2 vp mm pj mv tc pr bt tx qd fb cl].
  cbv [load_calls_failed]. step_gl. rewrite <- !app_assoc. reflexivity.
Qed.

Lemma fresh_texture (g : GLState) : textures g !! fresh (dom (textures g)) = None.
Proof. apply not_elem_of_dom, is_fresh. Qed.

(** X1.  When the path leads to a picture, [load_texture] returns a name
    that was not in use; under that name the context now holds the picture
    with its rows bottom first, its own width and height, and linear
    minification and magnification filters.  The texture is left bound,
    every other texture is as before, nothing is drawn and no attribute of
    the widget changes. *)
Theorem load_texture_uploads (w : World) (path : string) (im : Image.t) :
  fs w !! path = Some (Picture im) ->
  exists name w',
    load_texture path w = Ok name w' /\
    textures (gl w) !! name = None /\
    textures (gl w') !! name
    = Some {| tex_image := Some (Image.width im, Image.height im,
                                 Image.tobytes {| Image.width := Image.width im;
                                                  Image.height := Image.height im;
                                                  Image.rows := rev (Image.rows im) |});
              tex_min_filter := Some GL_LINEAR;
              tex_mag_filter := Some GL_LINEAR |} /\
    bound_texture (gl w') = name /\
    (forall other, other <> name -> textures (gl w') !! other = textures (gl w) !! other) /\
    framebuffer (gl w') = framebuffer (gl w) /\
    self w' = self w.
Proof.
  intros H. do 2 eexists. split; [apply (load_texture_ok w path im H) |].
  cbn [gl set_gl self]. rewrite load_effect. cbn [textures bound_texture framebuffer].
  split; [apply fresh_texture |].
  split; [apply lookup_insert_eq |].
  split; [reflexivity |].
  split; [| split; reflexivity].
  intros other Hne. apply lookup_insert_ne. congruence.
Qed.

Lemma load_texture_uploads_witness :
  exists name w',
    load_texture "earth.jpg" (__init__ "earth.jpg" EmptyString desktop) = Ok name w' /\
    textures (gl (__init__ "earth.jpg" EmptyString desktop)) !! name = None /\
    textures (gl w') !! name
    = Some {| tex_image := Some (Image.width earth_jpg, Image.height earth_jpg,
                                 Image.tobytes {| Image.width := Image.width earth_jpg;
                                                  Image.height := Image.height earth_jpg;
                                                  Image.rows := rev (Image.rows earth_jpg) |});
              tex_min_filter := Some GL_LINEAR;
              tex_mag_filter := Some GL_LINEAR |} /\
    bound_texture (gl w') = name /\
    (forall other, other <> name ->
       textures (gl w') !! other
       = textures (gl (__init__ "earth.jpg" EmptyString desktop)) !! other) /\
    framebuffer (gl w') = framebuffer (gl (__init__ "earth.jpg" EmptyString desktop)) /\
    self w' = self (__init__ "earth.jpg" EmptyString desktop).
Proof.
  apply (load_texture_uploads (__init__ "earth.jpg" EmptyString desktop) "earth.jpg" earth_jpg).
  vm_compute. reflexivity.
Defined.

(** X2.  When [Image.open] fails, [load_texture] raises its error after
    [glGenTextures] and [glBindTexture] have run: a fresh texture name has
    been taken and bound, it holds no image, and it is handed to nobody;
    the attributes of the widget are unchanged. *)
Theorem load_texture_leaves_empty_texture (w : World) (path : string) (e : exn) :
  Image.open (fs w) path = inl e ->
  exists name w',
    load_texture path w = Raise e w' /\
    textures (gl w) !! name = None /\
    textures (gl w') !! name
    = Some {| tex_image := None; tex_min_filter := None; tex_mag_filter := None |} /\
    bound_texture (gl w') = name /\
    self w' = self w /\
    calls (gl w') = calls (gl w) ++ [ glGenTextures 1 name; glBindTexture GL_TEXTURE_2D name ].
Proof.
  intros H. do 2 eexists. split; [apply (load_texture_raise w path e H) |].
  cbn [gl set_gl self]. rewrite load_failed_effect. cbn [textures bound_texture calls].
  split; [apply fresh_texture |].
  split; [apply lookup_insert_eq |].
  repeat split; reflexivity.
Qed.

Lemma load_texture_leaves_empty_texture_witness :
  exists name w',
    load_texture "moon.jpg" (__init__ "moon.jpg" EmptyString desktop)
    = Raise (FileNotFoundError "moon.jpg") w' /\
    textures (gl (__init__ "moon.jpg" EmptyString desktop)) !! name = None /\
    textures (gl w') !! name
    = Some {| tex_image := None; tex_min_filter := None; tex_mag_filter := None |} /\
    bound_texture (gl w') = name /\
    self w' = self (__init__ "moon.jpg" EmptyString desktop) /\
    calls (gl w') = calls (gl (__init__ "moon.jpg" EmptyString desktop))
                    ++ [ glGenTextures 1 name; glBindTexture GL_TEXTURE_2D name ].
Proof.
  apply (load_texture_leaves_empty_texture (__init__ "moon.jpg" EmptyString desktop)
           "moon.jpg" (FileNotFoundError "moon.jpg")).
  vm_compute. reflexivity.
Defined.

(** ** Initialisation, in all its outcomes *)

Lemma Image_open_inr (files : gmap string (file Image.t)) (path : string) (im : Image.t) :
  Image.open files path = inr im <-> files !! path = Some (Picture im).
Proof.
  unfold Image.open. destruct (files !! path) as [[| | im'] |]; split; intros H;
    try discriminate; congruence.
Qed.

Lemma init_load_effect (t : N) (im : Image.t) (g : GLState) :
  run_calls (init_calls ++ load_calls t im) g
  = {| clear_color := (PyFloat (lit 0 1), PyFloat (lit 0 1), PyFloat (lit 0 1),
                       PyFloat (lit 10 1));
       depth_test := true;
       texture_2d := true;
       viewport := viewport g;
       matrix_mode := matrix_mode g;
       projection := projection g;
       modelview := modelview g;
       texcoord := texcoord g;
       primitive := primitive g;
       bound_texture := t;
       textures := <[t := uploaded im]> (textures g);
       quadrics := quadrics g;
       framebuffer := framebuffer g;
       calls := calls g ++ init_calls ++ load_calls t im |}.
Proof.
  rewrite run_calls_app, load_effect.
  destruct g as [cc dt t2 vp mm pj mv tc pr bt tx qd fb cl].
  cbv [init_calls]. step_gl. rewrite <- !app_assoc. reflexivity.
Qed.

Lemma init_failed_effect (t : N) (g : GLState) :
  run_calls (init_calls ++ load_calls_failed t) g
  = {| clear_color := (PyFloat (lit 0 1), PyFloat (lit 0 1), PyFloat (lit 0 1),
                       PyFloat (lit 10 1));
       depth_test := true;
       texture_2d := true;
       viewport := viewport g;
       matrix_mode := matrix_mode g;
       projection := projection g;
       modelview := modelview g;
       texcoord := texcoord g;
       primitive := primitive g;
       bound_texture := t;
       textures := <[t := empty_texture]> (textures g);
       quadrics := quadrics g;
       framebuffer := framebuffer g;
       calls := calls g ++ init_calls ++ load_calls_failed t |}.
Proof.
  rewrite run_calls_app, load_failed_effect.
  destruct g as [cc dt t2 vp mm pj mv tc pr bt tx qd fb cl].
  cbv [init_calls]. step_gl. rewrite <- !app_assoc. reflexivity.
Qed.

(** The second texture name differs from the first. *)
Lemma second_name_fresh {A} (t : N) (x : A) (m : gmap N A) :
  fresh (dom (<[t := x]> m)) <> t /\ m !! fresh (dom (<[t := x]> m)) = None.
Proof.
  pose proof (is_fresh (dom (<[t := x]> m))) as H. split.
  - intros E. apply H. rewrite E. apply elem_of_dom. rewrite lookup_insert_eq. eauto.
  - apply not_elem_of_dom. intros Hin. apply H. rewrite dom_insert_L. set_solver.
Qed.

Lemma initializeGL_both (w : World) (im bg : Image.t) :
  fs w !! texture_image (self w) = Some (Picture im) ->
  fs w !! background_image (self w) = Some (Picture bg) ->
  (0 <? String.length (background_image (self w)))%nat = true ->
  let t := fresh (dom (textures (gl w))) in
  let g1 := run_calls (init_calls ++ load_calls t im) (gl w) in
  let b := fresh (dom (textures g1)) in
  initializeGL w
  = Ok tt (set_self (set_bg_texture (Some b) (set_texture (Some t) (self w)))
             (set_gl (run_calls (load_calls b bg) g1) w)).
Proof.
  destruct w as [[a tx ti bt bi tm] q g f].
  cbn [fs self texture_image background_image gl]. intros H1 H2 H3.
  run_method. unfold Image.open. rewrite H1, H3, H2. reflexivity.
Qed.

Lemma initializeGL_background_raise (w : World) (im : Image.t) (e : exn) :
  fs w !! texture_image (self w) = Some (Picture im) ->
  Image.open (fs w) (background_image (self w)) = inl e ->
  (0 <? String.length (background_image (self w)))%nat = true ->
  let t := fresh (dom (textures (gl w))) in
  let g1 := run_calls (init_calls ++ load_calls t im) (gl w) in
  let b := fresh (dom (textures g1)) in
  initializeGL w
  = Raise e (set_self (set_texture (Some t) (self w))
               (set_gl (run_calls (load_calls_failed b) g1) w)).
Proof.
  destruct w as [[a tx ti bt bi tm] q g f].
  cbn [fs self texture_image background_image gl]. intros H1 H2 H3.
  run_method. unfold Image.open at 1. rewrite H1, H3, H2. reflexivity.
Qed.

Lemma length_zero_empty (s : string) : (0 <? String.length s)%nat = false -> s = EmptyString.
Proof. destruct s; [reflexivity | discriminate]. Qed.

(** X3.  When the sphere texture loads and the non-empty background path
    does not lead to a picture, [initializeGL] raises the loader's error
    only after the sphere texture has been uploaded and stored: the widget
    is [Ready], its background texture is what it was, and depth testing
    and texturing are on. *)
Theorem initializeGL_background_fails (w : World) (im : Image.t) (e : exn) :
  fs w !! texture_image (self w) = Some (Picture im) ->
  Image.open (fs w) (background_image (self w)) = inl e ->
  (0 <? String.length (background_image (self w)))%nat = true ->
  exists t w',
    initializeGL w = Raise e w' /\
    ImageLoadError e = true /\
    texture (self w') = Some t /\
    Ready w' /\
    bg_texture (self w') = bg_texture (self w) /\
    textures (gl w) !! t = None /\
    textures (gl w') !! t = Some (uploaded im) /\
    depth_test (gl w') = true /\
    texture_2d (gl w') = true.
Proof.
  intros H1 H2 H3. do 2 eexists.
  split; [apply (initializeGL_background_raise w im e H1 H2 H3) |].
  cbn [gl set_gl set_self self texture bg_texture set_texture].
  rewrite load_failed_effect, init_load_effect.
  cbn [textures depth_test texture_2d].
  split.
  { unfold Image.open in H2.
    destruct (fs w !! background_image (self w)) as [[| |] |]; inversion H2; reflexivity. }
  split; [reflexivity |]. split; [discriminate |]. split; [reflexivity |].
  split; [apply fresh_texture |].
  split; [| split; reflexivity].
  rewrite lookup_insert_ne by apply second_name_fresh.
  apply lookup_insert_eq.
Qed.

Lemma initializeGL_background_fails_witness :
  exists t w',
    initializeGL (__init__ "earth.jpg" "notes.txt" desktop)
    = Raise (UnidentifiedImageError "notes.txt") w' /\
    ImageLoadError (UnidentifiedImageError "notes.txt") = true /\
    texture (self w') = Some t /\
    Ready w' /\
    bg_texture (self w') = bg_texture (self (__init__ "earth.jpg" "notes.txt" desktop)) /\
    textures (gl (__init__ "earth.jpg" "notes.txt" desktop)) !! t = None /\
    textures (gl w') !! t = Some (uploaded earth_jpg) /\
    depth_test (gl w') = true /\
    texture_2d (gl w') = true.
Proof.
  apply (initializeGL_background_fails (__init__ "earth.jpg" "notes.txt" desktop) earth_jpg
           (UnidentifiedImageError "notes.txt")); vm_compute; reflexivity.
Defined.

(** X4.  When both paths lead to pictures, [initializeGL] succeeds and
    stores two different texture names, neither in use before; each names
    the upload of its own picture, and the background is the one left
    bound. *)
Theorem initializeGL_two_textures (w : World) (im bg : Image.t) :
  fs w !! texture_image (self w) = Some (Picture im) ->
  fs w !! background_image (self w) = Some (Picture bg) ->
  (0 <? String.length (background_image (self w)))%nat = true ->
  exists t b w',
    initializeGL w = Ok tt w' /\
    texture (self w') = Some t /\
    bg_texture (self w') = Some b /\
    t <> b /\
    textures (gl w) !! t = None /\
    textures (gl w) !! b = None /\
    textures (gl w') !! t = Some (uploaded im) /\
    textures (gl w') !! b = Some (uploaded bg) /\
    bound_texture (gl w') = b /\
    framebuffer (gl w') = framebuffer (gl w).
Proof.
  intros H1 H2 H3. do 3 eexists.
  split; [apply (initializeGL_both w im bg H1 H2 H3) |].
  cbn [gl set_gl set_self self texture bg_texture set_texture set_bg_texture].
  rewrite load_effect, init_load_effect.
  cbn [textures bound_texture framebuffer].
  destruct (second_name_fresh (fresh (dom (textures (gl w)))) (uploaded im) (textures (gl w)))
    as [Hne Hnone].
  split; [reflexivity |]. split; [reflexivity |].
  split; [congruence |].
  split; [apply fresh_texture |].
  split; [exact Hnone |].
  split; [rewrite lookup_insert_ne by exact Hne; apply lookup_insert_eq |].
  split; [apply lookup_insert_eq |].
  split; reflexivity.
Qed.

Lemma initializeGL_two_textures_witness :
  exists t b w',
    initializeGL (__init__ "earth.jpg" "stars.png" desktop) = Ok tt w' /\
    texture (self w') = Some t /\
    bg_texture (self w') = Some b /\
    t <> b /\
    textures (gl (__init__ "earth.jpg" "stars.png" desktop)) !! t = None /\
    textures (gl (__init__ "earth.jpg" "stars.png" desktop)) !! b = None /\
    textures (gl w') !! t = Some (uploaded earth_jpg) /\
    textures (gl w') !! b = Some (uploaded stars_png) /\
    bound_texture (gl w') = b /\
    framebuffer (gl w') = framebuffer (gl (__init__ "earth.jpg" "stars.png" desktop)).
Proof.
  apply (initializeGL_two_textures (__init__ "earth.jpg" "stars.png" desktop)
           earth_jpg stars_png); vm_compute; reflexivity.
Defined.

(** X5.  However [initializeGL] ends, by returning or by raising, it has
    set the clear colour to opaque black and enabled depth testing and
    texturing, and it has drawn nothing, left the viewport, the matrix
    mode and both matrix stacks alone, and changed neither the size of the
    widget nor the files. *)
Theorem initializeGL_always_sets_up (w : World) :
  clear_color (gl (world_of (initializeGL w)))
  = (PyFloat (lit 0 1), PyFloat (lit 0 1), PyFloat (lit 0 1), PyFloat (lit 10 1)) /\
  depth_test (gl (world_of (initializeGL w))) = true /\
  texture_2d (gl (world_of (initializeGL w))) = true /\
  framebuffer (gl (world_of (initializeGL w))) = framebuffer (gl w) /\
  viewport (gl (world_of (initializeGL w))) = viewport (gl w) /\
  matrix_mode (gl (world_of (initializeGL w))) = matrix_mode (gl w) /\
  projection (gl (world_of (initializeGL w))) = projection (gl w) /\
  modelview (gl (world_of (initializeGL w))) = modelview (gl w) /\
  qt (world_of (initializeGL w)) = qt w /\
  fs (world_of (initializeGL w)) = fs w.
Proof.
  destruct (Image.open (fs w) (texture_image (self w))) as [e | im] eqn:E1.
  { rewrite (initializeGL_raise w e E1). cbn [world_of gl set_gl qt fs].
    rewrite init_failed_effect. repeat split; reflexivity. }
  apply Image_open_inr in E1.
  destruct (0 <? String.length (background_image (self w)))%nat eqn:E2.
  - destruct (Image.open (fs w) (background_image (self w))) as [e | bg] eqn:E3.
    + rewrite (initializeGL_background_raise w im e E1 E3 E2).
      cbn [world_of gl set_gl set_self qt fs].
      rewrite load_failed_effect, init_load_effect. repeat split; reflexivity.
    + apply Image_open_inr in E3. rewrite (initializeGL_both w im bg E1 E3 E2).
      cbn [world_of gl set_gl set_self qt fs].
      rewrite load_effect, init_load_effect. repeat split; reflexivity.
  - rewrite (initializeGL_plain w im E1 (length_zero_empty _ E2)).
    cbn [world_of gl set_gl set_self qt fs].
    rewrite init_load_effect. repeat split; reflexivity.
Qed.

(** ** A widget in use *)

Lemma count_app {A} (f : A -> bool) (l l' : list A) :
  count f (l ++ l') = (count f l + count f l')%nat.
Proof. unfold count. rewrite filter_app, length_app. reflexivity. Qed.

Lemma steady_after_refl (t : N) (w : World) :
  texture (self w) = Some t -> matrix_mode (gl w) = GL_MODELVIEW ->
  steady_after t w w 0 0.
Proof.
  intros Ht Hm. unfold steady_after. rewrite !Nat.add_0_r.
  repeat split; try assumption; try reflexivity.
  destruct (bg_texture (self w)); lia.
Qed.

Lemma steady_after_trans (t : N) (w1 w2 w3 : World) (p1 p2 k1 k2 : nat) :
  steady_after t w1 w2 p1 k1 -> steady_after t w2 w3 p2 k2 ->
  steady_after t w1 w3 (p1 + p2) (k1 + k2).
Proof.
  unfold steady_after.
  intros (A1 & A2 & A3 & A4 & A5 & A6 & A7 & A8 & A9 & A10 & A11 & A12 & A13)
         (B1 & B2 & B3 & B4 & B5 & B6 & B7 & B8 & B9 & B10 & B11 & B12 & B13).
  rewrite A2 in B2, B12.
  repeat split; try congruence; try lia.
  - rewrite B12, A12. destruct (bg_texture (self w1)); lia.
  - rewrite B13, A13, Nat2N.inj_add, N.add_comm, N.iter_add. reflexivity.
Qed.

Lemma dispatch_steady (e : event) (w : World) (t : N) :
  steady_event e ->
  texture (self w) = Some t ->
  matrix_mode (gl w) = GL_MODELVIEW ->
  QTimer.active (timer (self w)) = true ->
  QTimer.timeout (timer (self w)) = [ update_frame_slot ] ->
  exists w',
    dispatch e w = Ok tt w' /\
    steady_after t w w' (if is_paint e then 1 else 0) (if is_timeout e then 1 else 0).
Proof.
  intros He Ht Hm Ha Hs. destruct e as [| width height | |]; cbn [dispatch is_paint is_timeout].
  - destruct He.
  - destruct He as [Hw Hh].
    destruct (aspect_defined width height Hw) as (aspect & Hasp & _).
    eexists. split; [apply (resize_run _ _ _ _ Hasp) |].
    unfold steady_after. cbn [self qt gl fs]. rewrite resize_effect.
    cbn [matrix_mode textures quadrics framebuffer]. rewrite !Nat.add_0_r.
    repeat split; try assumption; try reflexivity.
    destruct (bg_texture (self w)); lia.
  - unfold mbind, M_bind, gets. rewrite Ha, Hs.
    cbn [run_slots run_slot]. unfold mbind, M_bind. rewrite update_frame_run.
    eexists. split; [reflexivity |].
    unfold steady_after. cbn [self qt gl fs set_angle angle texture bg_texture
                              texture_image background_image timer].
    rewrite !Nat.add_0_r.
    repeat split; try assumption; try reflexivity.
    destruct (bg_texture (self w)); lia.
  - unfold repaint, mbind, M_bind, modify.
    eexists. split; [apply (paintGL_run _ t); exact Ht |].
    assert (Hq : quadrics (gl w) !! fresh (dom (quadrics (gl w))) = None)
      by (apply not_elem_of_dom, is_fresh).
    unfold steady_after. cbn [self qt gl fs set_qt set_gl QWidget.width QWidget.height].
    destruct (bg_texture (self w)) as [bg |] eqn:Eb.
    + rewrite (paint_effect_background _ _ _ _ _ _ _ Hm Hq).
      cbn [matrix_mode textures quadrics framebuffer].
      rewrite !count_app.
      repeat split; try assumption; try reflexivity.
    + rewrite (paint_effect_plain _ _ _ _ _ _ Hm Hq).
      cbn [matrix_mode textures quadrics framebuffer].
      rewrite !count_app.
      repeat split; try assumption; try reflexivity.
Qed.

Lemma count_cons_bool {A} (f : A -> bool) (x : A) (l : list A) :
  count f (x :: l) = ((if f x then 1 else 0) + count f l)%nat.
Proof.
  unfold count. rewrite filter_cons.
  destruct (decide (f x = true)) as [E | E]; destruct (f x); try congruence; reflexivity.
Qed.

Lemma run_steady (es : list event) (w : World) (t : N) :
  Forall steady_event es ->
  texture (self w) = Some t ->
  matrix_mode (gl w) = GL_MODELVIEW ->
  QTimer.active (timer (self w)) = true ->
  QTimer.timeout (timer (self w)) = [ update_frame_slot ] ->
  exists w',
    run es w = Ok tt w' /\
    steady_after t w w' (count is_paint es) (count is_timeout es).
Proof.
  intros Hes. revert w. induction Hes as [| e es He Hes IH]; intros w Ht Hm Ha Hs.
  - exists w. split; [reflexivity |]. apply steady_after_refl; assumption.
  - destruct (dispatch_steady e w t He Ht Hm Ha Hs) as (w1 & E1 & S1).
    pose proof S1 as (T1 & _ & _ & _ & T5 & _ & T7 & _).
    destruct (IH w1 T1 T7 ltac:(rewrite T5; exact Ha) ltac:(rewrite T5; exact Hs))
      as (w2 & E2 & S2).
    exists w2. split.
    + cbn [run]. unfold mbind, M_bind. rewrite E1. exact E2.
    + rewrite !count_cons_bool. exact (steady_after_trans _ _ _ _ _ _ _ _ S1 S2).
Qed.

(** X6.  Resizes do not pile up: after two of them the context is the one
    a single resize to the second size gives, the log of calls apart.  The
    projection is the one perspective of the last size, the viewport is
    the last size, and the model-view stack and the framebuffer are
    untouched. *)
Theorem resize_last_wins (w : World) (width1 height1 width2 height2 : Z) :
  c_int width1 -> c_int width2 ->
  exists v1 v2 v aspect,
    resize width1 height1 w = Ok tt v1 /\
    resize width2 height2 v1 = Ok tt v2 /\
    resize width2 height2 w = Ok tt v /\
    set_calls [] (gl v2) = set_calls [] (gl v) /\
    self v2 = self v /\
    qt v2 = qt v /\
    viewport (gl v2) = (PyInt 0, PyInt 0, PyInt width2, PyInt height2) /\
    current (projection (gl v2))
    = [ Perspective (PyFloat (lit 450 1)) (PyFloat aspect) (PyFloat (lit 1 1))
                    (PyFloat (lit 1000 1)) ] /\
    saved (projection (gl v2)) = saved (projection (gl w)) /\
    modelview (gl v2) = modelview (gl w) /\
    framebuffer (gl v2) = framebuffer (gl w).
Proof.
  intros H1 H2.
  destruct (aspect_defined width1 height1 H1) as (a1 & Ha1 & _).
  destruct (aspect_defined width2 height2 H2) as (a2 & Ha2 & _).
  do 3 eexists. exists a2.
  split; [apply (resize_run _ _ _ _ Ha1) |].
  split; [apply (resize_run _ _ _ _ Ha2) |].
  split; [apply (resize_run _ _ _ _ Ha2) |].
  cbn [gl self qt QWidget.update_pending]. rewrite !resize_effect.
  cbn [viewport projection current saved modelview framebuffer].
  repeat split; reflexivity.
Qed.

Lemma resize_last_wins_witness :
  exists v1 v2 v aspect,
    resize 640 480 (started "earth.jpg" "stars.png") = Ok tt v1 /\
    resize 1920 1080 v1 = Ok tt v2 /\
    resize 1920 1080 (started "earth.jpg" "stars.png") = Ok tt v /\
    set_calls [] (gl v2) = set_calls [] (gl v) /\
    self v2 = self v /\
    qt v2 = qt v /\
    viewport (gl v2) = (PyInt 0, PyInt 0, PyInt 1920, PyInt 1080) /\
    current (projection (gl v2))
    = [ Perspective (PyFloat (lit 450 1)) (PyFloat aspect) (PyFloat (lit 1 1))
                    (PyFloat (lit 1000 1)) ] /\
    saved (projection (gl v2)) = saved (projection (gl (started "earth.jpg" "stars.png"))) /\
    modelview (gl v2) = modelview (gl (started "earth.jpg" "stars.png")) /\
    framebuffer (gl v2) = framebuffer (gl (started "earth.jpg" "stars.png")).
Proof.
  apply (resize_last_wins (started "earth.jpg" "stars.png") 640 480 1920 1080);
    unfold c_int; lia.
Defined.

(** X7.  Once the sphere texture is stored, rendering has no error path:
    every resize, timeout and repaint the toolkit delivers is handled.
    Afterwards the two texture handles are the ones stored, and the
    context holds the same textures and the same quadrics as before: a
    widget in use allocates nothing and releases nothing. *)
Theorem steady_rendering_never_fails (es : list event) (w : World) (t : N) :
  Forall steady_event es ->
  texture (self w) = Some t ->
  matrix_mode (gl w) = GL_MODELVIEW ->
  QTimer.active (timer (self w)) = true ->
  QTimer.timeout (timer (self w)) = [ update_frame_slot ] ->
  exists w',
    run es w = Ok tt w' /\
    texture (self w') = Some t /\
    bg_texture (self w') = bg_texture (self w) /\
    textures (gl w') = textures (gl w) /\
    quadrics (gl w') = quadrics (gl w) /\
    matrix_mode (gl w') = GL_MODELVIEW.
Proof.
  intros Hes Ht Hm Ha Hs.
  destruct (run_steady es w t Hes Ht Hm Ha Hs)
    as (w' & E & S1 & S2 & _ & _ & _ & _ & S7 & S8 & S9 & _).
  exists w'. repeat split; assumption.
Qed.

Lemma steady_rendering_never_fails_witness :
  exists w',
    run [ Resized 800 600; Timeout; PaintDue; Timeout; PaintDue ]
        (started "earth.jpg" "stars.png") = Ok tt w' /\
    texture (self w') = Some 0%N /\
    bg_texture (self w') = bg_texture (self (started "earth.jpg" "stars.png")) /\
    textures (gl w') = textures (gl (started "earth.jpg" "stars.png")) /\
    quadrics (gl w') = quadrics (gl (started "earth.jpg" "stars.png")) /\
    matrix_mode (gl w') = GL_MODELVIEW.
Proof.
  apply (steady_rendering_never_fails
           [ Resized 800 600; Timeout; PaintDue; Timeout; PaintDue ]
           (started "earth.jpg" "stars.png") 0%N);
    [ repeat constructor; unfold c_int; lia | vm_compute; reflexivity ..].
Defined.

(** X8.  Over any run of a widget in use, each repaint puts exactly one
    clear and one sphere into the framebuffer, and exactly one quad when a
    background texture is stored, none otherwise; resizes and timeouts
    draw nothing. *)
Theorem one_frame_per_repaint (es : list event) (w : World) (t : N) :
  Forall steady_event es ->
  texture (self w) = Some t ->
  matrix_mode (gl w) = GL_MODELVIEW ->
  QTimer.active (timer (self w)) = true ->
  QTimer.timeout (timer (self w)) = [ update_frame_slot ] ->
  exists w',
    run es w = Ok tt w' /\
    count is_clear (framebuffer (gl w'))
    = (count is_clear (framebuffer (gl w)) + count is_paint es)%nat /\
    count is_sphere (framebuffer (gl w'))
    = (count is_sphere (framebuffer (gl w)) + count is_paint es)%nat /\
    count is_quad (framebuffer (gl w'))
    = (count is_quad (framebuffer (gl w))
       + if bg_texture (self w) is Some _ then count is_paint es else 0)%nat.
Proof.
  intros Hes Ht Hm Ha Hs.
  destruct (run_steady es w t Hes Ht Hm Ha Hs)
    as (w' & E & _ & _ & _ & _ & _ & _ & _ & _ & _ & S10 & S11 & S12 & _).
  exists w'. repeat split; assumption.
Qed.

Lemma one_frame_per_repaint_witness :
  exists w',
    run [ Resized 800 600; Timeout; PaintDue; Timeout; PaintDue ]
        (started "earth.jpg" "stars.png") = Ok tt w' /\
    count is_clear (framebuffer (gl w'))
    = (count is_clear (framebuffer (gl (started "earth.jpg" "stars.png")))
       + count is_paint [ Resized 800 600; Timeout; PaintDue; Timeout; PaintDue ])%nat /\
    count is_sphere (framebuffer (gl w'))
    = (count is_sphere (framebuffer (gl (started "earth.jpg" "stars.png")))
       + count is_paint [ Resized 800 600; Timeout; PaintDue; Timeout; PaintDue ])%nat /\
    count is_quad (framebuffer (gl w'))
    = (count is_quad (framebuffer (gl (started "earth.jpg" "stars.png")))
       + if bg_texture (self (started "earth.jpg" "stars.png")) is Some _
         then count is_paint [ Resized 800 600; Timeout; PaintDue; Timeout; PaintDue ]
         else 0)%nat.
Proof.
  apply (one_frame_per_repaint
           [ Resized 800 600; Timeout; PaintDue; Timeout; PaintDue ]
           (started "earth.jpg" "stars.png") 0%N);
    [ repeat constructor; unfold c_int; lia | vm_compute; reflexivity ..].
Defined.

(** X9.  Over any run of a widget in use, the angle has grown by one
    float addition of 0.5 per timeout delivered, whatever resizes and
    repaints came in between: only [update_frame] touches the angle, and
    each timeout calls it once.  Counted from angle 0, and up to [2 ^ 53]
    timeouts, the angle is exactly half the number of timeouts. *)
Theorem angle_counts_timeouts (es : list event) (w : World) (t : N) :
  Forall steady_event es ->
  texture (self w) = Some t ->
  matrix_mode (gl w) = GL_MODELVIEW ->
  QTimer.active (timer (self w)) = true ->
  QTimer.timeout (timer (self w)) = [ update_frame_slot ] ->
  exists w',
    run es w = Ok tt w' /\
    angle (self w')
    = N.iter (N.of_nat (count is_timeout es)) (fun a => float_add a (lit 5 1))
             (angle (self w)) /\
    (angle (self w) = S754_zero false ->
     (N.of_nat (count is_timeout es) <= 2 ^ 53)%N ->
     exists q, SF2Q (angle (self w')) = Some q /\
               (q == Z.of_nat (count is_timeout es) # 2)%Q).
Proof.
  intros Hes Ht Hm Ha Hs.
  destruct (run_steady es w t Hes Ht Hm Ha Hs)
    as (w' & E & _ & _ & _ & _ & _ & _ & _ & _ & _ & _ & _ & _ & S13).
  exists w'. split; [exact E |]. split; [exact S13 |].
  intros H0 Hn. rewrite S13, H0, iter_add_half.
  rewrite Z.min_l by lia. rewrite nat_N_Z.
  apply SF2Q_halves. lia.
Qed.

Lemma angle_counts_timeouts_witness :
  exists w',
    run [ Resized 800 600; Timeout; PaintDue; Timeout; PaintDue ]
        (started "earth.jpg" "stars.png") = Ok tt w' /\
    angle (self w')
    = N.iter (N.of_nat (count is_timeout
                          [ Resized 800 600; Timeout; PaintDue; Timeout; PaintDue ]))
             (fun a => float_add a (lit 5 1))
             (angle (self (started "earth.jpg" "stars.png"))) /\
    (angle (self (started "earth.jpg" "stars.png")) = S754_zero false ->
     (N.of_nat (count is_timeout [ Resized 800 600; Timeout; PaintDue; Timeout; PaintDue ])
      <= 2 ^ 53)%N ->
     exists q, SF2Q (angle (self w')) = Some q /\
               (q == Z.of_nat (count is_timeout
                                 [ Resized 800 600; Timeout; PaintDue; Timeout; PaintDue ])
                     # 2)%Q).
Proof.
  apply (angle_counts_timeouts
           [ Resized 800 600; Timeout; PaintDue; Timeout; PaintDue ]
           (started "earth.jpg" "stars.png") 0%N);
    [ repeat constructor; unfold c_int; lia | vm_compute; reflexivity ..].
Defined.

(** X10.  Frames do not pile up either: a repaint that follows a repaint
    with no timeout in between issues the same calls and draws the same
    frame again.  The model-view matrix is rebuilt from the identity each
    time, the projection is left as found, and the quadric name is free
    again for the second frame. *)
Theorem repaint_repeats_frame (w : World) (t : N) :
  texture (self w) = Some t ->
  matrix_mode (gl w) = GL_MODELVIEW ->
  exists w1 w2 frame cs,
    paintGL w = Ok tt w1 /\
    paintGL w1 = Ok tt w2 /\
    calls (gl w1) = calls (gl w) ++ cs /\
    calls (gl w2) = calls (gl w) ++ cs ++ cs /\
    framebuffer (gl w1) = framebuffer (gl w) ++ frame /\
    framebuffer (gl w2) = framebuffer (gl w) ++ frame ++ frame /\
    count is_sphere frame = 1%nat /\
    projection (gl w2) = projection (gl w) /\
    saved (modelview (gl w2)) = saved (modelview (gl w)).
Proof.
  intros Ht Hm.
  set (q := fresh (dom (quadrics (gl w)))).
  assert (Hq : quadrics (gl w) !! q = None) by (apply not_elem_of_dom, is_fresh).
  set (cs := paint_calls (angle (self w)) (QWidget.width (qt w)) (QWidget.height (qt w))
                         (bg_texture (self w)) t q).
  set (w1 := set_gl (run_calls cs (gl w)) w).
  assert (E1 : paintGL w = Ok tt w1) by apply (paintGL_run w t Ht).
  assert (Hg1 : quadrics (gl w1) = quadrics (gl w) /\ matrix_mode (gl w1) = GL_MODELVIEW).
  { subst w1 cs. cbn [gl set_gl]. destruct (bg_texture (self w)).
    - rewrite (paint_effect_background _ _ _ _ _ _ _ Hm Hq). split; reflexivity.
    - rewrite (paint_effect_plain _ _ _ _ _ _ Hm Hq). split; reflexivity. }
  destruct Hg1 as [Hq1 Hm1].
  assert (E2 : paintGL w1 = Ok tt (set_gl (run_calls cs (gl w1)) w1)).
  { rewrite (paintGL_run w1 t Ht). rewrite Hq1. reflexivity. }
  assert (Hq' : quadrics (gl w1) !! q = None) by (rewrite Hq1; exact Hq).
  assert (Hc1 : calls (gl w1) = calls (gl w) ++ cs) by apply calls_run_calls.
  assert (Hc2 : calls (run_calls cs (gl w1)) = calls (gl w) ++ cs ++ cs).
  { rewrite calls_run_calls, Hc1. symmetry. apply app_assoc. }
  exists w1, (set_gl (run_calls cs (gl w1)) w1).
  destruct (bg_texture (self w)) as [bg |] eqn:Eb.
  - assert (F2 : run_calls cs (gl w1) = _)
      by (subst cs; apply (paint_effect_background _ _ _ _ _ _ _ Hm1 Hq')).
    assert (F1 : gl w1 = _)
      by (subst w1 cs; cbn [gl set_gl]; apply (paint_effect_background _ _ _ _ _ _ _ Hm Hq)).
    exists [ Cleared (Z.lor GL_COLOR_BUFFER_BIT GL_DEPTH_BUFFER_BIT);
             background_quad (QWidget.width (qt w)) (QWidget.height (qt w)) bg
                             (viewport (gl w)) (texture_2d (gl w));
             Sphere (PyFloat (lit 15 1)) 32 32 true
               {| p_viewport := viewport (gl w);
                  p_projection := current (projection (gl w));
                  p_modelview := sphere_modelview (angle (self w));
                  p_depth_test := true;
                  p_texturing := texture_2d (gl w);
                  p_texture := t |} ], cs.
    split; [exact E1 |]. split; [exact E2 |].
    split; [exact Hc1 |]. split; [exact Hc2 |].
    cbn [gl set_gl]. rewrite F2, F1.
    cbn [framebuffer projection modelview saved viewport texture_2d current].
    split; [reflexivity |].
    split; [symmetry; apply app_assoc |].
    split; [reflexivity |]. split; reflexivity.
  - assert (F2 : run_calls cs (gl w1) = _)
      by (subst cs; apply (paint_effect_plain _ _ _ _ _ _ Hm1 Hq')).
    assert (F1 : gl w1 = _)
      by (subst w1 cs; cbn [gl set_gl]; apply (paint_effect_plain _ _ _ _ _ _ Hm Hq)).
    exists [ Cleared (Z.lor GL_COLOR_BUFFER_BIT GL_DEPTH_BUFFER_BIT);
             Sphere (PyFloat (lit 15 1)) 32 32 true
               {| p_viewport := viewport (gl w);
                  p_projection := current (projection (gl w));
                  p_modelview := sphere_modelview (angle (self w));
                  p_depth_test := depth_test (gl w);
                  p_texturing := texture_2d (gl w);
                  p_texture := t |} ], cs.
    split; [exact E1 |]. split; [exact E2 |].
    split; [exact Hc1 |]. split; [exact Hc2 |].
    cbn [gl set_gl]. rewrite F2, F1.
    cbn [framebuffer projection modelview saved viewport texture_2d current depth_test].
    split; [reflexivity |].
    split; [symmetry; apply app_assoc |].
    split; [reflexivity |]. split; reflexivity.
Qed.

Lemma repaint_repeats_frame_witness :
  exists w1 w2 frame cs,
    paintGL (started "earth.jpg" "stars.png") = Ok tt w1 /\
    paintGL w1 = Ok tt w2 /\
    calls (gl w1) = calls (gl (started "earth.jpg" "stars.png")) ++ cs /\
    calls (gl w2) = calls (gl (started "earth.jpg" "stars.png")) ++ cs ++ cs /\
    framebuffer (gl w1) = framebuffer (gl (started "earth.jpg" "stars.png")) ++ frame /\
    framebuffer (gl w2)
    = framebuffer (gl (started "earth.jpg" "stars.png")) ++ frame ++ frame /\
    count is_sphere frame = 1%nat /\
    projection (gl w2) = projection (gl (started "earth.jpg" "stars.png")) /\
    saved (modelview (gl w2)) = saved (modelview (gl (started "earth.jpg" "stars.png"))).
Proof.
  apply (repaint_repeats_frame (started "earth.jpg" "stars.png") 0%N);
    vm_compute; reflexivity.
Defined.

(** ** What no method undoes *)

Lemma evolves_refl (w : World) : evolves w w.
Proof. unfold evolves. repeat split; reflexivity. Qed.

Lemma evolves_trans (w1 w2 w3 : World) : evolves w1 w2 -> evolves w2 w3 -> evolves w1 w3.
Proof.
  unfold evolves. intros (A1 & A2 & A3 & A4 & A5 & A6) (B1 & B2 & B3 & B4 & B5 & B6).
  repeat split; try congruence. set_solver.
Qed.

Lemma textures_dom_gl_exec (c : gl_call) (g : GLState) :
  dom (textures g) ⊆ dom (textures (gl_exec c g)).
Proof.
  unfold gl_exec, gl_step.
  destruct c; repeat case_match;
    cbn [textures set_calls emit set_framebuffer set_clear_color set_depth_test
         set_texture_2d set_viewport set_matrix_mode set_projection set_modelview
         set_texcoord set_primitive set_bound_texture set_textures set_quadrics
         set_selected mult];
    try reflexivity;
    first [ rewrite dom_insert_L; set_solver | rewrite dom_alter_L; reflexivity ].
Qed.

Lemma keeps_ret {A} (a : A) : keeps (mret a).
Proof. intros w. apply evolves_refl. Qed.

Lemma keeps_raise {A} (e : exn) : keeps (@raise A e).
Proof. intros w. apply evolves_refl. Qed.

Lemma keeps_gets {A} (f : World -> A) : keeps (gets f).
Proof. intros w. apply evolves_refl. Qed.

Lemma keeps_lift {A} (r : exn + A) : keeps (lift r).
Proof. destruct r; intros w; apply evolves_refl. Qed.

Lemma keeps_bind {A B} (m : M A) (f : A -> M B) :
  keeps m -> (forall a, keeps (f a)) -> keeps (m ≫= f).
Proof.
  intros Hm Hf w. unfold mbind, M_bind. specialize (Hm w).
  destruct (m w) as [a w1 | e w1]; cbn [world_of] in *; [| exact Hm].
  exact (evolves_trans _ _ _ Hm (Hf a w1)).
Qed.

Lemma keeps_call (c : gl_call) : quadric_call c = false -> keeps (call c).
Proof.
  intros Hc w. unfold call, modify, evolves. cbn [world_of self fs gl set_gl].
  repeat split; try reflexivity.
  - apply textures_dom_gl_exec.
  - apply quadrics_gl_exec, Hc.
Qed.

Lemma keeps_modify (f : World -> World) : (forall w, evolves w (f w)) -> keeps (modify f).
Proof. intros H w. exact (H w). Qed.

Lemma keeps_as_name (t : option N) : keeps (as_name t).
Proof. destruct t; [apply keeps_ret | apply keeps_raise]. Qed.

Lemma draw_textured_sphere_run (w : World) (t : N) (radius : spec_float)
  (slices stacks : Z) :
  texture (self w) = Some t ->
  draw_textured_sphere radius slices stacks w
  = Ok tt (set_gl (run_calls (sphere_calls t (fresh (dom (quadrics (gl w)))) radius
                                           slices stacks) (gl w)) w).
Proof.
  destruct w as [[a tx ti bg bi tm] q g f]; cbn [self texture]; intros ->.
  step_monad. rewrite !quadrics_gl_exec by reflexivity. reflexivity.
Qed.

Lemma keeps_draw_textured_sphere (radius : spec_float) (slices stacks : Z) :
  keeps (draw_textured_sphere radius slices stacks).
Proof.
  intros w. destruct (texture (self w)) as [t |] eqn:Et.
  - rewrite (draw_textured_sphere_run w t _ _ _ Et). cbn [world_of].
    unfold evolves. cbn [self fs gl set_gl].
    rewrite sphere_effect by (apply not_elem_of_dom, is_fresh).
    cbn [textures quadrics]. repeat split; reflexivity.
  - destruct w as [[a tx ti bg bi tm] q g f]. cbn [self texture] in Et. subst tx.
    apply evolves_refl.
Qed.

(** The rules above, applied by the shape of the computation. *)
Ltac keeps_step :=
  lazymatch goal with
  | |- keeps (draw_textured_sphere _ _ _) => apply keeps_draw_textured_sphere
  | |- keeps (_ ≫= _) => apply keeps_bind; [| intros ?]
  | |- keeps (call _) => apply keeps_call; reflexivity
  | |- keeps (gets _) => apply keeps_gets
  | |- keeps (mret _) => apply keeps_ret
  | |- keeps (raise _) => apply keeps_raise
  | |- keeps (lift _) => apply keeps_lift
  | |- keeps (as_name _) => apply keeps_as_name
  | |- keeps (modify _) =>
      apply keeps_modify; intros ?; unfold evolves; repeat split; reflexivity
  | |- keeps (if ?b then _ else _) => destruct b
  | |- keeps (match ?b with Some _ => _ | None => _ end) => destruct b
  end.

Lemma keeps_load_texture (path : string) : keeps (load_texture path).
Proof. unfold load_texture, gen_texture. repeat keeps_step. Qed.

Lemma keeps_initializeGL : keeps initializeGL.
Proof.
  unfold initializeGL.
  repeat first
    [ lazymatch goal with |- keeps (load_texture _) => apply keeps_load_texture end
    | keeps_step ].
Qed.

Lemma keeps_resizeGL (w h : Z) : keeps (resizeGL w h).
Proof. unfold resizeGL. repeat keeps_step. Qed.

Lemma keeps_update_frame : keeps update_frame.
Proof. unfold update_frame, update. repeat keeps_step. Qed.

Lemma keeps_render_background : keeps render_background.
Proof. unfold render_background. repeat keeps_step. Qed.

Lemma keeps_paintGL : keeps paintGL.
Proof.
  unfold paintGL.
  repeat first
    [ lazymatch goal with |- keeps render_background => apply keeps_render_background end
    | keeps_step ].
Qed.

Lemma keeps_run_slots (ss : list slot) : keeps (run_slots ss).
Proof.
  induction ss as [| [] ss IH]; cbn [run_slots run_slot]; [apply keeps_ret |].
  apply keeps_bind; [apply keeps_update_frame | intros _; exact IH].
Qed.

Lemma keeps_dispatch (e : event) : keeps (dispatch e).
Proof.
  destruct e; cbn [dispatch].
  - apply keeps_initializeGL.
  - unfold resize.
    apply keeps_bind; [keeps_step | intros _; apply keeps_resizeGL].
  - apply keeps_bind; [apply keeps_gets | intros tm].
    destruct (QTimer.active tm); [apply keeps_run_slots | apply keeps_ret].
  - unfold repaint.
    apply keeps_bind; [keeps_step | intros _; apply keeps_paintGL].
Qed.

Lemma keeps_run (es : list event) : keeps (run es).
Proof.
  induction es as [| e es IH]; cbn [run]; [apply keeps_ret |].
  apply keeps_bind; [apply keeps_dispatch | intros _; exact IH].
Qed.

(** X12.  Whatever events are delivered, in whatever state, and whether
    the run ends normally or in an exception: the two image paths, the
    timer and the files are unchanged, no texture name that was in use has
    been released, and the live quadrics are those there were.  Textures
    are never deleted, not even the ones a failed load left behind. *)
Theorem nothing_is_released (es : list event) (w : World) :
  texture_image (self (world_of (run es w))) = texture_image (self w) /\
  background_image (self (world_of (run es w))) = background_image (self w) /\
  timer (self (world_of (run es w))) = timer (self w) /\
  fs (world_of (run es w)) = fs w /\
  dom (textures (gl w)) ⊆ dom (textures (gl (world_of (run es w)))) /\
  quadrics (gl (world_of (run es w))) = quadrics (gl w).
Proof. exact (keeps_run es w). Qed.

(** ** The main window *)

Lemma Image_open_error (files : gmap string (file Image.t)) (path : string) (e : exn) :
  Image.open files path = inl e -> ImageLoadError e = true.
Proof.
  unfold Image.open. destruct (files !! path) as [[| |] |]; intros H; inversion H; reflexivity.
Qed.

(** X11.  The widget the main window creates and makes its central widget
    has the day map as texture and no background.  So the application goes
    one of two ways.  Either the day map is a picture: then [initializeGL]
    succeeds, the widget is [Ready] without background texture, and
    whatever events follow are handled and never draw a quad.  Or it is
    not: then [initializeGL] raises the loader's error and the widget stays
    [Uninitialized]. *)
Theorem main_window_widget (host : Parent) :
  MainWindow.centralWidget (MainWindow.__init__ host)
  = Some (MainWindow.opengl_widget (MainWindow.__init__ host)) /\
  ((exists im w0,
      parent_fs host !! "8k_earth_daymap.jpg" = Some (Picture im) /\
      initializeGL (MainWindow.opengl_widget (MainWindow.__init__ host)) = Ok tt w0 /\
      Ready w0 /\
      bg_texture (self w0) = None /\
      forall es, Forall toolkit_event es ->
        exists w1,
          run es w0 = Ok tt w1 /\
          Forall (fun d => is_quad d = false) (framebuffer (gl w1)))
   \/
   (exists e w',
      Image.open (parent_fs host) "8k_earth_daymap.jpg" = inl e /\
      initializeGL (MainWindow.opengl_widget (MainWindow.__init__ host)) = Raise e w' /\
      ImageLoadError e = true /\
      Uninitialized w' /\
      framebuffer (gl w') = [])).
Proof.
  split; [reflexivity |].
  set (w := MainWindow.opengl_widget (MainWindow.__init__ host)).
  destruct (Image.open (parent_fs host) "8k_earth_daymap.jpg") as [e | im] eqn:E.
  - right. exists e. eexists. split; [reflexivity |].
    split; [apply (initializeGL_raise w e E) |].
    split; [exact (Image_open_error _ _ _ E) |].
    split; [reflexivity |].
    cbn [gl set_gl]. rewrite init_failed_effect. reflexivity.
  - left. apply Image_open_inr in E. exists im. eexists. split; [exact E |].
    split; [apply (initializeGL_plain w im E eq_refl) |].
    match goal with |- Ready ?v /\ _ => set (w0 := v) end.
    assert (Hinv : no_background im w0).
    { subst w0. repeat split.
      - eexists. reflexivity.
      - exact E.
      - cbn [gl set_gl set_self]. apply framebuffer_run_calls; [reflexivity | constructor].
      - cbn [gl set_gl set_self]. rewrite calls_run_calls. repeat constructor. }
    split; [subst w0; discriminate |]. split; [reflexivity |].
    intros es Hes. destruct (run_no_background im es w0 Hes Hinv) as (w1 & E1 & H1).
    exists w1. split; [exact E1 |]. apply H1.
Qed.

(** ** The background on its own *)

(** X13.  [render_background] puts exactly one quad into the framebuffer
    and restores both matrix stacks, but not all it found: whatever the
    depth test, the matrix mode and the bound texture were before, it
    leaves depth testing enabled, the matrix mode at model-view and the
    background texture bound.  It creates no texture and no quadric, and
    changes no attribute of the widget. *)
Theorem render_background_leaves (w : World) (bg : N) :
  bg_texture (self w) = Some bg ->
  exists w' quad,
    render_background w = Ok tt w' /\
    framebuffer (gl w') = framebuffer (gl w) ++ [ quad ] /\
    is_quad quad = true /\
    depth_test (gl w') = true /\
    matrix_mode (gl w') = GL_MODELVIEW /\
    bound_texture (gl w') = bg /\
    projection (gl w') = projection (gl w) /\
    modelview (gl w') = modelview (gl w) /\
    textures (gl w') = textures (gl w) /\
    quadrics (gl w') = quadrics (gl w) /\
    self w' = self w /\
    qt w' = qt w.
Proof.
  intros Hb. do 2 eexists. split; [apply (render_background_run w bg Hb) |].
  cbn [gl set_gl self qt]. rewrite background_effect.
  cbn [framebuffer depth_test matrix_mode bound_texture projection modelview textures
       quadrics].
  split; [reflexivity |]. repeat split; reflexivity.
Qed.

Lemma render_background_leaves_witness :
  exists w' quad,
    render_background (started "earth.jpg" "stars.png") = Ok tt w' /\
    framebuffer (gl w') = framebuffer (gl (started "earth.jpg" "stars.png")) ++ [ quad ] /\
    is_quad quad = true /\
    depth_test (gl w') = true /\
    matrix_mode (gl w') = GL_MODELVIEW /\
    bound_texture (gl w') = 1%N /\
    projection (gl w') = projection (gl (started "earth.jpg" "stars.png")) /\
    modelview (gl w') = modelview (gl (started "earth.jpg" "stars.png")) /\
    textures (gl w') = textures (gl (started "earth.jpg" "stars.png")) /\
    quadrics (gl w') = quadrics (gl (started "earth.jpg" "stars.png")) /\
    self w' = self (started "earth.jpg" "stars.png") /\
    qt w' = qt (started "earth.jpg" "stars.png").
Proof.
  apply (render_background_leaves (started "earth.jpg" "stars.png") 1%N).
  vm_compute. reflexivity.
Defined.
